(** * Sumano OMS front end: offline storage, API client and form logic

    A shallow embedding of the JavaScript sources
      - hooks/useOfflineStorage.js  (loadFromStorage ... updateFileQueueStatus)
      - hooks/useApiClient.js       (makeRequest, submitClientIntake, uploadFile)
      - components/FileUploader.jsx (validateFile, handleUpload, syncOfflineQueue)
      - components/ClientIntakeForm.jsx (onSubmit)
      - components/PilotAcceptanceForm.jsx (calculateCompletion, submit button)
      - web/components/ChangeRequestForm (handleSignatureSubmit)
      - PilotHandoverForm (generateDocument, formReducer,
        calculateCompletionPercentage, onSubmit)
      - components/FileList.jsx (filter, pagination, handleDeleteConfirm)
    Asynchronous functions are written in a state-and-exception monad: an
    [await] is a bind, [try/catch/finally] are combinators, and the browser
    (local storage, network, clock, alerts) is an explicit [World]. *)

From Stdlib Require Import ssreflect ZArith List String Ascii Bool Lia DecimalString Sorted.
From Stdlib Require Floats Uint63.
From stdpp Require Import gmap strings list.

Open Scope Z_scope.
Set Warnings "-register-all,-rewrite-rw".

(** ** JavaScript values *)

Inductive value : Type :=
| VUndefined
| VNull
| VBool (b : bool)
| VNum (n : Z)
| VNaN
| VStr (s : string)
| VDate (t : Z)                       (* a valid Date, by its time value in ms *)
| VArr (items : list value)
| VObj (props : list (string * value)).

(** A thrown [Error]: only its [message] is ever inspected by the code. *)
Record JsError : Type := Error { err_name : string; message : string }.

Definition new_Error (msg : string) : JsError := Error "Error" msg.

Inductive outcome (A : Type) : Type :=
| Return (a : A)
| Throw (e : JsError).
Arguments Return {A} a.
Arguments Throw {A} e.

(** [!!v] of JavaScript, as a boolean. *)
Definition truthy (v : value) : bool :=
  match v with
  | VUndefined | VNull | VNaN => false
  | VBool b => b
  | VNum n => negb (n =? 0)
  | VStr s => negb (String.eqb s "")
  | VDate _ | VArr _ | VObj _ => true
  end.

(** [a || b] on values. *)
Definition js_or (a b : value) : value := if truthy a then a else b.

Definition is_array (v : value) : bool :=
  match v with VArr _ => true | _ => false end.

(** Objects keep their properties in insertion order. *)
Fixpoint alist_lookup {A} (k : string) (l : list (string * A)) : option A :=
  match l with
  | [] => None
  | (k', a) :: l' => if String.eqb k k' then Some a else alist_lookup k l'
  end.

(** Assignment [o[k] = a]: in place when the key exists, appended otherwise. *)
Fixpoint alist_set {A} (k : string) (a : A) (l : list (string * A)) : list (string * A) :=
  match l with
  | [] => [(k, a)]
  | (k', a') :: l' =>
      if String.eqb k k' then (k, a) :: l' else (k', a') :: alist_set k a l'
  end.

Fixpoint alist_remove {A} (k : string) (l : list (string * A)) : list (string * A) :=
  match l with
  | [] => []
  | (k', a') :: l' =>
      if String.eqb k k' then alist_remove k l' else (k', a') :: alist_remove k l'
  end.

(** Property read [o.k] on a value that is not null or undefined. *)
Definition get (o : value) (k : string) : value :=
  match o with
  | VObj props => default VUndefined (alist_lookup k props)
  | _ => VUndefined
  end.

(** Property write [o.k = v] on an object. *)
Definition set (o : value) (k : string) (v : value) : value :=
  match o with
  | VObj props => VObj (alist_set k v props)
  | _ => o
  end.

(** Object spread [{...a, ...b}]. *)
Definition spread (a b : list (string * value)) : list (string * value) :=
  fold_left (fun acc kv => alist_set (fst kv) (snd kv) acc) b a.

(** [a === s] against a string literal. *)
Definition str_is (a : value) (s : string) : bool :=
  match a with VStr s' => String.eqb s' s | _ => false end.

(** The one-character text of a double quote. *)
Definition dquote : string := String (ascii_of_nat 34) EmptyString.

Definition Z_to_string (n : Z) : string := NilZero.string_of_int (Z.to_int n).

(** [s.includes(t)] and [s.startsWith(t)]. *)
Definition includes (s t : string) : bool :=
  match String.index 0 t s with Some _ => true | None => false end.

Definition startsWith (s t : string) : bool := String.prefix t s.

(** [l.join(sep)] on strings. *)
Fixpoint join (sep : string) (l : list string) : string :=
  match l with
  | [] => ""
  | [s] => s
  | s :: l' => s +:+ sep +:+ join sep l'
  end.

(** ** Dates: [toISOString] *)

Module DateFmt.

Definition digit (n : Z) : ascii := ascii_of_nat (48 + Z.to_nat (n mod 10)).

(** The [w] low decimal digits of [n], zero padded. *)
Fixpoint pad (w : nat) (n : Z) : string :=
  match w with
  | O => ""
  | S w' => pad w' (n / 10) +:+ String (digit n) ""
  end.

(** Civil date of a day count since 1970-01-01 (proleptic Gregorian). *)
Definition civil_from_days (days : Z) : Z * Z * Z :=
  let z := days + 719468 in
  let era := z / 146097 in
  let doe := z - era * 146097 in
  let yoe := (doe - doe / 1460 + doe / 36524 - doe / 146096) / 365 in
  let doy := doe - (365 * yoe + yoe / 4 - yoe / 100) in
  let mp := (5 * doy + 2) / 153 in
  let d := doy - (153 * mp + 2) / 5 + 1 in
  let m := if mp <? 10 then mp + 3 else mp - 9 in
  let y := yoe + era * 400 + (if m <=? 2 then 1 else 0) in
  (y, m, d).

Definition year_string (y : Z) : string :=
  if (0 <=? y) && (y <=? 9999) then pad 4 y
  else if y <? 0 then "-" +:+ pad 6 (- y) else "+" +:+ pad 6 y.

(** The [YYYY-MM-DD] part of the ISO text. *)
Definition date_part (t : Z) : string :=
  let '(y, m, d) := civil_from_days (t / 86400000) in
  year_string y +:+ "-" +:+ pad 2 m +:+ "-" +:+ pad 2 d.

Definition time_part (t : Z) : string :=
  let ms := t mod 86400000 in
  pad 2 (ms / 3600000) +:+ ":" +:+ pad 2 (ms / 60000 mod 60) +:+ ":"
    +:+ pad 2 (ms / 1000 mod 60) +:+ "." +:+ pad 3 (ms mod 1000).

Definition toISOString (t : Z) : string :=
  date_part t +:+ "T" +:+ time_part t +:+ "Z".

(** [s.split('T')[0]]: the text before the first [T]. *)
Fixpoint split_T_0 (s : string) : string :=
  match s with
  | EmptyString => ""
  | String c s' => if Ascii.eqb c "T" then "" else String c (split_T_0 s')
  end.

End DateFmt.

(** ** The browser

    Built-in functions whose results the code only passes on.  They are
    parameters of the development: every theorem holds for any behaviour of
    these functions, and where a law is needed (a value survives
    [JSON.parse (JSON.stringify v)]) it is a stated premise. *)

(** A [File] by its observable attributes. *)
Record File : Type := mkFile {
  file_name : string;
  file_size : Z;
  file_type : string;
  file_lastModified : Z;
  file_bits : string;
}.

Class Browser : Type := {
  (** [JSON.stringify v] for a value other than [undefined]. *)
  JSON_stringify : value -> string;
  (** [JSON.parse s]; a [SyntaxError] is a [Throw]. *)
  JSON_parse : string -> outcome value;
  parseInt : string -> value;
  parseFloat : string -> value;
  (** The time value of [new Date(v)]; [None] for an invalid date. *)
  new_Date : value -> option Z;
  (** [String(v)] of an object, an array or a Date. *)
  object_toString : value -> string;
  (** The result of [FileReader.readAsDataURL]. *)
  readAsDataURL : File -> string;
  (** [fetch(url).then(r => r.blob())] on a [data:] URL, followed by
      [new File([blob], name, { type, lastModified })]. *)
  fetch_data_url : value -> outcome string;
  new_File : string -> value -> value -> value -> File;
  (** [process.env.REACT_APP_API_URL], when set. *)
  REACT_APP_API_URL : option string;
}.

Section WithBrowser.
Context {browser : Browser}.

(** [String(v)]. *)
Definition to_String (v : value) : string :=
  match v with
  | VUndefined => "undefined"
  | VNull => "null"
  | VBool true => "true"
  | VBool false => "false"
  | VNum n => Z_to_string n
  | VNaN => "NaN"
  | VStr s => s
  | _ => object_toString v
  end.

(** What [localStorage.setItem(key, JSON.stringify(data))] stores:
    [JSON.stringify(undefined)] is [undefined], stored as its text. *)
Definition stringify_for_storage (data : value) : string :=
  match data with
  | VUndefined => "undefined"
  | _ => JSON_stringify data
  end.

(** ** Local storage

    Entries are kept in the order [localStorage.key(i)] enumerates them.
    Every access throws while storage is unavailable (a [SecurityError]),
    and [setItem] throws [QuotaExceededError] when the stored characters
    would exceed the quota ([None]: no limit reached in the run). *)
Record LocalStorage : Type := mkLocalStorage {
  items : list (string * string);
  quota : option nat;
  available : bool;
}.

Definition ls_chars (l : list (string * string)) : nat :=
  fold_right (fun kv n => (String.length (fst kv) + String.length (snd kv) + n)%nat) O l.

Definition SecurityError : JsError :=
  Error "SecurityError" "The operation is insecure.".
Definition QuotaExceededError : JsError :=
  Error "QuotaExceededError" "The quota has been exceeded.".

Definition ls_with_items (ls : LocalStorage) (l : list (string * string)) : LocalStorage :=
  mkLocalStorage l (quota ls) (available ls).

Definition ls_getItem (key : string) (ls : LocalStorage) : outcome (option string) :=
  if available ls then Return (alist_lookup key (items ls)) else Throw SecurityError.

Definition within_quota (ls : LocalStorage) (l : list (string * string)) : bool :=
  match quota ls with
  | None => true
  | Some q => (ls_chars l <=? q)%nat
  end.

Definition ls_setItem (key v : string) (ls : LocalStorage) : outcome LocalStorage :=
  if available ls then
    let l := alist_set key v (items ls) in
    if within_quota ls l then Return (ls_with_items ls l) else Throw QuotaExceededError
  else Throw SecurityError.

Definition ls_removeItem (key : string) (ls : LocalStorage) : outcome LocalStorage :=
  if available ls then Return (ls_with_items ls (alist_remove key (items ls)))
  else Throw SecurityError.

Definition ls_length (ls : LocalStorage) : outcome nat :=
  if available ls then Return (length (items ls)) else Throw SecurityError.

(** [localStorage.key(i)]: [null] past the end. *)
Definition ls_key (i : nat) (ls : LocalStorage) : outcome (option string) :=
  if available ls then Return (fst <$> items ls !! i) else Throw SecurityError.

(** ** Network *)

Inductive Body : Type :=
| NoBody
| TextBody (s : string)
| FormData (fields : list (string * (File + string))).

Record Request : Type := mkRequest {
  req_url : string;
  req_method : string;
  req_headers : list (string * string);
  req_body : Body;
}.

Record Response : Type := mkResponse {
  status : Z;
  content_type : option string;       (* headers.get('content-type') *)
  json : outcome value;               (* what response.json() settles to *)
}.

(** [response.ok]. *)
Definition ok (r : Response) : bool := (200 <=? status r) && (status r <=? 299).

Inductive FetchOutcome : Type :=
| Responds (r : Response)
| Rejects (e : JsError).

(** ** The world the hooks run in *)

Record World : Type := mkWorld {
  localStorage : LocalStorage;
  network : list FetchOutcome;        (* how the coming fetch calls settle *)
  requests : list Request;            (* the fetch calls made, oldest first *)
  alerts : list string;               (* window.alert messages, oldest first *)
  clock : list Z;                     (* the coming readings of the clock *)
  entropy : list string;              (* the coming random base-36 suffixes *)
  storage : list (string * value);    (* useOfflineStorage: [storage] state *)
  isLoading : bool;                   (* useApiClient: [isLoading] state *)
  error : value;                      (* useApiClient: [error] state *)
  formState : value;                  (* ClientIntakeForm: reducer state *)
  formValues : value;                 (* ClientIntakeForm: react-hook-form values *)
}.

(** ** The monad of asynchronous functions *)

Definition JS (S A : Type) : Type := S -> outcome A * S.

Definition ret {S A} (a : A) : JS S A := fun w => (Return a, w).

Definition throw {S A} (e : JsError) : JS S A := fun w => (Throw e, w).

Definition bind {S A B} (m : JS S A) (k : A -> JS S B) : JS S B :=
  fun w => match m w with
           | (Return a, w') => k a w'
           | (Throw e, w') => (Throw e, w')
           end.

(** [try { m } catch (e) { h e }]. *)
Definition try_catch {S A} (m : JS S A) (h : JsError -> JS S A) : JS S A :=
  fun w => match m w with
           | (Return a, w') => (Return a, w')
           | (Throw e, w') => h e w'
           end.

(** [try { m } finally { f }], for an [f] that does not throw. *)
Definition finally {S A} (m : JS S A) (f : S -> S) : JS S A :=
  fun w => let '(r, w') := m w in (r, f w').

Definition modify {S} (f : S -> S) : JS S unit := fun w => (Return tt, f w).

Definition lift {S A} (o : outcome A) : JS S A := fun w => (o, w).

End WithBrowser.

Notation "x <- m ;; k" := (bind m (fun x => k))
  (at level 90, m at level 89, right associativity).
Notation "m ;;; k" := (bind m (fun _ => k))
  (at level 90, right associativity).

(** Field updates of the [World]. *)
Definition set_localStorage (ls : LocalStorage) (w : World) : World :=
  mkWorld ls (network w) (requests w) (alerts w) (clock w) (entropy w)
          (storage w) (isLoading w) (error w) (formState w) (formValues w).
Definition set_network (n : list FetchOutcome) (w : World) : World :=
  mkWorld (localStorage w) n (requests w) (alerts w) (clock w) (entropy w)
          (storage w) (isLoading w) (error w) (formState w) (formValues w).
Definition set_requests (r : list Request) (w : World) : World :=
  mkWorld (localStorage w) (network w) r (alerts w) (clock w) (entropy w)
          (storage w) (isLoading w) (error w) (formState w) (formValues w).
Definition set_alerts (a : list string) (w : World) : World :=
  mkWorld (localStorage w) (network w) (requests w) a (clock w) (entropy w)
          (storage w) (isLoading w) (error w) (formState w) (formValues w).
Definition set_clock (c : list Z) (w : World) : World :=
  mkWorld (localStorage w) (network w) (requests w) (alerts w) c (entropy w)
          (storage w) (isLoading w) (error w) (formState w) (formValues w).
Definition set_entropy (e : list string) (w : World) : World :=
  mkWorld (localStorage w) (network w) (requests w) (alerts w) (clock w) e
          (storage w) (isLoading w) (error w) (formState w) (formValues w).
Definition setStorage (f : list (string * value) -> list (string * value)) (w : World) : World :=
  mkWorld (localStorage w) (network w) (requests w) (alerts w) (clock w) (entropy w)
          (f (storage w)) (isLoading w) (error w) (formState w) (formValues w).
Definition setIsLoading (b : bool) (w : World) : World :=
  mkWorld (localStorage w) (network w) (requests w) (alerts w) (clock w) (entropy w)
          (storage w) b (error w) (formState w) (formValues w).
Definition setError (e : value) (w : World) : World :=
  mkWorld (localStorage w) (network w) (requests w) (alerts w) (clock w) (entropy w)
          (storage w) (isLoading w) e (formState w) (formValues w).
Definition set_formState (s : value) (w : World) : World :=
  mkWorld (localStorage w) (network w) (requests w) (alerts w) (clock w) (entropy w)
          (storage w) (isLoading w) (error w) s (formValues w).
Definition set_formValues (v : value) (w : World) : World :=
  mkWorld (localStorage w) (network w) (requests w) (alerts w) (clock w) (entropy w)
          (storage w) (isLoading w) (error w) (formState w) v.

(** Browser calls on the [World]. *)
Definition localStorage_getItem (key : string) : JS World (option string) :=
  fun w => (ls_getItem key (localStorage w), w).

Definition localStorage_setItem (key v : string) : JS World unit :=
  fun w => match ls_setItem key v (localStorage w) with
           | Return ls => (Return tt, set_localStorage ls w)
           | Throw e => (Throw e, w)
           end.

Definition localStorage_removeItem (key : string) : JS World unit :=
  fun w => match ls_removeItem key (localStorage w) with
           | Return ls => (Return tt, set_localStorage ls w)
           | Throw e => (Throw e, w)
           end.

Definition localStorage_length : JS World nat :=
  fun w => (ls_length (localStorage w), w).

Definition localStorage_key (i : nat) : JS World (option string) :=
  fun w => (ls_key i (localStorage w), w).

(** [Date.now()] and the time value of [new Date()]. *)
Definition Date_now : JS World Z :=
  fun w => match clock w with
           | [] => (Return 0, w)
           | t :: c => (Return t, set_clock c w)
           end.

(** [Math.random().toString(36).substr(2, 9)]. *)
Definition random_suffix : JS World string :=
  fun w => match entropy w with
           | [] => (Return ""%string, w)
           | s :: e => (Return s, set_entropy e w)
           end.

Definition alert (msg : string) : JS World unit :=
  modify (fun w => set_alerts (alerts w ++ [msg]) w).

Definition TypeError (msg : string) : JsError := Error "TypeError" msg.

(** [fetch(url, config)]: the call is recorded and settles as the network
    dictates; with nothing to answer it the promise rejects. *)
Definition fetch (rq : Request) : JS World Response :=
  fun w =>
    let w1 := set_requests (requests w ++ [rq]) w in
    match network w1 with
    | [] => (Throw (TypeError "Failed to fetch"), w1)
    | Responds r :: n => (Return r, set_network n w1)
    | Rejects e :: n => (Throw e, set_network n w1)
    end.

(** Property read [o.k] where [o] may be null or undefined. *)
Definition member_of {S} (o : value) (k : string) : JS S value :=
  match o with
  | VUndefined | VNull =>
      throw (TypeError ("Cannot read properties of " +:+
                         (match o with VNull => "null" | _ => "undefined" end)))
  | _ => ret (get o k)
  end.

(** Property write [o.k = v] in strict mode. *)
Definition assign {S} (o : value) (k : string) (v : value) : JS S value :=
  match o with
  | VObj _ => ret (set o k v)
  | VArr _ | VDate _ => ret o
  | _ => throw (TypeError "Cannot create property on a primitive value")
  end.

(** A default parameter value [p = d]. *)
Definition default_param (p d : value) : value :=
  match p with VUndefined => d | _ => p end.

(** [for (const x of l) { body x }] *)
Fixpoint for_of {S A} (l : list A) (body : A -> JS S unit) : JS S unit :=
  match l with
  | [] => ret tt
  | x :: l' => body x ;;; for_of l' body
  end.

(** A counting loop that accumulates into an array. *)
Fixpoint for_index {S A} (indices : list nat) (body : nat -> list A -> JS S (list A))
    (acc : list A) : JS S (list A) :=
  match indices with
  | [] => ret acc
  | i :: rest => acc' <- body i acc ;; for_index rest body acc'
  end.

(** ** [Array.prototype.sort] with a comparator

    The sort is stable; [gt a b] says that the comparator is positive on
    [(a, b)], so that [a] goes after [b]. *)
Section Sort.
Context {A : Type} (gt : A -> A -> bool).

Fixpoint sort_insert (x : A) (l : list A) : list A :=
  match l with
  | [] => [x]
  | y :: l' => if gt x y then y :: sort_insert x l' else x :: y :: l'
  end.

Definition array_sort (l : list A) : list A := fold_right sort_insert [] l.
End Sort.

(** ** hooks/useOfflineStorage.js *)
Section useOfflineStorage.
Context {browser : Browser}.

Definition loadFromStorage (key : string) : JS World value :=
  try_catch
    (data <- localStorage_getItem key ;;
     match data with
     | Some s => if String.eqb s "" then ret VNull else lift (JSON_parse s)
     | None => ret VNull
     end)
    (fun _error => ret VNull).

Definition saveToStorage (key : string) (data : value) : JS World bool :=
  try_catch
    (match data with
     | VNull => localStorage_removeItem key
     | _ => localStorage_setItem key (stringify_for_storage data)
     end ;;;
     ret true)
    (fun _error => ret false).

Definition saveOffline (key : string) (data : value) : JS World bool :=
  success <- saveToStorage key data ;;
  (if success : bool then modify (setStorage (alist_set key data)) else ret tt) ;;;
  ret success.

Definition syncOffline (key : string) : JS World value :=
  data <- loadFromStorage key ;;
  (if truthy data then modify (setStorage (alist_set key data)) else ret tt) ;;;
  ret data.

Definition clearOffline (key : string) : JS World unit :=
  saveToStorage key VNull ;;;
  modify (setStorage (alist_remove key)).

Definition getOfflineKeys : JS World (list string) :=
  n <- localStorage_length ;;
  for_index (seq 0 n)
    (fun i keys =>
       key <- localStorage_key i ;;
       match key with
       | Some k =>
           if negb (String.eqb k "")
              && (startsWith k "client_intake_" || startsWith k "file_queue_")
           then ret (keys ++ [k]) else ret keys
       | None => ret keys
       end)
    [].

Definition addFileToQueue (file : File) (projectId description : value) : JS World bool :=
  let description := default_param description (VStr "") in
  now <- Date_now ;;
  suffix <- random_suffix ;;
  let queueKey := "file_queue_" +:+ Z_to_string now +:+ "_" +:+ suffix in
  let content := readAsDataURL file in
  t <- Date_now ;;
  let fileData :=
    VObj [("id", VStr queueKey);
          ("file", VObj [("name", VStr (file_name file));
                         ("size", VNum (file_size file));
                         ("type", VStr (file_type file));
                         ("lastModified", VNum (file_lastModified file));
                         ("content", VStr content)]);
          ("projectId", projectId);
          ("description", description);
          ("timestamp", VStr (DateFmt.toISOString t));
          ("status", VStr "pending")] in
  success <- saveToStorage queueKey fileData ;;
  (if success : bool then modify (setStorage (alist_set queueKey fileData)) else ret tt) ;;;
  ret success.

(** [new Date(a.timestamp) - new Date(b.timestamp) > 0]; a difference with
    an invalid date is [NaN], which the sort takes as "equal". *)
Definition timestamp_gt (a b : value) : bool :=
  match new_Date (get a "timestamp"), new_Date (get b "timestamp") with
  | Some ta, Some tb => 0 <? ta - tb
  | _, _ => false
  end.

(** The loop bound [localStorage.length] is constant: the body only reads. *)
Definition getFileQueue : JS World (list value) :=
  n <- localStorage_length ;;
  queueItems <-
    for_index (seq 0 n)
      (fun i queueItems =>
         key <- localStorage_key i ;;
         match key with
         | Some k =>
             if negb (String.eqb k "") && startsWith k "file_queue_" then
               data <- loadFromStorage k ;;
               if truthy data && str_is (get data "status") "pending"
               then ret (queueItems ++ [data]) else ret queueItems
             else ret queueItems
         | None => ret queueItems
         end)
      [] ;;
  ret (array_sort timestamp_gt queueItems).

Definition removeFileFromQueue (queueId : value) : JS World unit :=
  clearOffline (to_String queueId).

Definition updateFileQueueStatus (queueId : value) (status : string) (error : value)
    : JS World unit :=
  data <- loadFromStorage (to_String queueId) ;;
  if truthy data then
    data <- assign data "status" (VStr status) ;;
    data <- (if truthy error then assign data "error" error else ret data) ;;
    saveToStorage (to_String queueId) data ;;;
    modify (setStorage (alist_set (to_String queueId) data))
  else ret tt.

End useOfflineStorage.

(** ** hooks/useApiClient.js *)
Section useApiClient.
Context {browser : Browser}.

Definition API_BASE_URL : string :=
  match REACT_APP_API_URL with
  | Some url => if String.eqb url "" then "http://localhost:4002/api" else url
  | None => "http://localhost:4002/api"
  end.

(** The [options] argument of [makeRequest]; [fetch] defaults the method. *)
Record Options : Type := mkOptions {
  opt_method : option string;
  opt_headers : list (string * string);
  opt_body : Body;
}.

Definition no_options : Options := mkOptions None [] NoBody.

(** What [makeRequest] resolves to: parsed JSON, or the response itself. *)
Inductive Reply : Type :=
| Json (v : value)
| Raw (r : Response).

Definition getAuthToken : JS World (option string) :=
  localStorage_getItem "auth_token".

(** [...(token && { Authorization: `Bearer ${token}` })] *)
Definition authorization (token : option string) : list (string * string) :=
  match token with
  | Some t => if String.eqb t "" then [] else [("Authorization", "Bearer " +:+ t)]
  | None => []
  end.

Definition headers_spread (a b : list (string * string)) : list (string * string) :=
  fold_left (fun acc kv => alist_set (fst kv) (snd kv) acc) b a.

Definition err_message_or (err : JsError) (fallback : string) : value :=
  js_or (VStr (message err)) (VStr fallback).

Definition makeRequest (url : string) (options : Options) : JS World Reply :=
  modify (setIsLoading true) ;;;
  modify (setError VNull) ;;;
  finally
    (try_catch
       (token <- getAuthToken ;;
        let config :=
          mkRequest (API_BASE_URL +:+ url)
                    (default "GET"%string (opt_method options))
                    (headers_spread
                       (headers_spread [("Content-Type", "application/json")]
                                       (authorization token))
                       (opt_headers options))
                    (opt_body options) in
        response <- fetch config ;;
        if negb (ok response) then
          if status response =? 401 then
            localStorage_removeItem "auth_token" ;;;
            throw (new_Error "Authentication required. Please log in again.")
          else if status response =? 403 then
            throw (new_Error "Access denied. You do not have permission to perform this action.")
          else if 500 <=? status response then
            throw (new_Error "Server error. Please try again later.")
          else
            errorData <- try_catch (lift (json response)) (fun _ => ret (VObj [])) ;;
            detail <- member_of errorData "detail" ;;
            throw (new_Error (to_String
                     (js_or detail
                        (VStr ("Request failed with status "
                                 +:+ Z_to_string (status response))))))
        else
          match content_type response with
          | Some contentType =>
              if negb (String.eqb contentType "")
                 && includes contentType "application/json"
              then v <- lift (json response) ;; ret (Json v)
              else ret (Raw response)
          | None => ret (Raw response)
          end)
       (fun err =>
          modify (setError (err_message_or err "An unexpected error occurred")) ;;;
          throw err))
    (setIsLoading false).

(** [d?.toISOString().split('T')[0]] *)
Definition iso_date_of (d : value) : JS World value :=
  match d with
  | VUndefined | VNull => ret VUndefined
  | VDate t => ret (VStr (DateFmt.split_T_0 (DateFmt.toISOString t)))
  | _ => throw (TypeError "toISOString is not a function")
  end.

(** [x ? parse(x) : null] *)
Definition parsed_or_null (parse : string -> value) (x : value) : value :=
  if truthy x then parse (to_String x) else VNull.

Definition submitClientIntake (formData : value) : JS World Reply :=
  let organizationData :=
    VObj [("name", get formData "school_name");
          ("organization_type", VStr "educational");
          ("email", get formData "email")] in
  pilot_start_date <- iso_date_of (get formData "pilot_start_date") ;;
  pilot_end_date <- iso_date_of (get formData "pilot_end_date") ;;
  let clientData :=
    VObj [("organization", organizationData);
          ("school_name", get formData "school_name");
          ("address", get formData "address");
          ("contact_person", get formData "contact_person");
          ("role_position", get formData "role_position");
          ("phone_whatsapp", get formData "phone_whatsapp");
          ("email", get formData "email");
          ("current_website", get formData "current_website");
          ("number_of_students", parsed_or_null parseInt (get formData "number_of_students"));
          ("number_of_staff", parsed_or_null parseInt (get formData "number_of_staff"));
          ("project_type", get formData "project_type");
          ("project_purpose", get formData "project_purpose");
          ("pilot_scope_features", get formData "pilot_scope_features");
          ("pilot_start_date", pilot_start_date);
          ("pilot_end_date", pilot_end_date);
          ("timeline_preference", get formData "timeline_preference");
          ("design_preferences", get formData "design_preferences");
          ("logo_colors", get formData "logo_colors");
          ("content_availability", get formData "content_availability");
          ("maintenance_plan", get formData "maintenance_plan");
          ("token_commitment_fee", parsed_or_null parseFloat (get formData "token_commitment_fee"));
          ("additional_notes", get formData "additional_notes");
          ("acknowledgment", get formData "acknowledgment")] in
  makeRequest "/clients/"
    (mkOptions (Some "POST"%string) [] (TextBody (JSON_stringify clientData))).

Definition uploadFile (file : File) (projectId description : value) : JS World value :=
  let description := default_param description (VStr "") in
  modify (setIsLoading true) ;;;
  modify (setError VNull) ;;;
  finally
    (try_catch
       (token <- getAuthToken ;;
        let formData :=
          [("file", inl file); ("project_id", inr (to_String projectId))]
            ++ (if truthy description
                then [("description", inr (to_String description))] else []) in
        response <- fetch (mkRequest (API_BASE_URL +:+ "/attachments/") "POST"
                                      (authorization token) (FormData formData)) ;;
        if negb (ok response) then
          if status response =? 401 then
            localStorage_removeItem "auth_token" ;;;
            throw (new_Error "Authentication required. Please log in again.")
          else if status response =? 403 then
            throw (new_Error "Access denied. You do not have permission to upload files.")
          else if 500 <=? status response then
            throw (new_Error "Server error. Please try again later.")
          else
            errorData <- try_catch (lift (json response)) (fun _ => ret (VObj [])) ;;
            detail <- member_of errorData "detail" ;;
            throw (new_Error (to_String
                     (js_or detail
                        (VStr ("Upload failed with status "
                                 +:+ Z_to_string (status response))))))
        else lift (json response))
       (fun err =>
          modify (setError (err_message_or err "An unexpected error occurred during upload")) ;;;
          throw err))
    (setIsLoading false).

End useApiClient.

(** ** components/FileUploader.jsx *)
Section FileUploader.
Context {browser : Browser}.

Definition maxSize : Z := 10 * 1024 * 1024.

Definition allowedTypes : list string :=
  ["image/jpeg"; "image/jpg"; "image/png"; "image/gif";
   "application/pdf";
   "application/msword";
   "application/vnd.openxmlformats-officedocument.wordprocessingml.document";
   "application/vnd.ms-excel";
   "application/vnd.openxmlformats-officedocument.spreadsheetml.sheet";
   "text/plain"]%string.

(** [allowedTypes.includes(t)] *)
Definition array_includes (l : list string) (t : string) : bool :=
  existsb (String.eqb t) l.

Definition validateFile (file : File) : outcome bool :=
  if maxSize <? file_size file then
    Throw (new_Error ("File " +:+ dquote +:+ file_name file +:+ dquote
                        +:+ " is too large. Maximum size is 10MB."))
  else if negb (array_includes allowedTypes (file_type file)) then
    Throw (new_Error ("File type " +:+ dquote +:+ file_type file +:+ dquote
                        +:+ " is not allowed."))
  else Return true.

(** [handleFileSelect]: the files that pass validation join the selection;
    the messages of the others are logged. *)
Definition handleFileSelect (files selectedFiles : list File) : list File * list string :=
  let '(validFiles, errors) :=
    fold_left
      (fun '(validFiles, errors) file =>
         match validateFile file with
         | Return _ => (validFiles ++ [file], errors)
         | Throw error => (validFiles, errors ++ [message error])
         end)
      files ([], []) in
  (selectedFiles ++ validFiles, errors).

(** The body of the replay loop, for one queued job. *)
Definition syncOfflineQueue_item (item : value) : JS World unit :=
  try_catch
    (updateFileQueueStatus (get item "id") "uploading" VNull ;;;
     itemFile <- member_of item "file" ;;
     content <- member_of itemFile "content" ;;
     blob <- lift (fetch_data_url content) ;;
     let file := new_File blob (get itemFile "name") (get itemFile "type")
                          (get itemFile "lastModified") in
     uploadFile file (get item "projectId") (get item "description") ;;;
     updateFileQueueStatus (get item "id") "completed" VNull ;;;
     removeFileFromQueue (get item "id"))
    (fun error =>
       updateFileQueueStatus (get item "id") "failed" (VStr (message error))).

Definition syncOfflineQueue : JS World unit :=
  queueItems <- getFileQueue ;;
  for_of queueItems syncOfflineQueue_item.

End FileUploader.

(** ** components/ClientIntakeForm.jsx *)
Section ClientIntakeForm.
Context {browser : Browser}.

Inductive FormAction : Type :=
| SET_FIELD (field : string) (v : value)
| SET_MULTIPLE_FIELDS (fields : list (string * value))
| RESET_FORM (initialState : value)
| OTHER_ACTION.

Definition formReducer (state : value) (action : FormAction) : value :=
  match action with
  | SET_FIELD field v =>
      VObj (spread (match state with VObj p => p | _ => [] end) [(field, v)])
  | SET_MULTIPLE_FIELDS fields =>
      VObj (spread (match state with VObj p => p | _ => [] end) fields)
  | RESET_FORM initialState => initialState
  | OTHER_ACTION => state
  end.

Definition dispatch (action : FormAction) (w : World) : World :=
  set_formState (formReducer (formState w) action) w.

Definition defaultValues : value :=
  VObj [("school_name", VStr ""); ("address", VStr ""); ("contact_person", VStr "");
        ("role_position", VStr ""); ("phone_whatsapp", VStr ""); ("email", VStr "");
        ("current_website", VStr ""); ("number_of_students", VStr "");
        ("number_of_staff", VStr "");
        ("project_type", VArr []); ("project_purpose", VArr []);
        ("pilot_scope_features", VArr []);
        ("pilot_start_date", VNull); ("pilot_end_date", VNull);
        ("timeline_preference", VStr "");
        ("design_preferences", VObj []); ("logo_colors", VObj []);
        ("content_availability", VBool false); ("maintenance_plan", VObj []);
        ("token_commitment_fee", VStr "");
        ("additional_notes", VStr ""); ("acknowledgment", VObj [])].

(** react-hook-form's [reset()]. *)
Definition reset : JS World unit := modify (set_formValues defaultValues).

Definition requiredFields : list string :=
  ["school_name"; "contact_person"; "email"; "project_type";
   "project_purpose"; "pilot_scope_features"; "timeline_preference"]%string.

(** The predicate of [requiredFields.filter(...)]. *)
Definition is_missing (data : value) (field : string) : bool :=
  let v := get data field in
  negb (truthy v)
  || (is_array v && match v with VArr l => (length l =? 0)%nat | _ => false end).

Definition missingFields (data : value) : list string :=
  List.filter (is_missing data) requiredFields.

Definition onSubmit (data : value) : JS World unit :=
  modify (dispatch (SET_FIELD "isSubmitting" (VBool true))) ;;;
  finally
    (try_catch
       ((if (0 <? length (missingFields data))%nat then
           throw (new_Error ("Please fill in all required fields: "
                               +:+ join ", " (missingFields data)))
         else ret tt) ;;;
        _response <- submitClientIntake data ;;
        saveOffline "client_intake_form" VNull ;;;
        alert "Intake form submitted successfully!" ;;;
        reset ;;;
        modify (dispatch (RESET_FORM (VObj []))))
       (fun error =>
          saveOffline "client_intake_form" data ;;;
          alert ("Form submission failed: " +:+ message error
                   +:+ ". Data saved offline for later sync.")))
    (dispatch (SET_FIELD "isSubmitting" (VBool false))).

End ClientIntakeForm.

(** ** components/PilotAcceptanceForm.jsx *)
Module PilotAcceptanceForm.

Definition CHECKLIST_ITEMS : list string :=
  ["digital_gateway_live"; "mobile_friendly"; "pages_present"; "portals_linked";
   "social_media_embedded"; "logo_colors_correct"; "photos_content_displayed";
   "layout_design_ok"; "staff_training_completed"; "training_materials_provided";
   "no_critical_errors"; "minor_issues_resolved"]%string.

(** The reducer state; [checklist] and [signatures] are objects used as maps. *)
Record FormState : Type := mkFormState {
  fs_isLoading : bool;
  fs_error : value;
  fs_success : value;
  checklist : gmap string bool;
  signatures : gmap string value;
  signatureDialogOpen : bool;
  signatureType : value;
}.

Inductive Action : Type :=
| SET_LOADING (payload : bool)
| SET_ERROR (payload : value)
| SET_SUCCESS (payload : value)
| UPDATE_CHECKLIST (payload : gmap string bool)
| SET_SIGNATURE_DIALOG (payload : bool)
| SET_SIGNATURE_TYPE (payload : value)
| SET_SIGNATURES (payload : gmap string value)
| UNKNOWN.

(** [{ ...a, ...b }] on maps: the entries of [b] win. *)
Definition formReducer (state : FormState) (action : Action) : FormState :=
  match action with
  | SET_LOADING p =>
      mkFormState p (fs_error state) (fs_success state) (checklist state)
                  (signatures state) (signatureDialogOpen state) (signatureType state)
  | SET_ERROR p =>
      mkFormState (fs_isLoading state) p (fs_success state) (checklist state)
                  (signatures state) (signatureDialogOpen state) (signatureType state)
  | SET_SUCCESS p =>
      mkFormState (fs_isLoading state) (fs_error state) p (checklist state)
                  (signatures state) (signatureDialogOpen state) (signatureType state)
  | UPDATE_CHECKLIST p =>
      mkFormState (fs_isLoading state) (fs_error state) (fs_success state)
                  (p ∪ checklist state)
                  (signatures state) (signatureDialogOpen state) (signatureType state)
  | SET_SIGNATURE_DIALOG p =>
      mkFormState (fs_isLoading state) (fs_error state) (fs_success state)
                  (checklist state) (signatures state) p (signatureType state)
  | SET_SIGNATURE_TYPE p =>
      mkFormState (fs_isLoading state) (fs_error state) (fs_success state)
                  (checklist state) (signatures state) (signatureDialogOpen state) p
  | SET_SIGNATURES p =>
      mkFormState (fs_isLoading state) (fs_error state) (fs_success state)
                  (checklist state) (p ∪ signatures state)
                  (signatureDialogOpen state) (signatureType state)
  | UNKNOWN => state
  end.

Definition initialState : FormState :=
  mkFormState false VNull VNull ∅ ∅ false VNull.

(** [Math.round((completed / total) * 100)].  For the twelve items the exact
    quotient [25 * completed / 3] is never within 1/6 of a half, so the
    rounding of the floating-point product is that of the exact one:
    [floor (100 * completed / total + 1/2)]. *)
Definition Math_round_percent (completed total : nat) : Z :=
  (200 * Z.of_nat completed + Z.of_nat total) / (2 * Z.of_nat total).

(** [Object.values(checklist).filter(Boolean).length] *)
Definition completedItems (c : gmap string bool) : nat :=
  size (filter (fun kv => snd kv = true) c).

Definition calculateCompletion (state : FormState) : Z :=
  let totalItems := length CHECKLIST_ITEMS in
  Math_round_percent (completedItems (checklist state)) totalItems.

Definition handleChecklistChange (itemKey : string) (checked : bool)
    (state : FormState) : FormState :=
  formReducer state (UPDATE_CHECKLIST {[ itemKey := checked ]}).

(** The [disabled] attribute of the Submit Acceptance button; [isLoading]
    is the flag of [useApiClient]. *)
Definition submit_disabled (isLoading : bool) (state : FormState) : bool :=
  isLoading || (calculateCompletion state <? 100).

(** The checkbox of an item shows [formState.checklist[item.key] || false]. *)
Definition item_checked (state : FormState) (key : string) : bool :=
  default false (checklist state !! key).

(** The states the form can be in: every checklist change comes from the
    checkbox of one of the twelve items. *)
Inductive reachable : FormState -> Prop :=
| reach_init : reachable initialState
| reach_check st key checked :
    reachable st -> key ∈ CHECKLIST_ITEMS ->
    reachable (handleChecklistChange key checked st)
| reach_other st a :
    reachable st ->
    (forall p, a <> UPDATE_CHECKLIST p) ->
    reachable (formReducer st a).

End PilotAcceptanceForm.

(** ** Named REST actions: ChangeRequestForm and PilotHandoverForm

    The calls go through the hooks [useApi] ([apiCall]) and [apiClient.post],
    which live outside these files: a call is recorded and settles as the
    server dictates. *)
Module NamedActions.

Record ApiCall : Type := mkApiCall {
  call_url : string;
  call_method : string;
  call_body : value;
}.

Record Page : Type := mkPage {
  api_calls : list ApiCall;            (* the calls made, oldest first *)
  api_replies : list (outcome value);  (* how the coming calls settle *)
  page_clock : list Z;
  ui_loading : bool;
  ui_error : value;
  ui_success : value;
  downloads : list string;             (* file names offered for download *)
}.

Definition set_calls c (p : Page) : Page :=
  mkPage c (api_replies p) (page_clock p) (ui_loading p) (ui_error p) (ui_success p) (downloads p).
Definition set_replies r (p : Page) : Page :=
  mkPage (api_calls p) r (page_clock p) (ui_loading p) (ui_error p) (ui_success p) (downloads p).
Definition set_loading b (p : Page) : Page :=
  mkPage (api_calls p) (api_replies p) (page_clock p) b (ui_error p) (ui_success p) (downloads p).
Definition set_error e (p : Page) : Page :=
  mkPage (api_calls p) (api_replies p) (page_clock p) (ui_loading p) e (ui_success p) (downloads p).
Definition set_success s (p : Page) : Page :=
  mkPage (api_calls p) (api_replies p) (page_clock p) (ui_loading p) (ui_error p) s (downloads p).

Definition apiCall (c : ApiCall) : JS Page value :=
  fun p =>
    let p1 := set_calls (api_calls p ++ [c]) p in
    match api_replies p1 with
    | [] => (Throw (TypeError "Failed to fetch"), p1)
    | Return v :: r => (Return v, set_replies r p1)
    | Throw e :: r => (Throw e, set_replies r p1)
    end.


(** [o?.k] *)
Definition opt_chain (o : value) (k : string) : value :=
  match o with
  | VUndefined | VNull => VUndefined
  | _ => get o k
  end.

(** ChangeRequestForm's reducer, on the fields the handlers touch. *)
Inductive Action : Type :=
| SET_LOADING (payload : bool)
| SET_ERROR (payload : value)
| SET_SUCCESS (payload : value).

Definition formReducer (p : Page) (a : Action) : Page :=
  match a with
  | SET_LOADING b => set_loading b p
  | SET_ERROR e => set_loading false (set_error e p)
  | SET_SUCCESS s => set_error VNull (set_loading false (set_success s p))
  end.

Definition dispatch (a : Action) : JS Page unit := modify (fun p => formReducer p a).

Section Handlers.
Context {browser : Browser}.



End Handlers.
End NamedActions.

(** ** A concrete browser

    One instance of [Browser], used to run the definitions on concrete
    inputs: JSON text for the values of [value] (numbers are integers),
    ISO 8601 timestamps, base-64 data URLs.  No theorem depends on it. *)
Module Chrome.

Definition hex_digit (n : nat) : ascii :=
  default "0"%char (String.get n "0123456789abcdef").

(** The escapes of [JSON.stringify] inside a string literal. *)
Definition escape_char (c : ascii) : string :=
  let n := nat_of_ascii c in
  if (n =? 34)%nat then String (ascii_of_nat 92) dquote
  else if (n =? 92)%nat then String c (String c EmptyString)
  else if (n =? 8)%nat then String (ascii_of_nat 92) "b"
  else if (n =? 9)%nat then String (ascii_of_nat 92) "t"
  else if (n =? 10)%nat then String (ascii_of_nat 92) "n"
  else if (n =? 12)%nat then String (ascii_of_nat 92) "f"
  else if (n =? 13)%nat then String (ascii_of_nat 92) "r"
  else if (n <? 32)%nat then
    String (ascii_of_nat 92) "u00"
      +:+ String (hex_digit (n / 16)) (String (hex_digit (n mod 16)) EmptyString)
  else String c EmptyString.

Fixpoint escape (s : string) : string :=
  match s with
  | EmptyString => EmptyString
  | String c s' => escape_char c +:+ escape s'
  end.

Definition quote (s : string) : string := dquote +:+ escape s +:+ dquote.

Fixpoint stringify (v : value) : string :=
  match v with
  | VUndefined | VNull | VNaN => "null"
  | VBool true => "true"
  | VBool false => "false"
  | VNum n => Z_to_string n
  | VStr s => quote s
  | VDate t => quote (DateFmt.toISOString t)
  | VArr l => "[" +:+ join "," (map stringify l) +:+ "]"
  | VObj props =>
      "{" +:+ join ","
            (flat_map (fun '(k, x) => match x with
                                      | VUndefined => []
                                      | _ => [quote k +:+ ":" +:+ stringify x]
                                      end) props)
          +:+ "}"
  end.

Definition is_space (c : ascii) : bool :=
  let n := nat_of_ascii c in
  (n =? 32)%nat || (n =? 9)%nat || (n =? 10)%nat || (n =? 13)%nat.

Definition is_digit (c : ascii) : bool :=
  let n := nat_of_ascii c in (48 <=? n)%nat && (n <=? 57)%nat.

Fixpoint skip_ws (s : string) : string :=
  match s with
  | String c s' => if is_space c then skip_ws s' else s
  | EmptyString => s
  end.

(** The digits at the head of [s], as a number, and the rest. *)
Fixpoint digits (s : string) (acc : Z) (seen : bool) : option Z * string :=
  match s with
  | String c s' =>
      if is_digit c then digits s' (10 * acc + Z.of_nat (nat_of_ascii c - 48)) true
      else (if seen then Some acc else None, s)
  | EmptyString => (if seen then Some acc else None, s)
  end.

Definition expect (lit : string) (v : value) (s : string) : option (value * string) :=
  if String.prefix lit s
  then Some (v, substring (String.length lit) (String.length s - String.length lit) s)
  else None.

(** The body of a string literal, after its opening quote. *)
Fixpoint string_body (s : string) : option (string * string) :=
  match s with
  | EmptyString => None
  | String c s' =>
      let n := nat_of_ascii c in
      if (n =? 34)%nat then Some (EmptyString, s')
      else if (n =? 92)%nat then
        match s' with
        | String e s'' =>
            let unescaped (a : ascii) :=
              match string_body s'' with
              | Some (body, rest) => Some (String a body, rest)
              | None => None
              end in
            let m := nat_of_ascii e in
            if (m =? 34)%nat || (m =? 92)%nat || (m =? 47)%nat then unescaped e
            else if (m =? 98)%nat then unescaped (ascii_of_nat 8)
            else if (m =? 116)%nat then unescaped (ascii_of_nat 9)
            else if (m =? 110)%nat then unescaped (ascii_of_nat 10)
            else if (m =? 102)%nat then unescaped (ascii_of_nat 12)
            else if (m =? 114)%nat then unescaped (ascii_of_nat 13)
            else None
        | EmptyString => None
        end
      else if (n <? 32)%nat then None
      else match string_body s' with
           | Some (body, rest) => Some (String c body, rest)
           | None => None
           end
  end.

Fixpoint parse_value (fuel : nat) (s : string) : option (value * string) :=
  match fuel with
  | O => None
  | S fuel' =>
      let parse_elements :=
        fix elements (n : nat) (s : string) (acc : list value) : option (value * string) :=
          match n with
          | O => None
          | S n' =>
              match parse_value fuel' s with
              | Some (v, rest) =>
                  match skip_ws rest with
                  | String "," rest' => elements n' rest' (acc ++ [v])
                  | String "]" rest' => Some (VArr (acc ++ [v]), rest')
                  | _ => None
                  end
              | None => None
              end
          end in
      let parse_members :=
        fix members (n : nat) (s : string) (acc : list (string * value))
            : option (value * string) :=
          match n with
          | O => None
          | S n' =>
              match skip_ws s with
              | String q s1 =>
                  if (nat_of_ascii q =? 34)%nat then
                    match string_body s1 with
                    | Some (k, rest) =>
                        match skip_ws rest with
                        | String ":" rest1 =>
                            match parse_value fuel' rest1 with
                            | Some (v, rest2) =>
                                match skip_ws rest2 with
                                | String "," rest3 => members n' rest3 (alist_set k v acc)
                                | String "}" rest3 => Some (VObj (alist_set k v acc), rest3)
                                | _ => None
                                end
                            | None => None
                            end
                        | _ => None
                        end
                    | None => None
                    end
                  else None
              | EmptyString => None
              end
          end in
      match skip_ws s with
      | EmptyString => None
      | String c s' =>
          let n := nat_of_ascii c in
          if (n =? 34)%nat then
            match string_body s' with
            | Some (body, rest) => Some (VStr body, rest)
            | None => None
            end
          else if (n =? 91)%nat then
            match skip_ws s' with
            | String "]" rest => Some (VArr [], rest)
            | _ => parse_elements fuel' s' []
            end
          else if (n =? 123)%nat then
            match skip_ws s' with
            | String "}" rest => Some (VObj [], rest)
            | _ => parse_members fuel' s' []
            end
          else if (n =? 45)%nat then
            match digits s' 0 false with
            | (Some z, rest) => Some (VNum (- z), rest)
            | (None, _) => None
            end
          else if is_digit c then
            match digits (String c s') 0 false with
            | (Some z, rest) => Some (VNum z, rest)
            | (None, _) => None
            end
          else match expect "null" VNull (String c s') with
               | Some r => Some r
               | None =>
                   match expect "true" (VBool true) (String c s') with
                   | Some r => Some r
                   | None => expect "false" (VBool false) (String c s')
                   end
               end
      end
  end.

Definition SyntaxError : JsError := Error "SyntaxError" "Unexpected token in JSON".

Definition parse (s : string) : outcome value :=
  match parse_value (S (String.length s)) s with
  | Some (v, rest) =>
      match skip_ws rest with
      | EmptyString => Return v
      | _ => Throw SyntaxError
      end
  | None => Throw SyntaxError
  end.

(** [parseInt(s)] in base ten: leading blanks, a sign, then digits. *)
Definition parse_int (s : string) : value :=
  match skip_ws s with
  | String c s' =>
      if (nat_of_ascii c =? 45)%nat then
        match digits s' 0 false with (Some z, _) => VNum (- z) | _ => VNaN end
      else if (nat_of_ascii c =? 43)%nat then
        match digits s' 0 false with (Some z, _) => VNum z | _ => VNaN end
      else match digits (String c s') 0 false with (Some z, _) => VNum z | _ => VNaN end
  | EmptyString => VNaN
  end.

(** [parseFloat(s)] where the number it reads is an integer; a fraction
    is not a [value] of this development. *)
Definition parse_float (s : string) : value := parse_int s.

Definition days_from_civil (y m d : Z) : Z :=
  let y := if m <=? 2 then y - 1 else y in
  let era := y / 400 in
  let yoe := y - era * 400 in
  let doy := (153 * (if 2 <? m then m - 3 else m + 9) + 2) / 5 + d - 1 in
  let doe := yoe * 365 + yoe / 4 - yoe / 100 + doy in
  era * 146097 + doe - 719468.

Definition number_at (s : string) (from len : nat) : option Z :=
  match digits (substring from len s) 0 false with
  | (Some z, EmptyString) => Some z
  | _ => None
  end.

(** [new Date(v)] for a number, a Date, or the text [toISOString] writes. *)
Definition date_of (v : value) : option Z :=
  match v with
  | VNum n => Some n
  | VDate t => Some t
  | VStr s =>
      if (String.length s =? 24)%nat then
        match number_at s 0 4, number_at s 5 2, number_at s 8 2,
              number_at s 11 2, number_at s 14 2, number_at s 17 2, number_at s 20 3 with
        | Some y, Some m, Some d, Some hh, Some mm, Some ss, Some ms =>
            Some (days_from_civil y m d * 86400000
                  + hh * 3600000 + mm * 60000 + ss * 1000 + ms)
        | _, _, _, _, _, _, _ => None
        end
      else None
  | _ => None
  end.

Definition text_of_object (v : value) : string :=
  match v with
  | VObj _ => "[object Object]"
  | VDate t => DateFmt.toISOString t
  | VArr l => join "," (map (fun x => match x with VStr s => s | VNum n => Z_to_string n | _ => EmptyString end) l)
  | _ => EmptyString
  end.

Definition b64_alphabet : string :=
  "ABCDEFGHIJKLMNOPQRSTUVWXYZabcdefghijklmnopqrstuvwxyz0123456789+/".

Definition b64_char (n : nat) : ascii := default "A"%char (String.get n b64_alphabet).

Fixpoint b64_encode (l : list nat) : string :=
  match l with
  | a :: b :: c :: rest =>
      String (b64_char (a / 4))
        (String (b64_char (a mod 4 * 16 + b / 16))
           (String (b64_char (b mod 16 * 4 + c / 64))
              (String (b64_char (c mod 64)) (b64_encode rest))))
  | [a; b] =>
      String (b64_char (a / 4))
        (String (b64_char (a mod 4 * 16 + b / 16))
           (String (b64_char (b mod 16 * 4)) "="))
  | [a] =>
      String (b64_char (a / 4)) (String (b64_char (a mod 4 * 16)) "==")
  | [] => EmptyString
  end%nat.

Definition bytes_of (s : string) : list nat := map nat_of_ascii (list_ascii_of_string s).

Definition data_url (file : File) : string :=
  "data:" +:+ file_type file +:+ ";base64," +:+ b64_encode (bytes_of (file_bits file)).

Definition b64_value (c : ascii) : option nat :=
  String.index 0 (String c EmptyString) b64_alphabet.

Fixpoint b64_decode (l : list ascii) : option (list nat) :=
  match l with
  | [] => Some []
  | c1 :: c2 :: c3 :: c4 :: rest =>
      match b64_value c1, b64_value c2, b64_decode rest with
      | Some a, Some b, Some tail =>
          match b64_value c3, b64_value c4 with
          | Some c, Some d =>
              Some ((a * 4 + b / 16) :: (b mod 16 * 16 + c / 4) :: (c mod 4 * 64 + d) :: tail)
          | Some c, None =>
              if Ascii.eqb c4 "=" then Some [a * 4 + b / 16; b mod 16 * 16 + c / 4] else None
          | None, _ =>
              if Ascii.eqb c3 "=" && Ascii.eqb c4 "=" then Some [a * 4 + b / 16] else None
          end
      | _, _, _ => None
      end
  | _ => None
  end%nat.

(** The bytes a base-64 [data:] URL stands for. *)
Definition fetch_data (url : value) : outcome string :=
  match url with
  | VStr s =>
      if String.prefix "data:" s then
        match String.index 0 ";base64," s with
        | Some i =>
            match b64_decode (list_ascii_of_string
                                (substring (i + 8) (String.length s - (i + 8)) s)) with
            | Some bytes => Return (string_of_list_ascii (map ascii_of_nat bytes))
            | None => Throw (TypeError "Failed to fetch")
            end
        | None => Throw (TypeError "Failed to fetch")
        end
      else Throw (TypeError "Failed to fetch")
  | _ => Throw (TypeError "Failed to fetch")
  end.

Definition file_of_blob (blob : string) (name type lastModified : value) : File :=
  mkFile (match name with VStr s => s | _ => "undefined" end)
         (Z.of_nat (String.length blob))
         (match type with VStr s => s | _ => EmptyString end)
         (match lastModified with VNum n => n | _ => 0 end)
         blob.

#[export] Instance chrome : Browser := {|
  JSON_stringify := stringify;
  JSON_parse := parse;
  parseInt := parse_int;
  parseFloat := parse_float;
  new_Date := date_of;
  object_toString := text_of_object;
  readAsDataURL := data_url;
  fetch_data_url := fetch_data;
  new_File := file_of_blob;
  REACT_APP_API_URL := None;
|}.

End Chrome.

(** * Vocabulary of the properties

    What the hooks leave behind, written as functions of the world, and the
    conditions under which the properties are stated. *)
Section Vocabulary.
Context {browser : Browser}.

(** What [loadFromStorage] yields, as a function of the storage. *)
Definition stored_value (key : string) (ls : LocalStorage) : value :=
  match ls_getItem key ls with
  | Return (Some s) =>
      if String.eqb s EmptyString then VNull
      else match JSON_parse s with Return v => v | Throw _ => VNull end
  | _ => VNull
  end.

(** The storage write [saveToStorage] attempts. *)
Definition storage_write (key : string) (data : value) (ls : LocalStorage)
    : outcome LocalStorage :=
  match data with
  | VNull => ls_removeItem key ls
  | _ => ls_setItem key (stringify_for_storage data) ls
  end.

(** A value that survives the trip through JSON text. *)
Definition JSON_serializable (v : value) : Prop :=
  v <> VUndefined /\ JSON_stringify v <> EmptyString
  /\ JSON_parse (JSON_stringify v) = Return v.

(** The request [makeRequest] hands to [fetch]. *)
Definition request_of (url : string) (options : Options) (token : option string) : Request :=
  mkRequest (API_BASE_URL +:+ url)
            (default "GET"%string (opt_method options))
            (headers_spread
               (headers_spread [("Content-Type", "application/json")]%string
                               (authorization token))
               (opt_headers options))
            (opt_body options).

(** The items whose checkbox shows as checked. *)
Definition checked_items (st : PilotAcceptanceForm.FormState) : list string :=
  List.filter (PilotAcceptanceForm.item_checked st) PilotAcceptanceForm.CHECKLIST_ITEMS.

(** The multipart body [uploadFile] builds. *)
Definition upload_form (file : File) (projectId description : value)
    : list (string * (File + string)) :=
  [("file", inl file); ("project_id", inr (to_String projectId))]%string
    ++ (if truthy (default_param description (VStr EmptyString))
        then [("description"%string, inr (to_String (default_param description (VStr EmptyString))))]
        else []).

(** Modelled from the spec: the executable-extension blocklist of the
    server-side check, whose code is not part of these sources; a file is
    executable when its name ends in one of these extensions. *)
Definition executable_extensions : list string :=
  [".exe"; ".bat"; ".cmd"; ".com"; ".msi"; ".scr"; ".sh"; ".dll"; ".jar"; ".app"]%string.

Definition has_suffix (name ext : string) : bool :=
  (String.length ext <=? String.length name)%nat
  && String.eqb (substring (String.length name - String.length ext)
                           (String.length ext) name) ext.

Definition is_executable (file : File) : bool :=
  existsb (has_suffix (file_name file)) executable_extensions.


(** The comparator [a.key - b.key], positive when [a] is the later one. *)
Definition later {A : Type} (key : A -> Z) (a b : A) : bool := key b <? key a.

Definition is_queue_key (k : string) : bool :=
  negb (String.eqb k EmptyString) && startsWith k "file_queue_".

Definition is_pending (data : value) : bool :=
  truthy data && str_is (get data "status") "pending".

(** The pending jobs, in the order local storage enumerates its keys. *)
Definition pending_in (ls : LocalStorage) (entries : list (string * string)) : list value :=
  List.filter is_pending
    (map (fun k => stored_value k ls) (List.filter is_queue_key (map fst entries))).

Definition pending_jobs (ls : LocalStorage) : list value := pending_in ls (items ls).

Definition timestamp_of (job : value) : Z :=
  default 0 (new_Date (get job "timestamp")).

Definition valid_timestamp (job : value) : Prop :=
  is_Some (new_Date (get job "timestamp")).

Definition queue_key (now : Z) (suffix : string) : string :=
  "file_queue_" +:+ Z_to_string now +:+ "_" +:+ suffix.

(** The job [addFileToQueue] writes, for the key and the time it read. *)
Definition queued_job (file : File) (projectId description : value)
    (queueKey : string) (t : Z) : value :=
  VObj [("id", VStr queueKey);
        ("file", VObj [("name", VStr (file_name file));
                       ("size", VNum (file_size file));
                       ("type", VStr (file_type file));
                       ("lastModified", VNum (file_lastModified file));
                       ("content", VStr (readAsDataURL file))]);
        ("projectId", projectId);
        ("description", default_param description (VStr EmptyString));
        ("timestamp", VStr (DateFmt.toISOString t));
        ("status", VStr "pending")].

Fixpoint no_T (s : string) : bool :=
  match s with
  | EmptyString => true
  | String c s' => negb (Ascii.eqb c "T") && no_T s'
  end.

(** What a call may do to local storage: nothing, or drop the token. *)
Definition token_dropped (ls ls' : LocalStorage) : Prop :=
  ls' = ls \/ ls' = ls_with_items ls (alist_remove "auth_token" (items ls)).

Definition valid_date (v : value) : bool :=
  match v with VUndefined | VNull | VDate _ => true | _ => false end.

(** [YYYY-MM-DD] for a Date, [undefined] for no date. *)
Definition iso_date (v : value) : value :=
  match v with VDate t => VStr (DateFmt.date_part t) | _ => VUndefined end.

Definition number_or_null (parse : string -> value) (x : value) : value :=
  if truthy x then parse (to_String x) else VNull.

(** The fields [submitClientIntake] copies as they were entered. *)
Definition copied_fields : list string :=
  ["school_name"; "address"; "contact_person"; "role_position"; "phone_whatsapp";
   "email"; "current_website"; "project_type"; "project_purpose";
   "pilot_scope_features"; "timeline_preference"; "design_preferences";
   "logo_colors"; "content_availability"; "maintenance_plan"; "additional_notes";
   "acknowledgment"]%string.

(** The object whose JSON text is the body of the request. *)
Definition client_payload (formData : value) : value :=
  VObj [("organization",
         VObj [("name", get formData "school_name");
               ("organization_type", VStr "educational");
               ("email", get formData "email")]);
        ("school_name", get formData "school_name");
        ("address", get formData "address");
        ("contact_person", get formData "contact_person");
        ("role_position", get formData "role_position");
        ("phone_whatsapp", get formData "phone_whatsapp");
        ("email", get formData "email");
        ("current_website", get formData "current_website");
        ("number_of_students", number_or_null parseInt (get formData "number_of_students"));
        ("number_of_staff", number_or_null parseInt (get formData "number_of_staff"));
        ("project_type", get formData "project_type");
        ("project_purpose", get formData "project_purpose");
        ("pilot_scope_features", get formData "pilot_scope_features");
        ("pilot_start_date", iso_date (get formData "pilot_start_date"));
        ("pilot_end_date", iso_date (get formData "pilot_end_date"));
        ("timeline_preference", get formData "timeline_preference");
        ("design_preferences", get formData "design_preferences");
        ("logo_colors", get formData "logo_colors");
        ("content_availability", get formData "content_availability");
        ("maintenance_plan", get formData "maintenance_plan");
        ("token_commitment_fee",
         number_or_null parseFloat (get formData "token_commitment_fee"));
        ("additional_notes", get formData "additional_notes");
        ("acknowledgment", get formData "acknowledgment")].

Definition clients_post (formData : value) : Options :=
  mkOptions (Some "POST"%string) [] (TextBody (JSON_stringify (client_payload formData))).

(** The world once [isSubmitting] is raised. *)
Definition submitting (w : World) : World :=
  dispatch (SET_FIELD "isSubmitting" (VBool true)) w.

Definition missing_error (data : value) : JsError :=
  new_Error ("Please fill in all required fields: " +:+ join ", " (missingFields data)).

(** How the submit operation inside [onSubmit] ends, and in which world. *)
Definition submit_attempt (data : value) (w : World) : outcome Reply * World :=
  if (0 <? length (missingFields data))%nat
  then (Throw (missing_error data), submitting w)
  else submitClientIntake data (submitting w).

Definition failure_alert (e : JsError) : string :=
  "Form submission failed: " +:+ message e +:+ ". Data saved offline for later sync.".

(** Local storage that can be read and written, with room left. *)
Definition reliable (ls : LocalStorage) : Prop :=
  available ls = true /\ quota ls = None.

Definition is_object (v : value) : Prop := exists props, v = VObj props.

(** The record [updateFileQueueStatus] writes back. *)
Definition with_status (data : value) (status : string) (error : value) : value :=
  let data := set data "status" (VStr status) in
  if truthy error then set data "error" error else data.



(** The job as it is stored while its upload is under way. *)
Definition uploading (item : value) : value := with_status item "uploading" VNull.


Definition completed (item : value) : value :=
  with_status (uploading item) "completed" VNull.



End Vocabulary.

(** ** Concrete inputs *)
Module Demo.
Import Chrome.

Definition empty_storage : LocalStorage := mkLocalStorage [] None true.

Definition world (ls : LocalStorage) (net : list FetchOutcome) : World :=
  mkWorld ls net [] [] [1700000000123; 1700000000456] ["k3j9x0a1b"%string]
          [] false VNull (VObj []) (VObj []).

Definition draft : value :=
  VObj [("school_name", VStr "Hillside Academy"); ("number_of_students", VStr "420")].

Definition job (key name bits timestamp status : string) : value :=
  VObj [("id", VStr key);
        ("file", VObj [("name", VStr name); ("size", VNum (Z.of_nat (String.length bits)));
                       ("type", VStr "text/plain"); ("lastModified", VNum 1699999000000);
                       ("content", VStr (data_url (mkFile name 0 "text/plain" 0 bits)))]);
        ("projectId", VStr "p-7");
        ("description", VStr "minutes");
        ("timestamp", VStr timestamp);
        ("status", VStr status)].

Definition older_job : value :=
  job "file_queue_1700000000123_k3j9x0a1b" "monday.txt" "abc"
      "2023-11-14T22:13:20.456Z" "pending".

Definition newer_job : value :=
  job "file_queue_1700000600000_zz81h2m4q" "tuesday.txt" "defg"
      "2023-11-14T22:23:20.001Z" "pending".

Definition entry (j : value) : string * string := (to_String (get j "id"), stringify j).

(** The two jobs, enumerated oldest first and newest first. *)
Definition queue_oldest_first : LocalStorage :=
  mkLocalStorage [("auth_token", "s3cr3t")%string; entry older_job; entry newer_job] None true.

Definition queue_newest_first : LocalStorage :=
  mkLocalStorage [entry newer_job; ("auth_token", "s3cr3t")%string; entry older_job] None true.

Definition created : Response :=
  mkResponse 201 (Some "application/json"%string) (Return (VObj [("id", VNum 9)])).

Definition unavailable : Response :=
  mkResponse 503 (Some "text/html"%string) (Throw (Error "SyntaxError" "Unexpected token <")).

(** The files of the upload requests a world has seen, by name. *)
Definition uploaded_names (w : World) : list string :=
  flat_map (fun rq => match req_body rq with
                      | FormData (("file", inl f) :: _) => [file_name f]
                      | _ => []
                      end) (requests w).

(** An intake form with every required field filled in. *)
Definition complete_form : value :=
  VObj [("school_name", VStr "Hillside Academy"); ("address", VStr "12 Ridge Rd");
        ("contact_person", VStr "R. Mensah"); ("email", VStr "office@hillside.example");
        ("number_of_students", VStr "420"); ("number_of_staff", VStr "");
        ("project_type", VArr [VStr "student_portal"]);
        ("project_purpose", VArr [VStr "enhance_communication"]);
        ("pilot_scope_features", VArr [VStr "gradebook"; VStr "attendance_tracking"]);
        ("pilot_start_date", VDate 1704067200000); ("pilot_end_date", VNull);
        ("timeline_preference", VStr "3_months");
        ("token_commitment_fee", VStr "500")].

(** The acceptance form with every checkbox ticked, one after the other. *)
Definition all_checked : PilotAcceptanceForm.FormState :=
  fold_right (fun key st => PilotAcceptanceForm.handleChecklistChange key true st)
             PilotAcceptanceForm.initialState PilotAcceptanceForm.CHECKLIST_ITEMS.

End Demo.

(** * The other functions of the hooks and the components *)

Section VocabularyOfTheHooks.
Context {browser : Browser}.

(** The keys [getOfflineKeys] reports. *)
Definition is_offline_key (k : string) : bool :=
  negb (String.eqb k EmptyString)
  && (startsWith k "client_intake_" || startsWith k "file_queue_").


End VocabularyOfTheHooks.

(** ** hooks/useApiClient.js: the other request functions *)

(** What [response.blob()] settles to: the bytes of the body. *)
Class ResponseBody : Type := { response_blob : Response -> outcome string }.

Section useApiClientEndpoints.
Context {browser : Browser} {body : ResponseBody}.

(** A property read [response.k] on what [makeRequest] resolved to, for the
    names these sources read ([id], [document]): a [Response] has none of
    them, and parsed JSON that is null or undefined has no properties. *)
Definition reply_member (response : Reply) (k : string) : JS World value :=
  match response with
  | Json v => member_of v k
  | Raw _ => ret VUndefined
  end.

(** [body: JSON.stringify(data)]: the text of [data], and no body when
    [data] is undefined. *)
Definition json_body (data : value) : Body :=
  match data with
  | VUndefined => NoBody
  | _ => TextBody (JSON_stringify data)
  end.

Definition POST : Options := mkOptions (Some "POST"%string) [] NoBody.

Definition generatePDF (formData : value) : JS World value :=
  clientResponse <- submitClientIntake formData ;;
  clientId <- reply_member clientResponse "id" ;;
  pdfResponse <- makeRequest ("/clients/" +:+ to_String clientId +:+ "/generate-intake-pdf/")
                             POST ;;
  document <- reply_member pdfResponse "document" ;;
  member_of document "pdf_url".

Definition getClient (clientId : value) : JS World Reply :=
  makeRequest ("/clients/" +:+ to_String clientId +:+ "/") no_options.

Definition updateClient (clientId updateData : value) : JS World Reply :=
  makeRequest ("/clients/" +:+ to_String clientId +:+ "/")
    (mkOptions (Some "PATCH"%string) [] (json_body updateData)).

Definition getIntakeStatistics : JS World Reply :=
  makeRequest "/clients/intake-statistics/" no_options.

Definition completeClientIntake (clientId intakeData : value) : JS World Reply :=
  makeRequest ("/clients/" +:+ to_String clientId +:+ "/complete-intake/")
    (mkOptions (Some "POST"%string) [] (json_body intakeData)).

Definition submitPilotAcceptance (acceptanceData : value) : JS World Reply :=
  makeRequest "/pilot-acceptance/"
    (mkOptions (Some "POST"%string) [] (json_body acceptanceData)).

Definition getPilotAcceptances : JS World Reply :=
  makeRequest "/pilot-acceptance/" no_options.

Definition getPilotAcceptance (acceptanceId : value) : JS World Reply :=
  makeRequest ("/pilot-acceptance/" +:+ to_String acceptanceId +:+ "/") no_options.

Definition updatePilotAcceptance (acceptanceId updateData : value) : JS World Reply :=
  makeRequest ("/pilot-acceptance/" +:+ to_String acceptanceId +:+ "/")
    (mkOptions (Some "PATCH"%string) [] (json_body updateData)).

Definition signPilotAcceptance (acceptanceId signatureData : value) : JS World Reply :=
  makeRequest ("/pilot-acceptance/" +:+ to_String acceptanceId +:+ "/sign_acceptance/")
    (mkOptions (Some "POST"%string) [] (json_body signatureData)).

(** [response instanceof Blob]: [makeRequest] resolves to parsed JSON or to
    the [Response] itself, and neither is a [Blob]. *)
Definition instanceof_Blob (response : Reply) : bool :=
  match response with
  | Json _ => false
  | Raw _ => false
  end.

(** [URL.createObjectURL(blob)] *)
Definition createObjectURL (n : nat) : value := VStr ("blob:" +:+ Z_to_string (Z.of_nat n)).

Definition generateAcceptancePDF (acceptanceData : value) : JS World value :=
  response <- makeRequest "/pilot-acceptance/1/generate_certificate/" POST ;;
  if instanceof_Blob response then ret (createObjectURL 0)
  else throw (new_Error "Failed to generate PDF").

Definition getPilotAcceptanceStatistics : JS World Reply :=
  makeRequest "/pilot-acceptance/statistics/" no_options.

Definition getPendingSignatures : JS World Reply :=
  makeRequest "/pilot-acceptance/pending_signatures/" no_options.

Definition getAttachmentsByProject (projectId : value) : JS World Reply :=
  makeRequest ("/attachments/by_project/?project_id=" +:+ to_String projectId) no_options.

Definition deleteFile (attachmentId : value) : JS World Reply :=
  makeRequest ("/attachments/" +:+ to_String attachmentId +:+ "/")
    (mkOptions (Some "DELETE"%string) [] NoBody).

Definition getMyUploads : JS World Reply :=
  makeRequest "/attachments/my_uploads/" no_options.

Definition getAttachmentStats : JS World Reply :=
  makeRequest "/attachments/stats/" no_options.

Definition downloadFile (attachmentId : value) : JS World string :=
  modify (setIsLoading true) ;;;
  modify (setError VNull) ;;;
  finally
    (try_catch
       (token <- getAuthToken ;;
        response <- fetch (mkRequest (API_BASE_URL +:+ "/attachments/"
                                        +:+ to_String attachmentId +:+ "/download/")
                                     "GET" (authorization token) NoBody) ;;
        if negb (ok response) then
          if status response =? 401 then
            localStorage_removeItem "auth_token" ;;;
            throw (new_Error "Authentication required. Please log in again.")
          else if status response =? 403 then
            throw (new_Error "Access denied. You do not have permission to download this file.")
          else if status response =? 404 then
            throw (new_Error "File not found.")
          else
            throw (new_Error ("Download failed with status "
                                +:+ Z_to_string (status response)))
        else lift (response_blob response))
       (fun err =>
          modify (setError (err_message_or err "An unexpected error occurred during download")) ;;;
          throw err))
    (setIsLoading false).

End useApiClientEndpoints.


Section VocabularyOfRequests.
Context {browser : Browser}.

(** Whether [makeRequest] reads the body of a successful response as JSON. *)
Definition json_content (r : Response) : bool :=
  match content_type r with
  | Some contentType =>
      negb (String.eqb contentType EmptyString) && includes contentType "application/json"
  | None => false
  end.

(** The entry for a header name that a spread of [l] leaves: the last one. *)
Definition last_entry (h : string) (l : list (string * string)) : option string :=
  alist_lookup h (rev l).

(** The [Authorization] header for the stored token. *)
Definition bearer (token : option string) : option string :=
  match token with
  | Some t => if String.eqb t EmptyString then None else Some ("Bearer " +:+ t)
  | None => None
  end.

(** The message of a failed request that is not a 401, a 403 or a 5xx:
    the [detail] of a JSON body, or the status. *)
Definition failure_detail (what : string) (r : Response) : JsError :=
  let fallback := VStr (what +:+ " failed with status " +:+ Z_to_string (status r)) in
  match json r with
  | Throw _ => new_Error (to_String fallback)
  | Return VUndefined => TypeError "Cannot read properties of undefined"
  | Return VNull => TypeError "Cannot read properties of null"
  | Return errorData => new_Error (to_String (js_or (get errorData "detail") fallback))
  end.

(** The path of the request for the PDF of the client [client]. *)
Definition intake_pdf_url (client : value) : string :=
  "/clients/" +:+ to_String (get client "id") +:+ "/generate-intake-pdf/".

Definition nullish (v : value) : bool :=
  match v with VUndefined | VNull => true | _ => false end.

End VocabularyOfRequests.

(** Concrete inputs for the request functions. *)
Module Sample.

(** A signed-in browser: the token and a saved draft. *)
Definition signed_in : LocalStorage :=
  mkLocalStorage [("auth_token", "s3cr3t"); ("client_intake_form", "{}")]%string None true.

Definition not_found : Response :=
  mkResponse 404 (Some "application/json"%string)
             (Return (VObj [("detail", VStr "No client matches the given query.")])).

Definition expired : Response :=
  mkResponse 401 None (Throw (Error "SyntaxError" "Unexpected end of JSON input")).

Definition pdf_ready : Response :=
  mkResponse 200 (Some "application/json; charset=utf-8"%string)
             (Return (VObj [("document",
                             VObj [("pdf_url", VStr "/media/intake/9.pdf")])])).

Definition csv_headers : Options :=
  mkOptions None [("Content-Type", "text/csv")]%string NoBody.

(** Every response body read as the same four bytes. *)
#[export] Instance pdf_body : ResponseBody := {| response_blob := fun _ => Return "%PDF"%string |}.

Definition minutes : File :=
  mkFile "minutes.txt" 26 "text/plain" 1699999000000 "abcdefghijklmnopqrstuvwxyz".

End Sample.

Section VocabularyOfTheForms.
Context {browser : Browser}.

(** The files [validateFile] accepts. *)
Definition accepted (file : File) : bool :=
  (file_size file <=? maxSize) && array_includes allowedTypes (file_type file).

(** The message logged for a file that [validateFile] refuses. *)
Definition rejection (file : File) : list string :=
  match validateFile file with
  | Return _ => []
  | Throw e => [message e]
  end.

End VocabularyOfTheForms.

(** ** components/FileList.jsx: what the list shows *)

(** [String.prototype.toLowerCase], which the search applies to both sides. *)
Class Text : Type := { toLowerCase : string -> string }.

Module FileList.
Section View.
Context {text : Text}.

Definition itemsPerPage : Z := 12.

(** [l.slice(start, end)]: negative positions count from the end. *)
Definition array_slice {A} (l : list A) (start final : Z) : list A :=
  let len := Z.of_nat (length l) in
  let k := if start <? 0 then Z.max (len + start) 0 else Z.min start len in
  let final := if final <? 0 then Z.max (len + final) 0 else Z.min final len in
  take (Z.to_nat (final - k)) (drop (Z.to_nat k) l).

(** [s.toLowerCase().includes(term.toLowerCase())] on a property value. *)
Definition lower_includes (v : value) (term : string) : outcome bool :=
  match v with
  | VStr s => Return (includes (toLowerCase s) (toLowerCase term))
  | VUndefined | VNull =>
      Throw (TypeError "Cannot read properties of undefined (reading 'toLowerCase')")
  | _ => Throw (TypeError "toLowerCase is not a function")
  end.

(** The predicate of [files.filter(...)], for one attachment object. *)
Definition matches (searchTerm fileTypeFilter : string) (file : value) : outcome bool :=
  let matchesType :=
    String.eqb fileTypeFilter "all" || str_is (get file "file_type") fileTypeFilter in
  match lower_includes (get file "file_name") searchTerm with
  | Throw e => Throw e
  | Return true => Return matchesType
  | Return false =>
      match get file "description" with
      | VUndefined | VNull => Return false
      | description =>
          match lower_includes description searchTerm with
          | Throw e => Throw e
          | Return b => Return (b && matchesType)
          end
      end
  end.

Fixpoint array_filter {A} (p : A -> outcome bool) (l : list A) : outcome (list A) :=
  match l with
  | [] => Return []
  | x :: l' =>
      match p x with
      | Throw e => Throw e
      | Return b =>
          match array_filter p l' with
          | Throw e => Throw e
          | Return r => Return (if b then x :: r else r)
          end
      end
  end.

Definition filteredFiles (files : list value) (searchTerm fileTypeFilter : string)
    : outcome (list value) :=
  array_filter (matches searchTerm fileTypeFilter) files.

Definition startIndex (page : Z) : Z := (page - 1) * itemsPerPage.

Definition paginatedFiles {A} (filteredFiles : list A) (page : Z) : list A :=
  array_slice filteredFiles (startIndex page) (startIndex page + itemsPerPage).

(** [Math.ceil(filteredFiles.length / itemsPerPage)]: the quotient of a
    length by 12 is an integer or at least 1/12 away from one, so the
    rounding of the division does not change its ceiling. *)
Definition paginatedTotalPages {A} (filteredFiles : list A) : Z :=
  (Z.of_nat (length filteredFiles) + itemsPerPage - 1) / itemsPerPage.

(** What the list area renders. *)
Inductive Listing : Type :=
| NoFilesFound (hint : string)
| Shown (items : list value) (pagination : option (Z * Z)).   (* count, page *)

Definition listing (filteredFiles : list value) (searchTerm fileTypeFilter : string)
    (page : Z) : Listing :=
  if (length filteredFiles =? 0)%nat then
    NoFilesFound (if negb (String.eqb searchTerm "") || negb (String.eqb fileTypeFilter "all")
                  then "Try adjusting your search or filters"
                  else "Upload some files to get started")
  else
    Shown (paginatedFiles filteredFiles page)
          (if 1 <? paginatedTotalPages filteredFiles
           then Some (paginatedTotalPages filteredFiles, page) else None).

(** The state of the component that the handlers below touch. *)
Record State : Type := mkState {
  hooks : World;                      (* the state of [useApiClient] *)
  files : list value;                 (* the attachment objects loaded *)
  error : value;
  searchTerm : string;
  fileTypeFilter : string;
  page : Z;
  showDeleteDialog : bool;
  fileToDelete : value;
}.

Definition set_hooks (w : World) (st : State) : State :=
  mkState w (files st) (error st) (searchTerm st) (fileTypeFilter st) (page st)
          (showDeleteDialog st) (fileToDelete st).
Definition setFiles (f : list value -> list value) (st : State) : State :=
  mkState (hooks st) (f (files st)) (error st) (searchTerm st) (fileTypeFilter st) (page st)
          (showDeleteDialog st) (fileToDelete st).
Definition setError (e : value) (st : State) : State :=
  mkState (hooks st) (files st) e (searchTerm st) (fileTypeFilter st) (page st)
          (showDeleteDialog st) (fileToDelete st).
Definition setSearchTerm (term : string) (st : State) : State :=
  mkState (hooks st) (files st) (error st) term (fileTypeFilter st) (page st)
          (showDeleteDialog st) (fileToDelete st).
Definition setFileTypeFilter (type : string) (st : State) : State :=
  mkState (hooks st) (files st) (error st) (searchTerm st) type (page st)
          (showDeleteDialog st) (fileToDelete st).
Definition setPage (p : Z) (st : State) : State :=
  mkState (hooks st) (files st) (error st) (searchTerm st) (fileTypeFilter st) p
          (showDeleteDialog st) (fileToDelete st).
Definition setShowDeleteDialog (b : bool) (st : State) : State :=
  mkState (hooks st) (files st) (error st) (searchTerm st) (fileTypeFilter st) (page st)
          b (fileToDelete st).
Definition setFileToDelete (f : value) (st : State) : State :=
  mkState (hooks st) (files st) (error st) (searchTerm st) (fileTypeFilter st) (page st)
          (showDeleteDialog st) f.

(** A call of a hook function from the component. *)
Definition call {A} (m : JS World A) : JS State A :=
  fun st => let '(r, w) := m (hooks st) in (r, set_hooks w st).

(** The list area for a state, as rendered while no load is under way
    ([loading] is false; during a load a spinner replaces the component).
    The filter can throw on an entry whose [file_name] is not text. *)
Definition render (st : State) : outcome Listing :=
  match filteredFiles (files st) (searchTerm st) (fileTypeFilter st) with
  | Throw e => Throw e
  | Return filtered =>
      Return (listing filtered (searchTerm st) (fileTypeFilter st) (page st))
  end.

(** [a === b] where one side is a primitive: the ids are numbers or text. *)
Definition strict_equal (a b : value) : bool :=
  match a, b with
  | VUndefined, VUndefined | VNull, VNull => true
  | VBool x, VBool y => Bool.eqb x y
  | VNum x, VNum y => x =? y
  | VStr x, VStr y => String.eqb x y
  | _, _ => false
  end.

Section Handlers.
Context {browser : Browser}.

Definition handleDeleteClick (file : value) : JS State unit :=
  modify (setFileToDelete file) ;;;
  modify (setShowDeleteDialog true).

Definition handleDeleteConfirm : JS State unit :=
  fun st =>
    let fileToDelete := fileToDelete st in
    if negb (truthy fileToDelete) then (Return tt, st)
    else
      try_catch
        (call (deleteFile (get fileToDelete "id")) ;;;
         modify (setFiles (List.filter
                   (fun f => negb (strict_equal (get f "id") (get fileToDelete "id"))))) ;;;
         modify (setShowDeleteDialog false) ;;;
         modify (setFileToDelete VNull))
        (fun error => modify (setError (err_message_or error "Delete failed")))
        st.

End Handlers.

End View.
End FileList.


(** The pages [1 .. n]. *)
Definition pages (n : Z) : list Z := map (fun i => Z.of_nat i + 1) (seq 0 (Z.to_nat n)).

Definition primitive (v : value) : bool :=
  match v with
  | VUndefined | VNull | VBool _ | VNum _ | VNaN | VStr _ => true
  | VDate _ | VArr _ | VObj _ => false
  end.

Module SampleFiles.

(** Lower case for the letters A-Z. *)
Definition lower_ascii (c : ascii) : ascii :=
  let n := nat_of_ascii c in
  if (65 <=? n)%nat && (n <=? 90)%nat then ascii_of_nat (n + 32) else c.

Fixpoint lower (s : string) : string :=
  match s with
  | EmptyString => EmptyString
  | String c s' => String (lower_ascii c) (lower s')
  end.

#[export] Instance ascii_text : Text := {| toLowerCase := lower |}.

Definition attachment (id : Z) (name type : string) : value :=
  VObj [("id", VNum id); ("file_name", VStr name); ("file_type", VStr type)].

(** Thirty attachments, the scans numbered 1 to 29 and one budget sheet. *)
Definition thirty : list value :=
  map (fun i => attachment (Z.of_nat i) ("Scan-" +:+ Z_to_string (Z.of_nat i) +:+ ".png") "image")
      (seq 1 29)
  ++ [attachment 30 "Budget.xlsx" "spreadsheet"].

Definition on_page_3 : FileList.State :=
  FileList.mkState (Demo.world Sample.signed_in []) thirty VNull "" "all" 3 false VNull.

End SampleFiles.

(** ** PilotHandoverForm: the reducer and the completion percentage *)
Module PilotHandoverForm.

Definition initialFormState : value :=
  VObj [("projectId", VStr "");
        ("expectedDeliveryDate", VStr "");
        ("assignedTeamMembers", VArr []);
        ("checklist",
         VObj [("technicalSetup",
                VObj [("domainConfigured", VBool false); ("sslActive", VBool false);
                      ("siteLoadOk", VBool false); ("responsiveDesign", VBool false);
                      ("noBrokenLinks", VBool false)]);
               ("corePages",
                VObj [("homeCompleted", VBool false); ("aboutNewsAdded", VBool false);
                      ("contactCorrect", VBool false); ("portalLinksOk", VBool false);
                      ("socialMediaTested", VBool false)]);
               ("contentAccuracy",
                VObj [("logoCorrect", VBool false); ("photosOptimized", VBool false);
                      ("textProofread", VBool false); ("infoMatchesOfficial", VBool false)]);
               ("securityCompliance",
                VObj [("adminCreated", VBool false); ("restrictedAccess", VBool false);
                      ("privacyStatementIncluded", VBool false)]);
               ("trainingHandoverPrep",
                VObj [("trainingScheduled", VBool false);
                      ("trainingMaterialsReady", VBool false);
                      ("howtoInstructions", VBool false);
                      ("supportContactAdded", VBool false)]);
               ("finalTestRun",
                VObj [("browsersTested", VBool false); ("formsTested", VBool false);
                      ("backupTaken", VBool false); ("screenshotsCaptured", VBool false)])]);
        ("teamLeadSignature",
         VObj [("name", VStr ""); ("signature", VStr ""); ("date", VNull)]);
        ("approvalNotes", VStr "");
        ("status", VStr "draft")].

(** The own enumerable properties of a value, as a spread, [Object.keys],
    [Object.values] and [Object.entries] see them: those of an object, the
    elements of an array under their indices; none for the other values
    that occur here. *)
Definition own_props (v : value) : list (string * value) :=
  match v with
  | VObj props => props
  | VArr l => imap (fun i x => (Z_to_string (Z.of_nat i), x)) l
  | _ => []
  end.

(** [{ ...a, ...b }] and [{ ...a, [k]: v }]. *)
Definition merge (a b : value) : value := VObj (spread (own_props a) (own_props b)).
Definition with_prop (a : value) (k : string) (v : value) : value :=
  VObj (alist_set k v (own_props a)).

Inductive Action : Type :=
| SET_PROJECT (payload : value)
| SET_DELIVERY_DATE (payload : value)
| SET_TEAM_MEMBERS (payload : value)
| UPDATE_CHECKLIST_SECTION (section : string) (payload : value)
| UPDATE_SIGNATURE (payload : value)
| SET_APPROVAL_NOTES (payload : value)
| RESET_FORM
| LOAD_EXISTING (payload : value)
| UNKNOWN.

(** Reading [state.checklist[action.section]] throws when the checklist is
    null or undefined. *)
Definition formReducer (state : value) (action : Action) : outcome value :=
  match action with
  | SET_PROJECT payload => Return (with_prop state "projectId" payload)
  | SET_DELIVERY_DATE payload => Return (with_prop state "expectedDeliveryDate" payload)
  | SET_TEAM_MEMBERS payload => Return (with_prop state "assignedTeamMembers" payload)
  | UPDATE_CHECKLIST_SECTION section payload =>
      match get state "checklist" with
      | VUndefined | VNull => Throw (TypeError "Cannot read properties of undefined")
      | checklist =>
          Return (with_prop state "checklist"
                    (with_prop checklist section (merge (get checklist section) payload)))
      end
  | UPDATE_SIGNATURE payload =>
      Return (with_prop state "teamLeadSignature"
                (merge (get state "teamLeadSignature") payload))
  | SET_APPROVAL_NOTES payload => Return (with_prop state "approvalNotes" payload)
  | RESET_FORM => Return initialFormState
  | LOAD_EXISTING payload => Return (merge state payload)
  | UNKNOWN => Return state
  end.

Definition updateChecklistSection (section field : string) (v : value) (formState : value)
    : outcome value :=
  formReducer formState (UPDATE_CHECKLIST_SECTION section (VObj [(field, v)])).

(** [Object.values(v)] and [Object.keys(v)]. *)
Definition Object_values (v : value) : outcome (list value) :=
  match v with
  | VUndefined | VNull => Throw (TypeError "Cannot convert undefined or null to object")
  | _ => Return (map snd (own_props v))
  end.

Definition Object_keys (v : value) : outcome (list string) :=
  match v with
  | VUndefined | VNull => Throw (TypeError "Cannot convert undefined or null to object")
  | _ => Return (map fst (own_props v))
  end.

(** A count as a JavaScript number (an IEEE 754 double). *)
Definition Number_of (n : nat) : PrimFloat.float :=
  PrimFloat.of_uint63 (Uint63.of_Z (Z.of_nat n)).

(** [Math.round(x)] for a finite [x]: the nearest integer, a tie going up. *)
Definition Math_round (x : PrimFloat.float) : Z :=
  match FloatOps.Prim2SF x with
  | SpecFloat.S754_finite s m e =>
      let n := if s then Z.neg m else Z.pos m in
      if 0 <=? e then n * 2 ^ e
      else (2 * n + 2 ^ (- e)) / 2 ^ (- e + 1)
  | _ => 0
  end.

(** [Math.round((completedItems / totalItems) * 100)] *)
Definition percentage (completedItems totalItems : nat) : Z :=
  Math_round (PrimFloat.mul (PrimFloat.div (Number_of completedItems) (Number_of totalItems))
                            (Number_of 100)).

(** [sections.reduce((total, section) => total + f(section).length, 0)] *)
Fixpoint count_in {A} (f : value -> outcome (list A)) (sections : list value) (total : nat)
    : outcome nat :=
  match sections with
  | [] => Return total
  | section :: rest =>
      match f section with
      | Throw e => Throw e
      | Return l => count_in f rest (total + length l)
      end
  end.

Definition truthy_values (section : value) : outcome (list value) :=
  match Object_values section with
  | Throw e => Throw e
  | Return l => Return (List.filter truthy l)
  end.

(** The value handed to [setCompletionPercentage]. *)
Definition calculateCompletionPercentage (formState : value) : outcome Z :=
  match Object_values (get formState "checklist") with
  | Throw e => Throw e
  | Return sections =>
      match count_in Object_keys sections 0 with
      | Throw e => Throw e
      | Return totalItems =>
          match count_in truthy_values sections 0 with
          | Throw e => Throw e
          | Return completedItems =>
              Return (if (0 <? totalItems)%nat
                      then percentage completedItems totalItems else 0)
          end
      end
  end.

(** The checkboxes of a state: one for each entry of the six sections the
    form renders. *)
Definition SECTIONS : list string :=
  ["technicalSetup"; "corePages"; "contentAccuracy"; "securityCompliance";
   "trainingHandoverPrep"; "finalTestRun"]%string.

Definition checkboxes (formState : value) : list (string * string * value) :=
  flat_map (fun section =>
              map (fun '(field, v) => (section, field, v))
                  (own_props (get (get formState "checklist") section)))
           SECTIONS.

(** The states of the form between a reset and the loading of a saved
    handover: boxes are ticked and unticked, the other fields are edited. *)
Inductive reachable : value -> Prop :=
| reach_initial : reachable initialFormState
| reach_tick st section field v (b : bool) st' :
    reachable st -> In (section, field, v) (checkboxes st) ->
    updateChecklistSection section field (VBool b) st = Return st' ->
    reachable st'
| reach_edit st a st' :
    reachable st ->
    (forall section payload, a <> UPDATE_CHECKLIST_SECTION section payload) ->
    (forall payload, a <> LOAD_EXISTING payload) ->
    formReducer st a = Return st' ->
    reachable st'.

End PilotHandoverForm.


Module Handover.

(** The state after a dispatched action, the state itself when the reducer
    throws. *)
Definition after (st : value) (a : PilotHandoverForm.Action) : value :=
  match PilotHandoverForm.formReducer st a with
  | Return st' => st'
  | Throw _ => st
  end.

Definition one_ticked : value :=
  after PilotHandoverForm.initialFormState
    (PilotHandoverForm.UPDATE_CHECKLIST_SECTION "corePages"
       (VObj [("contactCorrect", VBool true)])).

Definition two_ticked : value :=
  after one_ticked
    (PilotHandoverForm.UPDATE_CHECKLIST_SECTION "finalTestRun"
       (VObj [("backupTaken", VBool true)])).

End Handover.

(** The boxes of the handover checklist that are ticked. *)
Definition ticked (formState : value) : list (string * string * value) :=
  List.filter (fun box => truthy (snd box)) (PilotHandoverForm.checkboxes formState).

(** The checklist for given ticks of its twenty-five boxes. *)
Definition checklist_of (b : list bool) : value :=
  match b with
  | [a1; a2; a3; a4; a5; c1; c2; c3; c4; c5; d1; d2; d3; d4; e1; e2; e3;
     f1; f2; f3; f4; g1; g2; g3; g4] =>
      VObj [("technicalSetup",
             VObj [("domainConfigured", VBool a1); ("sslActive", VBool a2);
                   ("siteLoadOk", VBool a3); ("responsiveDesign", VBool a4);
                   ("noBrokenLinks", VBool a5)]);
            ("corePages",
             VObj [("homeCompleted", VBool c1); ("aboutNewsAdded", VBool c2);
                   ("contactCorrect", VBool c3); ("portalLinksOk", VBool c4);
                   ("socialMediaTested", VBool c5)]);
            ("contentAccuracy",
             VObj [("logoCorrect", VBool d1); ("photosOptimized", VBool d2);
                   ("textProofread", VBool d3); ("infoMatchesOfficial", VBool d4)]);
            ("securityCompliance",
             VObj [("adminCreated", VBool e1); ("restrictedAccess", VBool e2);
                   ("privacyStatementIncluded", VBool e3)]);
            ("trainingHandoverPrep",
             VObj [("trainingScheduled", VBool f1); ("trainingMaterialsReady", VBool f2);
                   ("howtoInstructions", VBool f3); ("supportContactAdded", VBool f4)]);
            ("finalTestRun",
             VObj [("browsersTested", VBool g1); ("formsTested", VBool g2);
                   ("backupTaken", VBool g3); ("screenshotsCaptured", VBool g4)])]
  | _ => VNull
  end.

Definition count_true (b : list bool) : nat := length (List.filter id b).

(** ** FileUploader: the upload of the selected files *)
Module FileUploader.

(** The state of the component, around the [World] of its hooks. *)
Record State : Type := mkState {
  world : World;
  selectedFiles : list File;
  description : value;
  uploadProgress : list (string * Z);
}.

Definition set_world (w : World) (u : State) : State :=
  mkState w (selectedFiles u) (description u) (uploadProgress u).
Definition setSelectedFiles (f : list File -> list File) (u : State) : State :=
  mkState (world u) (f (selectedFiles u)) (description u) (uploadProgress u).
Definition setDescription (d : value) (u : State) : State :=
  mkState (world u) (selectedFiles u) d (uploadProgress u).
Definition setUploadProgress (f : list (string * Z) -> list (string * Z)) (u : State) : State :=
  mkState (world u) (selectedFiles u) (description u) (f (uploadProgress u)).

(** A call of a hook's function from the component. *)
Definition in_world {A} (m : JS World A) : JS State A :=
  fun u => let '(r, w) := m (world u) in (r, set_world w u).

(** [l.filter((x, index) => f x index)] *)
Fixpoint array_filter_from {A} (f : A -> nat -> bool) (index : nat) (l : list A) : list A :=
  match l with
  | [] => []
  | x :: rest =>
      if f x index then x :: array_filter_from f (S index) rest
      else array_filter_from f (S index) rest
  end.

Definition array_filter_index {A} (f : A -> nat -> bool) (l : list A) : list A :=
  array_filter_from f 0 l.

Definition removeFile (index : nat) : JS State unit :=
  modify (setSelectedFiles (array_filter_index (fun _ i => negb (i =? index)%nat))).

Section Component.
Context {browser : Browser}.
(** The props and the connection state the handler closes over. *)
Variable projectId : value.
Variable isOnline : bool.
Variable onFileUploaded : option (value -> JS World unit).

Definition fileId (file : File) (i : nat) : string :=
  file_name file +:+ "_" +:+ Z_to_string (file_size file) +:+ "_" +:+ Z_to_string (Z.of_nat i).

(** One turn of the loop of [handleUpload], for the file at index [i] of the
    selection the handler was created with. *)
Definition handleUpload_file (description : value) (i : nat) (file : File) : JS State unit :=
  try_catch
    (modify (setUploadProgress (alist_set (fileId file i) 0)) ;;;
     (if isOnline then
        result <- in_world (uploadFile file projectId description) ;;
        modify (setUploadProgress (alist_set (fileId file i) 100)) ;;;
        match onFileUploaded with
        | Some callback => in_world (callback result)
        | None => ret tt
        end
      else
        in_world (addFileToQueue file projectId description) ;;;
        modify (setUploadProgress (alist_set (fileId file i) 100))) ;;;
     modify (setSelectedFiles (array_filter_index (fun _ index => negb (index =? i)%nat))))
    (fun error => modify (setUploadProgress (alist_set (fileId file i) (-1)))).

(** [handleUpload]: the loop runs over the selection and the description of
    the render the handler belongs to; the updates of the state apply, in
    order, to the state as it is by then. *)
Definition handleUpload : JS State unit :=
  fun u =>
    let files := selectedFiles u in
    let description := description u in
    if (length files =? 0)%nat then (Return tt, u)
    else
      (for_of (imap pair files) (fun '(i, file) => handleUpload_file description i file) ;;;
       modify (setDescription (VStr ""))) u.

End Component.
End FileUploader.


(** The elements at the odd indices. *)
Fixpoint odd_indexed {A} (l : list A) : list A :=
  match l with
  | _ :: y :: rest => y :: odd_indexed rest
  | _ => []
  end.

(** Every file of the list is uploaded, one after the other from [w], and
    the parent's callback returns each time. *)
Fixpoint all_uploaded `{Browser} (projectId description : value)
    (onFileUploaded : option (value -> JS World unit)) (files : list File) (w : World) : Prop :=
  match files with
  | [] => True
  | file :: rest =>
      exists result w1 w2,
        uploadFile file projectId description w = (Return result, w1)
        /\ match onFileUploaded with
           | Some callback => callback result w1
           | None => (Return tt, w1)
           end = (Return tt, w2)
        /\ all_uploaded projectId description onFileUploaded rest w2
  end.

(** The selection while the loop of [handleUpload] is at index [i]: the
    files that stayed, then the files no removal has reached yet. *)
Definition midway (original : list File) (i : nat) (remaining current : list File) : Prop :=
  exists pre rest,
    current = pre ++ rest
    /\ (length pre <= i)%nat /\ (rest <> [] -> length pre = i)
    /\ (length rest <= 2 * length remaining)%nat
    /\ pre ++ odd_indexed rest = odd_indexed original.

(** The progress entries of the files before index [i] all read 100. *)
Definition all_done (original : list File) (i : nat)
    (progress : list (string * Z)) : Prop :=
  forall j file, (j < i)%nat -> original !! j = Some file ->
    alist_lookup (FileUploader.fileId file j) progress = Some 100.

Module SampleUpload.

Definition photo : File := mkFile "photo.png" 2048 "image/png" 1700000000000 "PNG".
Definition notes : File := mkFile "notes.txt" 12 "text/plain" 1700000000001 "hello".
Definition plan : File := mkFile "plan.pdf" 4096 "application/pdf" 1700000000002 "PDF".

Definition stored (id : Z) : Response :=
  mkResponse 201 (Some "application/json"%string) (Return (VObj [("id", VNum id)])).

Definition selection (w : World) : FileUploader.State :=
  FileUploader.mkState w [photo; notes; plan] (VStr "site visit") [].

End SampleUpload.

(** ** PilotHandoverForm: saving the handover

    [apiClient], [useOfflineSync] and the parent's [onSave] live outside the
    component.  A request is recorded on the [Page] and settles as the server
    dictates; of the other functions only the outcome matters here, since
    none of them can reach the component's state. *)
Module HandoverSave.
Import NamedActions.

Definition ReferenceError (name : string) : JsError :=
  Error "ReferenceError" (name +:+ " is not defined").

(** The read of an identifier that no enclosing scope declares. *)
Definition unbound {S} (name : string) : JS S value := throw (ReferenceError name).

Section Handlers.
Context {browser : Browser}.
(** [String.prototype.trim] *)
Variable trim : string -> string.
(** The [response] property of a caught error: undefined for a plain Error. *)
Variable response_of : JsError -> value.
(** The props and the context values the handler closes over. *)
Variable mode : string.
Variable handoverId : value.
Variable onSave : option (value -> outcome unit).
Variable isOnline : bool.
Variable syncToServer : outcome unit.
Variable syncFromServer : value -> outcome unit.

(** [members.filter(member => member.trim() !== '')] *)
Definition named_members (members : value) : outcome value :=
  match members with
  | VArr l =>
      match FileList.array_filter
              (fun member =>
                 match member with
                 | VStr s => Return (negb (String.eqb (trim s) ""))
                 | _ => Throw (TypeError "member.trim is not a function")
                 end) l with
      | Return kept => Return (VArr kept)
      | Throw e => Throw e
      end
  | _ => Throw (TypeError "formState.assignedTeamMembers.filter is not a function")
  end.

Definition is_edit : bool := String.eqb mode "edit".

(** [onSubmit].  The [payload] of the [try] block is declared with [const]
    inside that block, so that the [catch] block, which names it, is outside
    its scope. *)
Definition onSubmit (formState : value) : JS Page unit :=
  modify (set_loading true) ;;;
  modify (set_error VNull) ;;;
  modify (set_success VNull) ;;;
  finally
    (try_catch
       (assigned_team_members <- lift (named_members (get formState "assignedTeamMembers")) ;;
        let payload :=
          VObj [("project_id", get formState "projectId");
                ("expected_delivery_date", get formState "expectedDeliveryDate");
                ("assigned_team_members", assigned_team_members);
                ("checklist", get formState "checklist");
                ("team_lead_signature", get formState "teamLeadSignature");
                ("approval_notes", get formState "approvalNotes")] in
        response <-
          (if is_edit && truthy handoverId then
             apiCall (mkApiCall ("/api/pilot-handover/" +:+ to_String handoverId +:+ "/")
                                "PATCH" payload)
           else apiCall (mkApiCall "/api/pilot-handover/" "POST" payload)) ;;
        modify (set_success (VStr (if is_edit then "Handover updated successfully"
                                   else "Handover created successfully"))) ;;;
        match onSave with
        | Some callback => data <- member_of response "data" ;; lift (callback data)
        | None => ret tt
        end ;;;
        if isOnline then lift syncToServer else ret tt)
       (fun error =>
          if negb isOnline then
            payload <- unbound "payload" ;;
            lift (syncFromServer
                    (VObj [("type", VStr "pilot_handover");
                           ("action", VStr (if is_edit then "update" else "create"));
                           ("data", payload);
                           ("handoverId", handoverId)])) ;;;
            modify (set_success (VStr "Handover saved offline and will sync when online"))
          else
            modify (set_error
                      (js_or (opt_chain (opt_chain (response_of error) "data") "detail")
                             (VStr "Failed to save handover")))))
    (set_loading false).

End Handlers.
End HandoverSave.

(** ** Local storage with no room left *)
Module Full.

(** The same entries, and a quota that they exhaust: every write that makes
    an entry longer, or adds one, is refused. *)
Definition full (ls : LocalStorage) : LocalStorage :=
  mkLocalStorage (items ls) (Some (ls_chars (items ls))) (available ls).

End Full.

(** * Properties *)

(** ** The concrete browser at work *)

Example stringify_draft :
  Chrome.stringify Demo.draft
  = "{" +:+ dquote +:+ "school_name" +:+ dquote +:+ ":" +:+ dquote +:+ "Hillside Academy"
      +:+ dquote +:+ "," +:+ dquote +:+ "number_of_students" +:+ dquote +:+ ":"
      +:+ dquote +:+ "420" +:+ dquote +:+ "}".
Proof. by vm_compute. Qed.

Example parse_stringify_job : Chrome.parse (Chrome.stringify Demo.older_job) = Return Demo.older_job.
Proof. by vm_compute. Qed.

Example parse_rejects_html : Chrome.parse "<html>" = Throw Chrome.SyntaxError.
Proof. by vm_compute. Qed.

Example data_url_round_trip :
  Chrome.fetch_data (VStr (Chrome.data_url (mkFile "a.txt" 5 "text/plain" 0 "hello")))
  = Return "hello"%string.
Proof. by vm_compute. Qed.

Example date_of_toISOString :
  Chrome.date_of (VStr (DateFmt.toISOString 1700000000123)) = Some 1700000000123.
Proof. by vm_compute. Qed.

(** ** Association lists *)

Lemma alist_lookup_set_eq {A} (k : string) (a : A) l :
  alist_lookup k (alist_set k a l) = Some a.
Proof.
  induction l as [|[k' a'] l IH]; simpl.
  - by rewrite String.eqb_refl.
  - destruct (String.eqb k k') eqn:E; simpl; rewrite ?String.eqb_refl ?E; done.
Qed.

Lemma alist_lookup_set_ne {A} (k k' : string) (a : A) l :
  k <> k' -> alist_lookup k' (alist_set k a l) = alist_lookup k' l.
Proof.
  intros Hne. induction l as [|[k0 a0] l IH]; simpl.
  - destruct (String.eqb k' k) eqn:E; [apply String.eqb_eq in E; congruence | done].
  - destruct (String.eqb k k0) eqn:E; simpl.
    + apply String.eqb_eq in E. subst k0.
      destruct (String.eqb k' k) eqn:E'; [apply String.eqb_eq in E'; congruence | done].
    + by rewrite IH.
Qed.

Lemma alist_lookup_remove_eq {A} (k : string) (l : list (string * A)) :
  alist_lookup k (alist_remove k l) = None.
Proof.
  induction l as [|[k' a'] l IH]; simpl; [done|].
  destruct (String.eqb k k') eqn:E; simpl; rewrite ?E; done.
Qed.

Lemma alist_lookup_remove_ne {A} (k k' : string) (l : list (string * A)) :
  k <> k' -> alist_lookup k' (alist_remove k l) = alist_lookup k' l.
Proof.
  intros Hne. induction l as [|[k0 a0] l IH]; simpl; [done|].
  destruct (String.eqb k k0) eqn:E; simpl.
  - apply String.eqb_eq in E. subst k0.
    destruct (String.eqb k' k) eqn:E'; [apply String.eqb_eq in E'; congruence | done].
  - by rewrite IH.
Qed.

Lemma alist_set_fresh {A} (k : string) (a : A) l :
  alist_lookup k l = None -> alist_set k a l = l ++ [(k, a)].
Proof.
  induction l as [|[k' a'] l IH]; simpl; [done|].
  destruct (String.eqb k k'); [done|]. intros H. by rewrite IH.
Qed.

(** ** Local storage through the hook *)
Section OfflineStorageFacts.
Context {browser : Browser}.

Lemma loadFromStorage_eq key w :
  loadFromStorage key w = (Return (stored_value key (localStorage w)), w).
Proof.
  unfold loadFromStorage, stored_value, try_catch, bind, localStorage_getItem, lift, ret.
  destruct (ls_getItem key (localStorage w)) as [[s|]|e]; try done.
  destruct (String.eqb s EmptyString); [done|].
  by destruct (JSON_parse s).
Qed.

Lemma saveToStorage_eq key data w :
  saveToStorage key data w =
    match storage_write key data (localStorage w) with
    | Return ls => (Return true, set_localStorage ls w)
    | Throw _ => (Return false, w)
    end.
Proof.
  unfold saveToStorage, storage_write, try_catch, bind, ret,
    localStorage_removeItem, localStorage_setItem.
  destruct data; simpl;
    match goal with |- context [match ?x with _ => _ end] => by destruct x end.
Qed.

Lemma saveOffline_eq key data w :
  saveOffline key data w =
    match storage_write key data (localStorage w) with
    | Return ls => (Return true, setStorage (alist_set key data) (set_localStorage ls w))
    | Throw _ => (Return false, w)
    end.
Proof.
  unfold saveOffline, bind. rewrite saveToStorage_eq.
  by destruct (storage_write key data (localStorage w)).
Qed.

Lemma syncOffline_fst key w :
  fst (syncOffline key w) = Return (stored_value key (localStorage w)).
Proof.
  unfold syncOffline, bind. rewrite loadFromStorage_eq.
  by destruct (truthy _).
Qed.

Lemma syncOffline_localStorage key w :
  localStorage (snd (syncOffline key w)) = localStorage w.
Proof.
  unfold syncOffline, bind. rewrite loadFromStorage_eq.
  by destruct (truthy _).
Qed.

Lemma stored_value_after_set key v ls ls' :
  JSON_serializable v ->
  ls_setItem key (stringify_for_storage v) ls = Return ls' ->
  stored_value key ls' = v.
Proof.
  intros (Hu & Hne & Hrt). unfold ls_setItem, stored_value, ls_getItem.
  destruct (available ls) eqn:Ha; [|done].
  destruct (within_quota _ _); [|done]. intros [= <-]. simpl. rewrite Ha.
  rewrite alist_lookup_set_eq.
  assert (stringify_for_storage v = JSON_stringify v) as -> by by destruct v.
  apply String.eqb_neq in Hne. by rewrite Hne Hrt.
Qed.

Lemma stored_value_after_remove key ls ls' :
  ls_removeItem key ls = Return ls' -> stored_value key ls' = VNull.
Proof.
  unfold ls_removeItem, stored_value, ls_getItem.
  destruct (available ls) eqn:Ha; [|done]. intros [= <-]. simpl.
  by rewrite Ha alist_lookup_remove_eq.
Qed.

End OfflineStorageFacts.

(** ** Offline storage round trip *)
Section RoundTrip.
Context {browser : Browser}.

(** C9. Offline storage round trip.  From any world [w] and for any key:
    (1) a successful [saveOffline key v] of a JSON-serializable, non-null [v]
        followed by [syncOffline key] returns [v];
    (2) a successful [saveOffline key null] removes the entry, and
        [syncOffline key] then returns [null] (it does so after an
        unsuccessful one as well);
    (3) when [localStorage.getItem] throws, or [JSON.parse] throws on the
        stored text, [syncOffline] returns [null] and leaves the world as it
        was; when the write throws, [saveOffline] returns [false] and leaves
        the world as it was.  No exception escapes either operation. *)
Theorem offline_storage_round_trip (key : string) (w : World) :
  (forall v w', JSON_serializable v -> v <> VNull ->
     saveOffline key v w = (Return true, w') ->
     fst (syncOffline key w') = Return v)
  /\ (forall w', saveOffline key VNull w = (Return true, w') ->
        alist_lookup key (items (localStorage w')) = None
        /\ fst (syncOffline key w') = Return VNull)
  /\ fst (syncOffline key (snd (saveOffline key VNull w))) = Return VNull
  /\ (forall e, ls_getItem key (localStorage w) = Throw e ->
        syncOffline key w = (Return VNull, w))
  /\ (forall s e, ls_getItem key (localStorage w) = Return (Some s) ->
        JSON_parse s = Throw e ->
        syncOffline key w = (Return VNull, w))
  /\ (forall v e, storage_write key v (localStorage w) = Throw e ->
        saveOffline key v w = (Return false, w))
  /\ (forall v, exists b, fst (saveOffline key v w) = Return b)
  /\ (exists r, fst (syncOffline key w) = Return r).
Proof.
  repeat split.
  - intros v w' Hser Hnn. rewrite saveOffline_eq.
    destruct (storage_write key v (localStorage w)) as [ls|e] eqn:Hw; [|done].
    intros [= <-]. rewrite syncOffline_fst. simpl. f_equal.
    apply (stored_value_after_set key v (localStorage w)); [done|].
    by destruct v.
  - revert H. rewrite saveOffline_eq. simpl.
    destruct (ls_removeItem key (localStorage w)) as [ls|e] eqn:Hw; [|done].
    intros [= <-]. simpl. revert Hw. unfold ls_removeItem.
    destruct (available _); [|done]. intros [= <-]. simpl.
    apply alist_lookup_remove_eq.
  - revert H. rewrite saveOffline_eq. simpl.
    destruct (ls_removeItem key (localStorage w)) as [ls|e] eqn:Hw; [|done].
    intros [= <-]. rewrite syncOffline_fst. simpl. f_equal.
    by apply (stored_value_after_remove key (localStorage w)).
  - rewrite saveOffline_eq syncOffline_fst. simpl. f_equal.
    destruct (ls_removeItem key (localStorage w)) as [ls|e] eqn:Hw; simpl.
    + by apply (stored_value_after_remove key (localStorage w)).
    + revert Hw. unfold ls_removeItem, stored_value, ls_getItem.
      by destruct (available _).
  - intros e He. unfold syncOffline, bind. rewrite loadFromStorage_eq.
    unfold stored_value. by rewrite He.
  - intros s e Hs He. unfold syncOffline, bind. rewrite loadFromStorage_eq.
    unfold stored_value. rewrite Hs He. by destruct (String.eqb s EmptyString).
  - intros v e He. by rewrite saveOffline_eq He.
  - intros v. rewrite saveOffline_eq. destruct (storage_write _ _ _); by eexists.
  - rewrite syncOffline_fst. by eexists.
Qed.

End RoundTrip.

(** The draft of an intake form, saved and read back. *)
Lemma offline_storage_round_trip_witness :
  fst (syncOffline (browser := Chrome.chrome) "client_intake_form"
         (snd (saveOffline (browser := Chrome.chrome) "client_intake_form" Demo.draft
                 (Demo.world Demo.empty_storage []))))
  = Return Demo.draft.
Proof.
  apply (proj1 (offline_storage_round_trip (browser := Chrome.chrome)
                  "client_intake_form" (Demo.world Demo.empty_storage []))).
  - repeat split; vm_compute; congruence.
  - discriminate.
  - vm_compute. reflexivity.
Defined.

(** ** Failed responses in [makeRequest] *)
Section MakeRequestFacts.
Context {browser : Browser}.

(** While storage is unavailable no request leaves the browser. *)
Lemma makeRequest_unavailable url options w :
  available (localStorage w) = false ->
  fst (makeRequest url options w) = Throw SecurityError
  /\ requests (snd (makeRequest url options w)) = requests w.
Proof.
  intros Ha. unfold makeRequest, bind, finally, try_catch, modify, getAuthToken,
    localStorage_getItem, ls_getItem, throw. simpl. by rewrite Ha.
Qed.

(** C10. For every request made through [makeRequest] (local storage being
    readable, so that the request is sent) that the server answers with [r]:
    - status 401: the call throws "Authentication required. Please log in
      again.", [auth_token] is no longer in local storage and the other
      entries are as before;
    - status 403: the call throws the access-denied error and local storage
      is unchanged;
    - [r.ok] false: the call throws, it returns no value. *)
Theorem makeRequest_failed_response (url : string) (options : Options) (w : World)
    (r : Response) (n : list FetchOutcome) :
  available (localStorage w) = true ->
  network w = Responds r :: n ->
  let res := makeRequest url options w in
  (status r = 401 ->
     fst res = Throw (new_Error "Authentication required. Please log in again.")
     /\ alist_lookup "auth_token" (items (localStorage (snd res))) = None
     /\ forall k, k <> "auth_token"%string ->
          alist_lookup k (items (localStorage (snd res)))
          = alist_lookup k (items (localStorage w)))
  /\ (status r = 403 ->
        fst res = Throw (new_Error
          "Access denied. You do not have permission to perform this action.")
        /\ localStorage (snd res) = localStorage w)
  /\ (ok r = false -> exists e, fst res = Throw e).
Proof.
  intros Ha Hn res. subst res.
  unfold makeRequest, bind, finally, try_catch, modify, getAuthToken,
    localStorage_getItem, ls_getItem, fetch, throw. simpl. rewrite Ha Hn. simpl.
  split; [|split].
  - intros H401. unfold ok. rewrite H401. simpl.
    unfold localStorage_removeItem, ls_removeItem. simpl. rewrite Ha. simpl.
    split; [done|]. split; [apply alist_lookup_remove_eq|].
    intros k Hk. by apply alist_lookup_remove_ne.
  - intros H403. unfold ok. by rewrite H403.
  - intros Hok. rewrite Hok. simpl.
    destruct (status r =? 401).
    { unfold localStorage_removeItem, ls_removeItem. simpl. rewrite Ha. by eexists. }
    destruct (status r =? 403); [by eexists|].
    destruct (500 <=? status r); [by eexists|].
    unfold lift, ret, member_of. destruct (json r) as [v|e]; simpl.
    + destruct v; simpl; by eexists.
    + by eexists.
Qed.

End MakeRequestFacts.

(** A 401 answer: the token goes, the saved draft stays. *)
Lemma makeRequest_failed_response_witness :
  let w := Demo.world (mkLocalStorage [("auth_token", "abc"); ("draft", "{}")]%string None true)
                      [Responds (mkResponse 401 None (Return VNull))] in
  fst (makeRequest (browser := Chrome.chrome) "/clients/" no_options w)
    = Throw (new_Error "Authentication required. Please log in again.")
  /\ items (localStorage (snd (makeRequest (browser := Chrome.chrome) "/clients/" no_options w)))
     = [("draft", "{}")]%string.
Proof.
  pose proof (makeRequest_failed_response (browser := Chrome.chrome) "/clients/" no_options
    (Demo.world (mkLocalStorage [("auth_token", "abc"); ("draft", "{}")]%string None true)
                [Responds (mkResponse 401 None (Return VNull))])
    (mkResponse 401 None (Return VNull)) [] eq_refl eq_refl) as [H _].
  split; [exact (proj1 (H eq_refl)) | vm_compute; reflexivity].
Defined.

(** ** Pilot acceptance: completion and the submit button *)
Section Completion.
Import PilotAcceptanceForm.

Lemma CHECKLIST_ITEMS_NoDup : NoDup CHECKLIST_ITEMS.
Proof. apply (bool_decide_unpack _). by vm_compute. Qed.

(** Only keys of the twelve items ever enter the checklist. *)
Lemma reachable_dom st :
  reachable st -> forall k, is_Some (checklist st !! k) -> k ∈ CHECKLIST_ITEMS.
Proof.
  induction 1 as [|st key checked Hst IH Hkey|st a Hst IH Ha]; intros k Hk.
  - simpl in Hk. rewrite lookup_empty in Hk. by destruct Hk.
  - simpl in Hk. destruct (decide (k = key)) as [->|Hne]; [done|].
    apply IH. revert Hk. rewrite lookup_union lookup_singleton_ne; [done|].
    by destruct (checklist st !! k).
  - apply IH. destruct a; simpl in *; try done. by specialize (Ha payload).
Qed.

Lemma filter_length_le {A} (f : A -> bool) l :
  (length (List.filter f l) <= length l)%nat.
Proof. induction l as [|x l IH]; simpl; [lia|]. destruct (f x); simpl; lia. Qed.

Lemma filter_length_all {A} (f : A -> bool) l :
  length (List.filter f l) = length l <-> forall x, In x l -> f x = true.
Proof.
  induction l as [|x l IH]; simpl; [by intuition|].
  pose proof (filter_length_le f l). destruct (f x) eqn:E; simpl; split.
  - intros [= Hl] y [<-|Hy]; [done|]. by apply IH.
  - intros Hall. f_equal. apply IH. auto.
  - lia.
  - intros Hall. specialize (Hall x (or_introl eq_refl)). congruence.
Qed.

(** Counting the true values of the object is counting the checked items. *)
Lemma completedItems_checked st :
  reachable st -> completedItems (checklist st) = length (checked_items st).
Proof.
  intros Hst. unfold completedItems, checked_items.
  rewrite -size_dom.
  assert (dom (filter (fun kv : string * bool => snd kv = true) (checklist st))
          = list_to_set (List.filter (item_checked st) CHECKLIST_ITEMS)) as ->.
  { apply set_eq. intros k. rewrite elem_of_dom elem_of_list_to_set.
    rewrite list_elem_of_In filter_In -list_elem_of_In. unfold item_checked. split.
    - intros [b Hb]. apply map_lookup_filter_Some in Hb as [Hb Htrue].
      simpl in Htrue. subst b. split; [|by rewrite Hb].
      apply (reachable_dom st Hst). by rewrite Hb.
    - intros [_ Hc]. destruct (checklist st !! k) as [[]|] eqn:E; try done.
      exists true. by apply map_lookup_filter_Some. }
  apply size_list_to_set. apply NoDup_ListNoDup, List.NoDup_filter, NoDup_ListNoDup.
  apply CHECKLIST_ITEMS_NoDup.
Qed.

(** C8. In every state the pilot-acceptance form can reach:
    the completion percentage is [Math.round(100 * checked / 12)], where
    [checked] counts the checked ones among the 12 checklist items; the
    Submit Acceptance button is enabled only when the percentage is 100; and
    the percentage is 100 exactly when all 12 items are checked.  So the form
    can be submitted only when every checklist item is checked. *)
Theorem submit_requires_full_checklist (st : FormState) (isLoading : bool) :
  reachable st ->
  length CHECKLIST_ITEMS = 12%nat
  /\ calculateCompletion st = (200 * Z.of_nat (length (checked_items st)) + 12) / 24
  /\ (submit_disabled isLoading st = false -> calculateCompletion st = 100)
  /\ (calculateCompletion st = 100 <->
        forall key, key ∈ CHECKLIST_ITEMS -> checklist st !! key = Some true)
  /\ (submit_disabled isLoading st = false ->
        forall key, key ∈ CHECKLIST_ITEMS -> checklist st !! key = Some true).
Proof.
  intros Hst.
  assert (calculateCompletion st
          = (200 * Z.of_nat (length (checked_items st)) + 12) / 24) as Hpct.
  { unfold calculateCompletion, Math_round_percent.
    by rewrite (completedItems_checked st Hst). }
  pose proof (filter_length_le (item_checked st) CHECKLIST_ITEMS) as Hle.
  change (length CHECKLIST_ITEMS) with 12%nat in Hle.
  fold (checked_items st) in Hle.
  assert (calculateCompletion st = 100 <-> length (checked_items st) = 12%nat) as H100.
  { rewrite Hpct. split; intros H.
    - apply Nat2Z.inj. apply Z.le_antisymm; [lia|].
      destruct (Z_le_gt_dec 12 (Z.of_nat (length (checked_items st)))) as [|Hlt]; [done|].
      exfalso. assert ((200 * Z.of_nat (length (checked_items st)) + 12) / 24 < 100); [|lia].
      apply Z.div_lt_upper_bound; lia.
    - rewrite H. reflexivity. }
  assert (calculateCompletion st = 100 <->
          forall key, key ∈ CHECKLIST_ITEMS -> checklist st !! key = Some true) as Hall.
  { rewrite H100. unfold checked_items.
    change 12%nat with (length CHECKLIST_ITEMS). rewrite filter_length_all.
    split; intros H key Hkey.
    - apply list_elem_of_In in Hkey. specialize (H key Hkey). unfold item_checked in H.
      by destruct (checklist st !! key) as [[]|].
    - apply list_elem_of_In in Hkey. unfold item_checked. by rewrite (H key Hkey). }
  assert (submit_disabled isLoading st = false -> calculateCompletion st = 100) as Hsub.
  { unfold submit_disabled. intros H. apply orb_false_iff in H as [_ H].
    apply Z.ltb_ge in H. apply Z.le_antisymm; [|done].
    rewrite Hpct.
    assert ((200 * Z.of_nat (length (checked_items st)) + 12) / 24 < 101); [|lia].
    apply Z.div_lt_upper_bound; lia. }
  repeat split; try done.
  - by apply Hall.
  - by apply Hall.
  - intros H. by apply Hall, Hsub.
Qed.

End Completion.

(** With all twelve boxes ticked the button is enabled. *)
Lemma submit_requires_full_checklist_witness :
  PilotAcceptanceForm.submit_disabled false Demo.all_checked = false
  /\ forall key, key ∈ PilotAcceptanceForm.CHECKLIST_ITEMS ->
       PilotAcceptanceForm.checklist Demo.all_checked !! key = Some true.
Proof.
  assert (PilotAcceptanceForm.reachable Demo.all_checked) as Hreach.
  { unfold Demo.all_checked. simpl fold_right.
    repeat (apply PilotAcceptanceForm.reach_check;
            [| apply list_elem_of_In; simpl; tauto]).
    apply PilotAcceptanceForm.reach_init. }
  pose proof (submit_requires_full_checklist Demo.all_checked false Hreach)
    as (_ & _ & _ & _ & H).
  split; [by vm_compute|]. apply H. by vm_compute.
Defined.

(** ** File validation and upload *)
Section Validation.
Context {browser : Browser}.

Lemma array_includes_In l t : array_includes l t = true <-> In t l.
Proof.
  unfold array_includes. rewrite existsb_exists. split.
  - intros (x & Hx & Heq). apply String.eqb_eq in Heq. by subst.
  - intros H. exists t. by rewrite String.eqb_refl.
Qed.

Lemma uploadFile_request file projectId description w :
  available (localStorage w) = true ->
  requests (snd (uploadFile file projectId description w))
  = requests w ++
      [mkRequest (API_BASE_URL +:+ "/attachments/") "POST"
         (authorization (alist_lookup "auth_token" (items (localStorage w))))
         (FormData (upload_form file projectId description))].
Proof.
  intros Ha. unfold uploadFile, upload_form, bind, finally, try_catch, modify,
    getAuthToken, localStorage_getItem, ls_getItem, fetch, throw. simpl. rewrite Ha. simpl.
  destruct (network w) as [|[r|e] n]; simpl; [done| |done].
  destruct (ok r); simpl.
  { unfold lift. by destruct (json r). }
  destruct (status r =? 401).
  { unfold localStorage_removeItem, ls_removeItem. simpl. by rewrite Ha. }
  destruct (status r =? 403); [done|].
  destruct (500 <=? status r); [done|].
  unfold lift, ret, member_of. destruct (json r) as [v|e]; simpl; [|done].
  by destruct v.
Qed.

Lemma validateFile_cases file :
  (file_size file <= maxSize /\ In (file_type file) allowedTypes
   /\ validateFile file = Return true
   /\ (file_size file <=? maxSize) && array_includes allowedTypes (file_type file) = true)
  \/ ((maxSize < file_size file \/ ~ In (file_type file) allowedTypes)
      /\ (exists e, validateFile file = Throw e)
      /\ (file_size file <=? maxSize) && array_includes allowedTypes (file_type file) = false).
Proof.
  pose proof (array_includes_In allowedTypes (file_type file)) as Hin.
  unfold validateFile.
  destruct (maxSize <? file_size file) eqn:Hs.
  - apply Z.ltb_lt in Hs. right. split; [by left|]. split; [by eexists|].
    apply andb_false_iff. left. by apply Z.leb_gt.
  - apply Z.ltb_ge in Hs.
    destruct (array_includes allowedTypes (file_type file)) eqn:Ht; simpl.
    + left. split; [done|]. split; [by apply Hin|]. split; [done|].
      rewrite andb_true_r. by apply Z.leb_le.
    + right. split; [|split; [by eexists | by rewrite andb_false_r]].
      right. intros Hi. apply Hin in Hi. congruence.
Qed.

(** C3, as the code has it.  [validateFile] works from a list of allowed
    MIME types, not from a list of blocked extensions: it accepts a file
    exactly when its size is at most 10 * 1024 * 1024 bytes and its type is
    one of the ten allowed types, and throws otherwise; [handleFileSelect]
    keeps the accepted files only; [uploadFile] sends a file as multipart form
    data (fields file, project_id and, when not empty, description) in a POST
    to /attachments/. *)
Theorem validateFile_allowlist (file : File) :
  maxSize = 10485760
  /\ (validateFile file = Return true <->
        file_size file <= maxSize /\ In (file_type file) allowedTypes)
  /\ ((exists e, validateFile file = Throw e) <->
        maxSize < file_size file \/ ~ In (file_type file) allowedTypes)
  /\ (forall selected, fst (handleFileSelect [file] selected)
        = selected ++ (if (file_size file <=? maxSize)
                          && array_includes allowedTypes (file_type file)
                       then [file] else []))
  /\ (forall projectId description w,
        available (localStorage w) = true ->
        requests (snd (uploadFile file projectId description w))
        = requests w ++
            [mkRequest (API_BASE_URL +:+ "/attachments/") "POST"
               (authorization (alist_lookup "auth_token" (items (localStorage w))))
               (FormData (upload_form file projectId description))]).
Proof.
  split; [reflexivity|].
  split; [|split; [|split; [|intros; by apply uploadFile_request]]].
  - destruct (validateFile_cases file) as [(Hs & Ht & Hv & _)|(Hbad & [e He] & _)].
    + by rewrite Hv.
    + rewrite He. split; [done|]. intros [Hs Ht]. destruct Hbad as [?|Hn]; [lia|done].
  - destruct (validateFile_cases file) as [(Hs & Ht & Hv & _)|(Hbad & [e He] & _)].
    + rewrite Hv. split; [by intros [e ?]|]. intros [?|Hn]; [lia|done].
    + split; [done|]. intros _. by exists e.
  - intros selected. unfold handleFileSelect. simpl fold_left.
    destruct (validateFile_cases file) as [(_ & _ & Hv & Hb)|(_ & [e He] & Hb)].
    + by rewrite Hv Hb.
    + by rewrite He Hb.
Qed.

End Validation.

(** C3 as stated fails: a small spreadsheet export is not over the limit and
    is no executable, yet [validateFile] rejects it and [handleFileSelect]
    leaves it out of the selection, so that it is never uploaded. *)
Lemma validateFile_rejects_csv :
  let file := mkFile "grades.csv" 2048 "text/csv" 1700000000000 "a,b" in
  file_size file <= 10 * 1024 * 1024
  /\ is_executable file = false
  /\ validateFile file
     = Throw (new_Error ("File type " +:+ dquote +:+ "text/csv" +:+ dquote
                           +:+ " is not allowed."))
  /\ handleFileSelect [file] [] = ([], ["File type " +:+ dquote +:+ "text/csv" +:+ dquote
                                          +:+ " is not allowed."]).
Proof. vm_compute. repeat split; congruence. Qed.

(** A small PDF passes and is sent as a two-field multipart form. *)
Lemma validateFile_allowlist_witness :
  let file := mkFile "report.pdf" 4096 "application/pdf" 1700000000000 "%PDF" in
  validateFile file = Return true
  /\ requests (snd (uploadFile (browser := Chrome.chrome) file (VStr "p-7") VUndefined
                      (Demo.world Demo.empty_storage [])))
     = [mkRequest "http://localhost:4002/api/attachments/" "POST" []
          (FormData [("file", inl file); ("project_id", inr "p-7")])]%string.
Proof.
  pose proof (validateFile_allowlist (browser := Chrome.chrome)
    (mkFile "report.pdf" 4096 "application/pdf" 1700000000000 "%PDF"))
    as (_ & Hok & _ & _ & Hup).
  split.
  - apply Hok. split; [by vm_compute | simpl; tauto].
  - by rewrite (Hup (VStr "p-7") VUndefined (Demo.world Demo.empty_storage []) eq_refl).
Defined.

(** ** The named REST actions *)
Section NamedActionFacts.
Import NamedActions.
Context {browser : Browser}.


End NamedActionFacts.



(** ** The stable sort *)
Section SortFacts.
Context {A : Type} (key : A -> Z).

Lemma sort_insert_perm (gt : A -> A -> bool) x l : Permutation (sort_insert gt x l) (x :: l).
Proof.
  induction l as [|y l IH]; simpl; [done|].
  destruct (gt x y); [|done]. rewrite IH. apply perm_swap.
Qed.

Lemma array_sort_perm (gt : A -> A -> bool) l : Permutation (array_sort gt l) l.
Proof.
  induction l as [|x l IH]; simpl; [done|].
  rewrite sort_insert_perm. by constructor.
Qed.

Lemma sort_insert_sorted x l :
  StronglySorted (fun a b => key a <= key b) l ->
  StronglySorted (fun a b => key a <= key b) (sort_insert (later key) x l).
Proof.
  induction 1 as [|y l Hl IH Hy]; simpl.
  - repeat constructor.
  - unfold later at 1. destruct (key y <? key x) eqn:E.
    + apply Z.ltb_lt in E. constructor; [done|].
      rewrite (sort_insert_perm (later key) x l). constructor; [lia|done].
    + apply Z.ltb_ge in E. constructor; [by constructor|].
      constructor; [done|]. eapply Forall_impl; [exact Hy|]. simpl. intros. lia.
Qed.

Lemma array_sort_sorted l :
  StronglySorted (fun a b => key a <= key b) (array_sort (later key) l).
Proof.
  induction l as [|x l IH]; simpl; [constructor|]. by apply sort_insert_sorted.
Qed.

(** Stability: the elements of one key stay in their original order. *)
Lemma sort_insert_stable t x l :
  List.filter (fun a => key a =? t) (sort_insert (later key) x l)
  = List.filter (fun a => key a =? t) (x :: l).
Proof.
  induction l as [|y l IH]; simpl; [done|].
  unfold later at 1. destruct (key y <? key x) eqn:E; [|done].
  apply Z.ltb_lt in E. simpl. rewrite IH. simpl.
  destruct (key x =? t) eqn:Ex; [|done].
  apply Z.eqb_eq in Ex. destruct (key y =? t) eqn:Ey; [|done].
  apply Z.eqb_eq in Ey. lia.
Qed.

Lemma array_sort_stable t l :
  List.filter (fun a => key a =? t) (array_sort (later key) l)
  = List.filter (fun a => key a =? t) l.
Proof.
  induction l as [|x l IH]; simpl; [done|].
  rewrite sort_insert_stable. simpl. by rewrite IH.
Qed.

Lemma sort_insert_ext (gt gt' : A -> A -> bool) x l :
  (forall y, In y l -> gt x y = gt' x y) ->
  sort_insert gt x l = sort_insert gt' x l.
Proof.
  induction l as [|y l IH]; simpl; [done|]. intros H.
  rewrite (H y (or_introl eq_refl)). rewrite IH; [|done]. intros z Hz. apply H. by right.
Qed.

Lemma array_sort_ext (gt gt' : A -> A -> bool) l :
  (forall x y, In x l -> In y l -> gt x y = gt' x y) ->
  array_sort gt l = array_sort gt' l.
Proof.
  induction l as [|x l IH]; simpl; [done|]. intros H.
  rewrite IH; [intros; apply H; by right|].
  apply sort_insert_ext. intros y Hy. apply H; [by left|]. right.
  apply (Permutation_in _ (array_sort_perm gt' l)). done.
Qed.

End SortFacts.

(** ** The replay queue *)
Section QueueFacts.
Context {browser : Browser}.

Lemma pending_in_app ls l1 l2 :
  pending_in ls (l1 ++ l2) = pending_in ls l1 ++ pending_in ls l2.
Proof.
  unfold pending_in. by rewrite map_app List.filter_app map_app List.filter_app.
Qed.

(** A reading loop over the keys collects what its body adds for each. *)
Lemma for_index_keys (body : nat -> list value -> JS World (list value)) w l1 l2 acc :
  items (localStorage w) = l1 ++ l2 ->
  (forall i entry acc, items (localStorage w) !! i = Some entry ->
     body i acc w = (Return (acc ++ pending_in (localStorage w) [entry]), w)) ->
  for_index (seq (length l1) (length l2)) body acc w
  = (Return (acc ++ pending_in (localStorage w) l2), w).
Proof.
  intros Hitems Hbody. revert l1 acc Hitems.
  induction l2 as [|entry l2 IH]; intros l1 acc Hitems.
  - simpl. unfold ret, pending_in. simpl. by rewrite app_nil_r.
  - simpl. unfold bind. rewrite (Hbody (length l1) entry).
    { rewrite Hitems. by apply list_lookup_middle. }
    specialize (IH (l1 ++ [entry])). rewrite length_app Nat.add_1_r in IH.
    rewrite IH; [by rewrite Hitems -app_assoc|].
    by rewrite -app_assoc -pending_in_app.
Qed.

Lemma getFileQueue_eq w :
  available (localStorage w) = true ->
  getFileQueue w
  = (Return (array_sort timestamp_gt (pending_jobs (localStorage w))), w).
Proof.
  intros Ha. unfold getFileQueue. unfold bind at 1.
  unfold localStorage_length, ls_length. rewrite Ha.
  unfold bind at 1.
  rewrite (for_index_keys _ w [] (items (localStorage w)) []); [done| |done].
  intros i [k s] acc Hi. unfold bind at 1.
  unfold localStorage_key, ls_key. rewrite Ha Hi. simpl.
  unfold pending_in. simpl. fold (is_queue_key k).
  destruct (is_queue_key k); simpl; [|by rewrite app_nil_r].
  unfold bind. rewrite loadFromStorage_eq.
  fold (is_pending (stored_value k (localStorage w))).
  destruct (is_pending (stored_value k (localStorage w))); simpl; unfold ret;
    by rewrite ?app_nil_r.
Qed.

Lemma getFileQueue_unavailable w :
  available (localStorage w) = false ->
  getFileQueue w = (Throw SecurityError, w).
Proof.
  intros Ha. unfold getFileQueue, bind, localStorage_length, ls_length. by rewrite Ha.
Qed.

Lemma timestamp_gt_later a b :
  valid_timestamp a -> valid_timestamp b ->
  timestamp_gt a b = later timestamp_of a b.
Proof.
  unfold valid_timestamp, timestamp_gt, later, timestamp_of.
  intros [ta ->] [tb ->]. simpl.
  destruct (0 <? ta - tb) eqn:E; symmetry.
  - apply Z.ltb_lt in E. apply Z.ltb_lt. lia.
  - apply Z.ltb_ge in E. apply Z.ltb_ge. lia.
Qed.

(** C1, as the code has it.  The queue is ordered: while local storage is
    readable and the pending jobs carry valid timestamps, [getFileQueue]
    returns exactly the pending jobs, sorted by ascending timestamp, jobs of
    equal timestamp in the order local storage enumerates them; and
    [syncOfflineQueue] processes the jobs one after the other in that order,
    oldest first. *)
Theorem getFileQueue_oldest_first (w : World) :
  available (localStorage w) = true ->
  Forall valid_timestamp (pending_jobs (localStorage w)) ->
  exists queue,
    getFileQueue w = (Return queue, w)
    /\ Permutation queue (pending_jobs (localStorage w))
    /\ StronglySorted (fun a b => timestamp_of a <= timestamp_of b) queue
    /\ (forall t, List.filter (fun job => timestamp_of job =? t) queue
                  = List.filter (fun job => timestamp_of job =? t)
                                (pending_jobs (localStorage w)))
    /\ syncOfflineQueue w = for_of queue syncOfflineQueue_item w.
Proof.
  intros Ha Hvalid. exists (array_sort timestamp_gt (pending_jobs (localStorage w))).
  split; [by apply getFileQueue_eq|].
  split; [apply array_sort_perm|].
  assert (array_sort timestamp_gt (pending_jobs (localStorage w))
          = array_sort (later timestamp_of) (pending_jobs (localStorage w))) as Hsort.
  { apply array_sort_ext. intros x y Hx Hy. rewrite Forall_forall in Hvalid.
    apply timestamp_gt_later; apply Hvalid; by apply list_elem_of_In. }
  split; [rewrite Hsort; apply array_sort_sorted|].
  split; [intros t; rewrite Hsort; apply array_sort_stable|].
  unfold syncOfflineQueue, bind. by rewrite getFileQueue_eq.
Qed.

End QueueFacts.

(** C1 as stated fails: the replay order is fixed.  However local storage
    enumerates the two pending jobs, [getFileQueue] returns the older one
    first and [syncOfflineQueue] uploads it first. *)
Lemma replay_order_is_fixed :
  fst (getFileQueue (browser := Chrome.chrome) (Demo.world Demo.queue_oldest_first []))
    = Return [Demo.older_job; Demo.newer_job]
  /\ fst (getFileQueue (browser := Chrome.chrome) (Demo.world Demo.queue_newest_first []))
    = Return [Demo.older_job; Demo.newer_job]
  /\ Demo.uploaded_names
       (snd (syncOfflineQueue (browser := Chrome.chrome)
               (Demo.world Demo.queue_newest_first
                  [Responds Demo.created; Responds Demo.created])))
     = ["monday.txt"; "tuesday.txt"]%string.
Proof. vm_compute. repeat split; reflexivity. Qed.

(** The queue enumerated newest first comes out sorted. *)
Lemma getFileQueue_oldest_first_witness :
  exists queue,
    getFileQueue (browser := Chrome.chrome) (Demo.world Demo.queue_newest_first [])
      = (Return queue, Demo.world Demo.queue_newest_first [])
    /\ StronglySorted
         (fun a b => timestamp_of (browser := Chrome.chrome) a
                     <= timestamp_of (browser := Chrome.chrome) b) queue.
Proof.
  destruct (getFileQueue_oldest_first (browser := Chrome.chrome)
              (Demo.world Demo.queue_newest_first []) eq_refl)
    as (queue & Hq & _ & Hsorted & _).
  - assert (pending_jobs (browser := Chrome.chrome)
              (localStorage (Demo.world Demo.queue_newest_first []))
            = [Demo.newer_job; Demo.older_job]) as -> by (vm_compute; reflexivity).
    repeat constructor; vm_compute; by eexists.
  - exists queue. split; [exact Hq | exact Hsorted].
Defined.

(** ** Queueing a file *)
Section AddToQueue.
Context {browser : Browser}.

Lemma addFileToQueue_eq file projectId description w :
  let queueKey := queue_key (hd 0 (clock w)) (hd EmptyString (entropy w)) in
  let fileData := queued_job file projectId description queueKey (hd 0 (tl (clock w))) in
  fst (addFileToQueue file projectId description w)
  = match ls_setItem queueKey (JSON_stringify fileData) (localStorage w) with
    | Return _ => Return true
    | Throw _ => Return false
    end
  /\ localStorage (snd (addFileToQueue file projectId description w))
     = match ls_setItem queueKey (JSON_stringify fileData) (localStorage w) with
       | Return ls => ls
       | Throw _ => localStorage w
       end.
Proof.
  unfold addFileToQueue, queue_key, queued_job, bind, Date_now, random_suffix.
  destruct (clock w) as [|now [|t c]] eqn:Hc;
    destruct (entropy w) as [|suffix en] eqn:He;
    cbn [hd tl set_clock set_entropy clock entropy].
  all: rewrite ?Hc ?He; cbn [hd tl set_clock set_entropy clock entropy].
  all: rewrite saveToStorage_eq; unfold storage_write, stringify_for_storage;
    cbn [localStorage set_clock set_entropy];
    match goal with
    | |- context [ls_setItem ?k ?s ?ls] => destruct (ls_setItem k s ls); by cbn
    end.
Qed.

(** C4, as the code has it.  A call to [addFileToQueue] returns [true] or
    [false].  When it returns [true], local storage holds, under the key
    [file_queue_<timestamp>_<random suffix>], the JSON text of one job: the
    key as id, the file's name, size, type and last-modified time, its content
    as a data URL, the given projectId and description, the time of queueing
    and status [pending]; no entry under another key is modified or removed;
    and when the key was not in use the job is appended as a new entry.  When
    the write is refused the call returns [false] and local storage is
    unchanged. *)
Theorem addFileToQueue_stores_job (file : File) (projectId description : value) (w : World) :
  let queueKey := queue_key (hd 0 (clock w)) (hd EmptyString (entropy w)) in
  let fileData := queued_job file projectId description queueKey (hd 0 (tl (clock w))) in
  let after := localStorage (snd (addFileToQueue file projectId description w)) in
  (fst (addFileToQueue file projectId description w) = Return true
   /\ alist_lookup queueKey (items after) = Some (JSON_stringify fileData)
   /\ (forall k, k <> queueKey ->
         alist_lookup k (items after) = alist_lookup k (items (localStorage w)))
   /\ (alist_lookup queueKey (items (localStorage w)) = None ->
         items after = items (localStorage w) ++ [(queueKey, JSON_stringify fileData)])
   /\ get fileData "id" = VStr queueKey
   /\ get (get fileData "file") "content" = VStr (readAsDataURL file)
   /\ get (get fileData "file") "name" = VStr (file_name file)
   /\ get (get fileData "file") "size" = VNum (file_size file)
   /\ get (get fileData "file") "type" = VStr (file_type file)
   /\ get fileData "projectId" = projectId
   /\ get fileData "description" = default_param description (VStr EmptyString)
   /\ get fileData "status" = VStr "pending")
  \/ (fst (addFileToQueue file projectId description w) = Return false
      /\ after = localStorage w
      /\ ls_setItem queueKey (JSON_stringify fileData) (localStorage w)
         = Throw (if available (localStorage w)
                  then QuotaExceededError else SecurityError)).
Proof.
  intros queueKey fileData after.
  destruct (addFileToQueue_eq file projectId description w) as [Hr Hls].
  fold queueKey fileData in Hr, Hls. subst after. rewrite Hr Hls.
  destruct (ls_setItem queueKey (JSON_stringify fileData) (localStorage w))
    as [ls|e] eqn:Hset.
  - left. split; [done|].
    revert Hset. unfold ls_setItem.
    destruct (available (localStorage w)); [|done].
    destruct (within_quota _ _); [|done]. intros [= <-]. simpl.
    split; [apply alist_lookup_set_eq|].
    split; [intros k Hk; by apply alist_lookup_set_ne|].
    split; [apply alist_set_fresh|]. done.
  - right. split; [done|]. split; [done|].
    revert Hset. unfold ls_setItem.
    destruct (available (localStorage w)); [|done].
    by destruct (within_quota _ _).
Qed.

End AddToQueue.

(** C4 as stated fails: with local storage nearly full the call returns
    [false] and no job is stored; and should the clock reading and the random
    suffix of an earlier call come again, the job stored under that key is
    replaced by the new one. *)
Lemma addFileToQueue_storage_full :
  let file := mkFile "minutes.txt" 26 "text/plain" 1699999000000
                     "abcdefghijklmnopqrstuvwxyz" in
  let full := mkLocalStorage [("auth_token", "s3cr3t")]%string (Some 64%nat) true in
  addFileToQueue (browser := Chrome.chrome) file (VStr "p-7") (VStr "minutes")
                 (Demo.world full [])
  = (Return false,
     mkWorld full [] [] [] [] [] [] false VNull (VObj []) (VObj []))
  /\ stored_value (browser := Chrome.chrome) "file_queue_1700000000123_k3j9x0a1b"
       Demo.queue_oldest_first = Demo.older_job
  /\ get (get (stored_value (browser := Chrome.chrome) "file_queue_1700000000123_k3j9x0a1b"
                 (localStorage
                    (snd (addFileToQueue (browser := Chrome.chrome) file (VStr "p-7")
                            (VStr "minutes") (Demo.world Demo.queue_oldest_first [])))))
              "file") "name"
     = VStr "minutes.txt".
Proof. vm_compute. repeat split; reflexivity. Qed.

(** With room in local storage the job is appended after the token. *)
Lemma addFileToQueue_stores_job_witness :
  let file := mkFile "minutes.txt" 26 "text/plain" 1699999000000
                     "abcdefghijklmnopqrstuvwxyz" in
  let w := Demo.world (mkLocalStorage [("auth_token", "s3cr3t")]%string None true) [] in
  map fst (items (localStorage (snd (addFileToQueue (browser := Chrome.chrome)
                                       file (VStr "p-7") (VStr "minutes") w))))
  = ["auth_token"; "file_queue_1700000000123_k3j9x0a1b"]%string.
Proof.
  intros file w.
  destruct (addFileToQueue_stores_job (browser := Chrome.chrome)
              file (VStr "p-7") (VStr "minutes") w) as [(_ & _ & _ & H & _)|(H & _)].
  - rewrite H; by vm_compute.
  - by vm_compute in H.
Defined.

(** ** The date part of an ISO timestamp *)
Section DateFacts.
Import DateFmt.

Lemma no_T_app s1 s2 : no_T s1 = true -> no_T s2 = true -> no_T (s1 +:+ s2) = true.
Proof.
  induction s1 as [|c s1 IH]; simpl; [done|].
  intros [Hc H1]%andb_true_iff H2. by rewrite Hc IH.
Qed.

Lemma split_T_0_app s rest :
  no_T s = true -> split_T_0 (s +:+ String "T" rest) = s.
Proof.
  induction s as [|c s IH]; simpl; [done|].
  intros [Hc Hs]%andb_true_iff. apply negb_true_iff in Hc. by rewrite Hc IH.
Qed.

Lemma digit_no_T n : Ascii.eqb (digit n) "T" = false.
Proof.
  unfold digit. pose proof (Z.mod_pos_bound n 10 eq_refl) as Hn.
  assert (Z.to_nat (n mod 10) < 10)%nat as Hk by lia.
  destruct (Z.to_nat (n mod 10)) as [|[|[|[|[|[|[|[|[|[|k]]]]]]]]]]; try done. lia.
Qed.

Lemma pad_no_T w n : no_T (pad w n) = true.
Proof.
  revert n. induction w as [|w IH]; intros n; cbn [pad]; [done|].
  apply no_T_app; [apply IH|]. cbn [no_T]. by rewrite digit_no_T.
Qed.

Lemma length_append s1 s2 :
  String.length (s1 +:+ s2) = (String.length s1 + String.length s2)%nat.
Proof. induction s1 as [|c s1 IH]; simpl; [done|]. by rewrite IH. Qed.

Lemma pad_length w n : String.length (pad w n) = w.
Proof.
  revert n. induction w as [|w IH]; intros n; cbn [pad]; [done|].
  rewrite length_append IH. cbn [String.length]. lia.
Qed.

Lemma date_part_no_T t : no_T (date_part t) = true.
Proof.
  unfold date_part. destruct (civil_from_days (t / 86400000)) as [[y m] d].
  apply no_T_app;
    [|apply no_T_app; [done|apply no_T_app;
       [apply pad_no_T|apply no_T_app; [done|apply pad_no_T]]]].
  unfold year_string. destruct ((0 <=? y) && (y <=? 9999)); [apply pad_no_T|].
  destruct (y <? 0); (apply no_T_app; [done | apply pad_no_T]).
Qed.

Example toISOString_epoch : toISOString 0 = "1970-01-01T00:00:00.000Z"%string.
Proof. reflexivity. Qed.

Example toISOString_2023 : toISOString 1700000000123 = "2023-11-14T22:13:20.123Z"%string.
Proof. by vm_compute. Qed.

Example toISOString_leap_day : toISOString 951782400000 = "2000-02-29T00:00:00.000Z"%string.
Proof. by vm_compute. Qed.

Example toISOString_before_epoch : toISOString (-1) = "1969-12-31T23:59:59.999Z"%string.
Proof. by vm_compute. Qed.

(** [toISOString().split('T')[0]] is the date part. *)
Lemma split_T_0_toISOString t : split_T_0 (toISOString t) = date_part t.
Proof. unfold toISOString. apply split_T_0_app, date_part_no_T. Qed.

(** For a year of four digits the date part reads YYYY-MM-DD. *)
Lemma date_part_format t :
  let '(y, m, d) := civil_from_days (t / 86400000) in
  0 <= y <= 9999 ->
  date_part t = pad 4 y +:+ "-" +:+ pad 2 m +:+ "-" +:+ pad 2 d
  /\ String.length (date_part t) = 10%nat.
Proof.
  unfold date_part. destruct (civil_from_days (t / 86400000)) as [[y m] d].
  intros Hy. unfold year_string.
  assert ((0 <=? y) && (y <=? 9999) = true) as ->.
  { apply andb_true_iff. split; apply Z.leb_le; lia. }
  split; [done|]. rewrite !length_append. reflexivity.
Qed.

End DateFacts.

(** Closing a branch of a call that left local storage as it was, or that
    removed the token. *)
Ltac storage_untouched := repeat split; try done; by left.
Ltac token_removed := repeat split; try done; by right.

(** ** Submitting the client-intake form *)
Section SubmitFacts.
Context {browser : Browser}.

Lemma makeRequest_frame url options w :
  let w' := snd (makeRequest url options w) in
  alerts w' = alerts w /\ formState w' = formState w /\ formValues w' = formValues w
  /\ token_dropped (localStorage w) (localStorage w')
  /\ requests w'
     = requests w ++
         (if available (localStorage w)
          then [request_of url options (alist_lookup "auth_token" (items (localStorage w)))]
          else [])
  /\ (forall x, fst (makeRequest url options w) = Return x ->
        available (localStorage w) = true).
Proof.
  unfold token_dropped, request_of.
  unfold makeRequest, bind, finally, try_catch, modify, getAuthToken,
    localStorage_getItem, ls_getItem, fetch, throw. simpl.
  destruct (available (localStorage w)) eqn:Ha; simpl.
  2: { rewrite app_nil_r. storage_untouched. }
  destruct (network w) as [|[r|e] n]; simpl.
  1,3: storage_untouched.
  destruct (ok r); simpl.
  { destruct (content_type r) as [ct|]; simpl.
    2: storage_untouched.
    destruct (negb (ct =? "")%string && includes ct "application/json"); simpl.
    2: storage_untouched.
    unfold lift. destruct (json r); simpl; storage_untouched. }
  destruct (status r =? 401).
  { unfold localStorage_removeItem, ls_removeItem. simpl. rewrite Ha. simpl.
    token_removed. }
  destruct (status r =? 403); simpl.
  1: storage_untouched.
  destruct (500 <=? status r); simpl.
  1: storage_untouched.
  unfold lift, ret, member_of. destruct (json r) as [v|e]; simpl.
  2: storage_untouched.
  destruct v; simpl; storage_untouched.
Qed.

Lemma submitClientIntake_eq formData w :
  valid_date (get formData "pilot_start_date") = true ->
  valid_date (get formData "pilot_end_date") = true ->
  submitClientIntake formData w = makeRequest "/clients/" (clients_post formData) w.
Proof.
  intros Hs He. unfold submitClientIntake, clients_post, client_payload, bind.
  destruct (get formData "pilot_start_date") eqn:E1; try done;
    destruct (get formData "pilot_end_date") eqn:E2; try done;
    cbn [iso_date_of ret iso_date]; rewrite ?split_T_0_toISOString; reflexivity.
Qed.

Lemma client_payload_fields formData :
  (forall field, In field copied_fields ->
     get (client_payload formData) field = get formData field)
  /\ get (client_payload formData) "number_of_students"
     = (if truthy (get formData "number_of_students")
        then parseInt (to_String (get formData "number_of_students")) else VNull)
  /\ get (client_payload formData) "number_of_staff"
     = (if truthy (get formData "number_of_staff")
        then parseInt (to_String (get formData "number_of_staff")) else VNull)
  /\ get (client_payload formData) "token_commitment_fee"
     = (if truthy (get formData "token_commitment_fee")
        then parseFloat (to_String (get formData "token_commitment_fee")) else VNull)
  /\ (forall t, get formData "pilot_start_date" = VDate t ->
        get (client_payload formData) "pilot_start_date" = VStr (DateFmt.date_part t))
  /\ (forall t, get formData "pilot_end_date" = VDate t ->
        get (client_payload formData) "pilot_end_date" = VStr (DateFmt.date_part t)).
Proof.
  split.
  { intros field Hf. simpl in Hf.
    repeat (destruct Hf as [<-|Hf]; [reflexivity|]). done. }
  repeat split; try reflexivity.
  - intros t Ht. cbn. by rewrite Ht.
  - intros t Ht. cbn. by rewrite Ht.
Qed.

(** What [onSubmit] leaves behind, from how the submit operation ended. *)
Lemma onSubmit_eq data w :
  let w2 := snd (submit_attempt data w) in
  let w' := snd (onSubmit data w) in
  fst (onSubmit data w) = Return tt
  /\ requests w' = requests w2
  /\ match fst (submit_attempt data w) with
     | Return _ =>
         alerts w' = alerts w2 ++ ["Intake form submitted successfully!"%string]
         /\ localStorage w'
            = match storage_write "client_intake_form" VNull (localStorage w2) with
              | Return ls => ls
              | Throw _ => localStorage w2
              end
     | Throw e =>
         alerts w' = alerts w2 ++ [failure_alert e]
         /\ localStorage w'
            = match storage_write "client_intake_form" data (localStorage w2) with
              | Return ls => ls
              | Throw _ => localStorage w2
              end
     end.
Proof.
  unfold onSubmit, submit_attempt, missing_error, failure_alert, submitting.
  unfold finally, try_catch, bind, modify, throw, ret, alert, reset.
  destruct (0 <? length (missingFields data))%nat eqn:Hm; cbn beta iota zeta.
  - rewrite saveOffline_eq. cbn [fst snd].
    destruct (storage_write "client_intake_form" data _); by cbn.
  - destruct (submitClientIntake data _) as [[resp|e] w2] eqn:E; cbn beta iota zeta.
    + rewrite saveOffline_eq. cbn [fst snd].
      destruct (storage_write "client_intake_form" VNull _); by cbn.
    + rewrite saveOffline_eq. cbn [fst snd].
      destruct (storage_write "client_intake_form" data _); by cbn.
Qed.

Lemma submitClientIntake_frame formData w :
  let w' := snd (submitClientIntake formData w) in
  alerts w' = alerts w
  /\ token_dropped (localStorage w) (localStorage w')
  /\ (forall x, fst (submitClientIntake formData w) = Return x ->
        available (localStorage w) = true).
Proof.
  destruct (valid_date (get formData "pilot_start_date")) eqn:Hs;
    [destruct (valid_date (get formData "pilot_end_date")) eqn:He|].
  - rewrite submitClientIntake_eq; [done..|].
    destruct (makeRequest_frame "/clients/" (clients_post formData) w)
      as (Hal & _ & _ & Hls & _ & Hav). done.
  - unfold submitClientIntake, bind, token_dropped.
    destruct (get formData "pilot_start_date"); try done;
      destruct (get formData "pilot_end_date"); try done;
      cbn; repeat split; try done; by left.
  - unfold submitClientIntake, bind, token_dropped.
    destruct (get formData "pilot_start_date"); try done;
      cbn; repeat split; try done; by left.
Qed.

Lemma submit_attempt_frame data w :
  let w2 := snd (submit_attempt data w) in
  alerts w2 = alerts w
  /\ token_dropped (localStorage w) (localStorage w2)
  /\ (forall x, fst (submit_attempt data w) = Return x ->
        available (localStorage w) = true).
Proof.
  unfold submit_attempt. destruct (0 <? length (missingFields data))%nat.
  - cbn. unfold token_dropped. repeat split; try done. by left.
  - apply (submitClientIntake_frame data (submitting w)).
Qed.


Lemma token_dropped_available ls ls' :
  token_dropped ls ls' -> available ls' = available ls.
Proof. by intros [->| ->]. Qed.


Lemma missingFields_spec data field :
  In field (missingFields data) <->
  In field requiredFields
  /\ (truthy (get data field) = false \/ get data field = VArr []).
Proof.
  unfold missingFields. rewrite filter_In. unfold is_missing.
  split; intros [Hreq H]; (split; [done|]).
  - apply orb_true_iff in H as [H|H]; [left; by apply negb_true_iff|].
    right. destruct (get data field) as [| | | | | | |[|x l]|]; done.
  - apply orb_true_iff. destruct H as [H|H]; [left; by apply negb_true_iff|].
    right. by rewrite H.
Qed.

(** The client-intake form on the values its controls produce, where a date
    is a Date value or not set.  The missing fields are the required ones
    whose value is absent (falsy: undefined, null, empty text) or an empty
    list.  If there is one, the submit operation fails with the error
    "Please fill in all required fields: " followed by exactly the missing
    fields, shown in the failure alert, and no request is sent.  Otherwise,
    local storage being readable, exactly one request is sent: a POST to
    /clients/ whose body is the JSON text of an object that carries the
    entered fields, number_of_students, number_of_staff and
    token_commitment_fee parsed to numbers or null, and the dates as
    YYYY-MM-DD.  A date that holds text is outside this statement: see
    [restored_draft_is_not_posted]. *)
Theorem intake_submit_validates_and_posts (data : value) (w : World) :
  (forall field, In field (missingFields data) <->
     In field requiredFields
     /\ (truthy (get data field) = false \/ get data field = VArr []))
  /\ (missingFields data <> [] ->
        fst (submit_attempt data w)
        = Throw (new_Error ("Please fill in all required fields: "
                              +:+ join ", " (missingFields data)))
        /\ requests (snd (onSubmit data w)) = requests w
        /\ alerts (snd (onSubmit data w))
           = alerts w ++ ["Form submission failed: Please fill in all required fields: "
                            +:+ join ", " (missingFields data)
                            +:+ ". Data saved offline for later sync."])
  /\ (missingFields data = [] ->
      valid_date (get data "pilot_start_date") = true ->
      valid_date (get data "pilot_end_date") = true ->
      available (localStorage w) = true ->
      requests (snd (onSubmit data w))
      = requests w ++
          [mkRequest (API_BASE_URL +:+ "/clients/") "POST"
             (headers_spread [("Content-Type", "application/json")]%string
                (authorization (alist_lookup "auth_token" (items (localStorage w)))))
             (TextBody (JSON_stringify (client_payload data)))])
  /\ (forall field, In field copied_fields ->
        get (client_payload data) field = get data field)
  /\ get (client_payload data) "number_of_students"
     = (if truthy (get data "number_of_students")
        then parseInt (to_String (get data "number_of_students")) else VNull)
  /\ get (client_payload data) "number_of_staff"
     = (if truthy (get data "number_of_staff")
        then parseInt (to_String (get data "number_of_staff")) else VNull)
  /\ get (client_payload data) "token_commitment_fee"
     = (if truthy (get data "token_commitment_fee")
        then parseFloat (to_String (get data "token_commitment_fee")) else VNull)
  /\ (forall t, get data "pilot_start_date" = VDate t ->
        get (client_payload data) "pilot_start_date" = VStr (DateFmt.date_part t))
  /\ (forall t, get data "pilot_end_date" = VDate t ->
        get (client_payload data) "pilot_end_date" = VStr (DateFmt.date_part t))
  /\ (forall t, let '(y, m, d) := DateFmt.civil_from_days (t / 86400000) in
        0 <= y <= 9999 ->
        DateFmt.date_part t
        = DateFmt.pad 4 y +:+ "-" +:+ DateFmt.pad 2 m +:+ "-" +:+ DateFmt.pad 2 d).
Proof.
  split; [apply missingFields_spec|].
  destruct (onSubmit_eq data w) as (_ & Hreq & Hrest). revert Hreq Hrest.
  unfold submit_attempt.
  split; [|split].
  - intros Hm. destruct (missingFields data) as [|f l] eqn:E; [done|].
    revert Hreq Hrest. cbn [length Nat.ltb Nat.leb fst snd]. rewrite -E.
    intros Hreq [Hal _]. done.
  - intros Hm Hs He Ha. revert Hreq Hrest. rewrite Hm. cbn [length Nat.ltb Nat.leb].
    intros Hreq _. rewrite Hreq. rewrite submitClientIntake_eq; [done..|].
    destruct (makeRequest_frame "/clients/" (clients_post data) (submitting w))
      as (_ & _ & _ & _ & Hrq & _).
    rewrite Hrq. cbn [submitting dispatch localStorage set_formState requests].
    by rewrite Ha.
  - destruct (client_payload_fields data) as (H1 & H2 & H3 & H4 & H5 & H6).
    repeat (split; [done|]).
    intros t. pose proof (date_part_format t) as Hf.
    destruct (DateFmt.civil_from_days (t / 86400000)) as [[y m] d].
    intros Hy. by apply Hf.
Qed.

End SubmitFacts.

(** The draft lacks six required fields and sends nothing; the complete
    form sends one request to /clients/. *)
Lemma intake_submit_validates_and_posts_witness :
  missingFields Demo.draft
    = ["contact_person"; "email"; "project_type"; "project_purpose";
       "pilot_scope_features"; "timeline_preference"]%string
  /\ requests (snd (onSubmit (browser := Chrome.chrome) Demo.draft
                      (Demo.world Demo.empty_storage []))) = []
  /\ map req_url
       (requests (snd (onSubmit (browser := Chrome.chrome) Demo.complete_form
                         (Demo.world Demo.queue_oldest_first [Responds Demo.created]))))
     = ["http://localhost:4002/api/clients/"]%string.
Proof.
  destruct (intake_submit_validates_and_posts (browser := Chrome.chrome)
              Demo.draft (Demo.world Demo.empty_storage []))
    as (_ & Hmissing & _).
  destruct (intake_submit_validates_and_posts (browser := Chrome.chrome)
              Demo.complete_form
              (Demo.world Demo.queue_oldest_first [Responds Demo.created]))
    as (_ & _ & Hposted & _).
  split; [by vm_compute|]. split.
  - apply Hmissing. by vm_compute.
  - rewrite Hposted; by vm_compute.
Defined.



(** C6, a defect of the code.  The form saves its draft as JSON, where a date
    becomes text, and [loadSavedData] puts the stored values back as they
    are.  A complete form is submitted while the server answers 503: the
    request is sent, fails, and the form is saved under
    [client_intake_form].  The restored form has every required field, and
    its start date is the text [2024-01-01T00:00:00.000Z].  Submitting it
    to a server that would accept it sends no request: [toISOString] is
    missing on text, [submitClientIntake] throws before [makeRequest], and
    the alert reports a failed submission. *)
Theorem restored_draft_is_not_posted :
  let first := snd (onSubmit (browser := Chrome.chrome) Demo.complete_form
                      (Demo.world Demo.empty_storage [Responds Demo.unavailable])) in
  let restored :=
    match fst (syncOffline (browser := Chrome.chrome) "client_intake_form"
                 (Demo.world (localStorage first) [])) with
    | Return savedData => savedData
    | Throw _ => VUndefined
    end in
  let second := snd (onSubmit (browser := Chrome.chrome) restored
                       (Demo.world (localStorage first) [Responds Demo.created])) in
  map req_url (requests first) = ["http://localhost:4002/api/clients/"]%string
  /\ get Demo.complete_form "pilot_start_date" = VDate 1704067200000
  /\ get restored "pilot_start_date" = VStr "2024-01-01T00:00:00.000Z"
  /\ missingFields restored = []
  /\ requests second = []
  /\ alerts second
     = ["Form submission failed: toISOString is not a function"
          +:+ ". Data saved offline for later sync."]%string.
Proof. vm_compute. repeat split; reflexivity. Qed.

(** ** Replaying the queue *)
Section ReplayFacts.
Context {browser : Browser}.










Lemma ls_with_items_reliable ls l : reliable ls -> reliable (ls_with_items ls l).
Proof. done. Qed.











End ReplayFacts.



(** * Properties of the other functions *)

Section KeyScan.
Context {browser : Browser}.

Lemma for_index_scan {A} (body : nat -> list A -> JS World (list A))
    (f : string * string -> list A) w l1 l2 acc :
  items (localStorage w) = l1 ++ l2 ->
  (forall i entry acc, items (localStorage w) !! i = Some entry ->
     body i acc w = (Return (acc ++ f entry), w)) ->
  for_index (seq (length l1) (length l2)) body acc w
  = (Return (acc ++ flat_map f l2), w).
Proof.
  intros Hitems Hbody. revert l1 acc Hitems.
  induction l2 as [|entry l2 IH]; intros l1 acc Hitems.
  - simpl. unfold ret. by rewrite app_nil_r.
  - simpl. unfold bind. rewrite (Hbody (length l1) entry).
    { rewrite Hitems. by apply list_lookup_middle. }
    specialize (IH (l1 ++ [entry])). rewrite length_app Nat.add_1_r in IH.
    rewrite IH; [by rewrite Hitems -app_assoc|].
    by rewrite -app_assoc.
Qed.

Lemma flat_map_filter_keys (p : string -> bool) (l : list (string * string)) :
  flat_map (fun kv => if p (fst kv) then [fst kv] else []) l
  = List.filter p (map fst l).
Proof.
  induction l as [|[k s] l IH]; simpl; [done|].
  destruct (p k); simpl; by rewrite IH.
Qed.

Lemma getOfflineKeys_eq w :
  available (localStorage w) = true ->
  getOfflineKeys w
  = (Return (List.filter is_offline_key (map fst (items (localStorage w)))), w).
Proof.
  intros Ha. unfold getOfflineKeys. unfold bind at 1.
  unfold localStorage_length, ls_length. rewrite Ha.
  rewrite (for_index_scan _ (fun kv => if is_offline_key (fst kv) then [fst kv] else [])
             w [] (items (localStorage w)) []); [done| |].
  - intros i [k s] acc Hi. unfold bind.
    unfold localStorage_key, ls_key. rewrite Ha Hi. simpl.
    fold (is_offline_key k). destruct (is_offline_key k); unfold ret; by rewrite ?app_nil_r.
  - by rewrite flat_map_filter_keys.
Qed.

(** X1.  [getOfflineKeys], with local storage available, returns in storage
    order exactly the keys that are not empty and start with [client_intake_]
    or [file_queue_], and changes nothing.  It has no try/catch: with storage
    unavailable the call throws the storage's error.  Every key it returns is
    a key of local storage with one of the two prefixes. *)
Theorem getOfflineKeys_lists_drafts_and_queue (w : World) :
  (available (localStorage w) = true ->
     getOfflineKeys w
     = (Return (List.filter is_offline_key (map fst (items (localStorage w)))), w))
  /\ (available (localStorage w) = false ->
        getOfflineKeys w = (Throw SecurityError, w))
  /\ (forall keys k, fst (getOfflineKeys w) = Return keys -> In k keys ->
        In k (map fst (items (localStorage w)))
        /\ (startsWith k "client_intake_" = true \/ startsWith k "file_queue_" = true)).
Proof.
  split; [apply getOfflineKeys_eq|]. split.
  - intros Ha. unfold getOfflineKeys, bind, localStorage_length, ls_length. by rewrite Ha.
  - intros keys k Hk Hin. destruct (available (localStorage w)) eqn:Ha.
    + rewrite getOfflineKeys_eq in Hk; [done|]. simpl in Hk. injection Hk as <-.
      apply filter_In in Hin as [Hin Hp]. split; [done|].
      unfold is_offline_key in Hp. apply andb_true_iff in Hp as [_ Hp].
      by apply orb_true_iff in Hp.
    + unfold getOfflineKeys, bind, localStorage_length, ls_length in Hk.
      by rewrite Ha in Hk.
Qed.

End KeyScan.

Section ClearOffline.
Context {browser : Browser}.

(** X2.  [clearOffline key] returns normally whatever local storage does.
    Afterwards the hook's [storage] state has no entry for the key and its
    other entries are as before, and [syncOffline key] yields null.  With
    storage available the entry of the key is gone from local storage and
    the other entries are kept; with storage unavailable local storage is
    unchanged. *)
Theorem clearOffline_forgets (key : string) (w : World) :
  let w' := snd (clearOffline key w) in
  fst (clearOffline key w) = Return tt
  /\ alist_lookup key (storage w') = None
  /\ (forall k, k <> key -> alist_lookup k (storage w') = alist_lookup k (storage w))
  /\ fst (syncOffline key w') = Return VNull
  /\ (available (localStorage w) = true ->
        alist_lookup key (items (localStorage w')) = None
        /\ forall k, k <> key ->
             alist_lookup k (items (localStorage w')) = alist_lookup k (items (localStorage w)))
  /\ (available (localStorage w) = false -> localStorage w' = localStorage w).
Proof.
  unfold clearOffline, bind, modify. rewrite saveToStorage_eq.
  cbn [storage_write]. unfold ls_removeItem.
  destruct (available (localStorage w)) eqn:Ha; cbn.
  - split; [done|]. split; [apply alist_lookup_remove_eq|].
    split; [intros k Hk; by apply alist_lookup_remove_ne|].
    split.
    { rewrite syncOffline_fst. f_equal. unfold stored_value, ls_getItem. cbn.
      by rewrite Ha alist_lookup_remove_eq. }
    split; [|done]. intros _. split; [apply alist_lookup_remove_eq|].
    intros k Hk. by apply alist_lookup_remove_ne.
  - split; [done|]. split; [apply alist_lookup_remove_eq|].
    split; [intros k Hk; by apply alist_lookup_remove_ne|].
    split; [|done].
    rewrite syncOffline_fst. f_equal. unfold stored_value, ls_getItem. cbn. by rewrite Ha.
Qed.

End ClearOffline.

Section StatusUpdates.
Context {browser : Browser}.

Lemma alist_set_keys {A} (k : string) (a : A) l :
  is_Some (alist_lookup k l) -> map fst (alist_set k a l) = map fst l.
Proof.
  induction l as [|[k' a'] l IH]; simpl; [by intros [? ?]|].
  destruct (String.eqb k k') eqn:E; simpl.
  - apply String.eqb_eq in E. by subst.
  - intros H. by rewrite IH.
Qed.

Lemma stored_value_truthy_lookup k ls :
  truthy (stored_value k ls) = true -> is_Some (alist_lookup k (items ls)).
Proof.
  unfold stored_value, ls_getItem. destruct (available ls); [|done].
  by destruct (alist_lookup k (items ls)).
Qed.

(** X3.  [updateFileQueueStatus] neither adds nor removes a key of local
    storage, and leaves the entry of every other key alone.  When nothing
    readable is stored under the id (no entry, text that is not JSON, a falsy
    value) the call does nothing at all. *)
Theorem updateFileQueueStatus_keeps_keys (queueId : value) (status : string)
    (error : value) (w : World) :
  let w' := snd (updateFileQueueStatus queueId status error w) in
  map fst (items (localStorage w')) = map fst (items (localStorage w))
  /\ (forall k, k <> to_String queueId ->
        alist_lookup k (items (localStorage w')) = alist_lookup k (items (localStorage w)))
  /\ (truthy (stored_value (to_String queueId) (localStorage w)) = false ->
        updateFileQueueStatus queueId status error w = (Return tt, w)).
Proof.
  unfold updateFileQueueStatus, bind. rewrite loadFromStorage_eq.
  destruct (truthy (stored_value (to_String queueId) (localStorage w))) eqn:Ht; [|done].
  pose proof (stored_value_truthy_lookup _ _ Ht) as Hsome.
  assert (forall data,
    let w' := snd (let '(_, w1) := saveToStorage (to_String queueId) data w in
                   (Return tt, setStorage (alist_set (to_String queueId) data) w1)) in
    data <> VNull ->
    map fst (items (localStorage w')) = map fst (items (localStorage w))
    /\ (forall k, k <> to_String queueId ->
        alist_lookup k (items (localStorage w')) = alist_lookup k (items (localStorage w))))
    as Hsave.
  { intros data. cbn zeta. intros Hnn. rewrite saveToStorage_eq.
    assert (storage_write (to_String queueId) data (localStorage w)
            = ls_setItem (to_String queueId) (stringify_for_storage data) (localStorage w))
      as -> by by destruct data.
    unfold ls_setItem. destruct (available (localStorage w)); [|done].
    destruct (within_quota _ _); [|done]. cbn.
    split; [by apply alist_set_keys|]. intros k Hk. apply alist_lookup_set_ne. congruence. }
  destruct (stored_value (to_String queueId) (localStorage w)) eqn:Hv;
    cbn [assign throw ret set]; try done.
  - (* a Date *) destruct (truthy error); cbn [assign ret];
      unfold modify;
      match goal with |- context [saveToStorage ?k ?d ?w0] =>
        destruct (Hsave d) as [H1 H2]; [done|]; destruct (saveToStorage k d w0) as [[b|e] w1]
      end; cbn in *; done.
  - destruct (truthy error); cbn [assign ret];
      unfold modify;
      match goal with |- context [saveToStorage ?k ?d ?w0] =>
        destruct (Hsave d) as [H1 H2]; [done|]; destruct (saveToStorage k d w0) as [[b|e] w1]
      end; cbn in *; done.
  - destruct (truthy error); cbn [assign ret set];
      unfold modify;
      match goal with |- context [saveToStorage ?k ?d ?w0] =>
        destruct (Hsave d) as [H1 H2]; [done|]; destruct (saveToStorage k d w0) as [[b|e] w1]
      end; cbn in *; done.
Qed.

End StatusUpdates.

Section ProcessedJobs.
Context {browser : Browser}.


Lemma filter_ext_in_keys (p q : string -> bool) (l : list string) :
  (forall k, In k l -> p k = q k) -> List.filter p l = List.filter q l.
Proof.
  induction l as [|k l IH]; simpl; [done|]. intros H.
  rewrite (H k (or_introl eq_refl)) IH; [|done]. intros k' Hk'. apply H. by right.
Qed.









End ProcessedJobs.

Section QueuedFile.
Context {browser : Browser}.

Lemma prefix_append s t : String.prefix s (s +:+ t) = true.
Proof.
  induction s as [|c s IH].
  - by destruct t.
  - change (String c s +:+ t) with (String c (s +:+ t)). cbn [String.prefix].
    by destruct (ascii_dec c c).
Qed.

Lemma queue_key_is_queue_key now suffix : is_queue_key (queue_key now suffix) = true.
Proof. unfold is_queue_key, queue_key, startsWith. by rewrite prefix_append. Qed.

Lemma queue_key_is_offline_key now suffix : is_offline_key (queue_key now suffix) = true.
Proof.
  unfold is_offline_key, queue_key, startsWith. rewrite prefix_append. by rewrite orb_true_r.
Qed.

Lemma alist_set_key_in {A} (k : string) (a : A) l : In k (map fst (alist_set k a l)).
Proof.
  induction l as [|[k' a'] l IH]; simpl; [by left|].
  destruct (String.eqb k k'); simpl; [by left | by right].
Qed.

(** X5.  When [addFileToQueue] returns [true] and the job survives JSON,
    [loadFromStorage] reads the job back under the new key, the job is
    pending, [getFileQueue] returns it and [getOfflineKeys] lists its key. *)
Theorem queued_file_is_pending (file : File) (projectId description : value) (w : World) :
  let queueKey := queue_key (hd 0 (clock w)) (hd EmptyString (entropy w)) in
  let fileData := queued_job file projectId description queueKey (hd 0 (tl (clock w))) in
  let w' := snd (addFileToQueue file projectId description w) in
  fst (addFileToQueue file projectId description w) = Return true ->
  JSON_serializable fileData ->
  stored_value queueKey (localStorage w') = fileData
  /\ In fileData (pending_jobs (localStorage w'))
  /\ (exists queue, getFileQueue w' = (Return queue, w') /\ In fileData queue)
  /\ (exists keys, getOfflineKeys w' = (Return keys, w') /\ In queueKey keys).
Proof.
  intros queueKey fileData w'.
  destruct (addFileToQueue_eq file projectId description w) as [Hr Hls].
  fold queueKey fileData in Hr, Hls. fold w' in Hls. rewrite Hr.
  destruct (ls_setItem queueKey (JSON_stringify fileData) (localStorage w))
    as [ls|e] eqn:Hset; [|done].
  intros _ Hser.
  assert (stored_value queueKey (localStorage w') = fileData) as Hst.
  { rewrite Hls. by apply (stored_value_after_set queueKey fileData (localStorage w)). }
  assert (available (localStorage w') = true
          /\ In queueKey (map fst (items (localStorage w')))) as [Ha Hin].
  { rewrite Hls. revert Hset. unfold ls_setItem.
    destruct (available (localStorage w)) eqn:Ha; [|done].
    destruct (within_quota _ _); [|done]. intros [= <-]. cbn.
    split; [done|apply alist_set_key_in]. }
  assert (In fileData (pending_jobs (localStorage w'))) as Hpend.
  { unfold pending_jobs, pending_in. apply filter_In. split; [|done].
    rewrite -{1}Hst.
    apply (in_map (fun k => stored_value k (localStorage w'))).
    apply filter_In. split; [done|].
    apply queue_key_is_queue_key. }
  split; [done|]. split; [done|]. split.
  - eexists. split; [by apply getFileQueue_eq|].
    apply list_elem_of_In. rewrite (array_sort_perm timestamp_gt).
    by apply list_elem_of_In.
  - eexists. split; [by apply getOfflineKeys_eq|].
    apply filter_In. split; [done|]. apply queue_key_is_offline_key.
Qed.

End QueuedFile.


(** A text file queued while offline is the one job of the queue. *)
Lemma queued_file_is_pending_witness :
  let file := mkFile "minutes.txt" 26 "text/plain" 1699999000000
                     "abcdefghijklmnopqrstuvwxyz" in
  let w := Demo.world (mkLocalStorage [("auth_token", "s3cr3t")]%string None true) [] in
  let w' := snd (addFileToQueue (browser := Chrome.chrome) file (VStr "p-7") (VStr "minutes") w) in
  In (queued_job (browser := Chrome.chrome) file (VStr "p-7") (VStr "minutes")
        "file_queue_1700000000123_k3j9x0a1b" 1700000000456)
     (pending_jobs (browser := Chrome.chrome) (localStorage w')).
Proof.
  intros file w w'.
  destruct (queued_file_is_pending (browser := Chrome.chrome)
              file (VStr "p-7") (VStr "minutes") w) as (_ & Hin & _).
  - vm_compute. reflexivity.
  - repeat split; vm_compute; congruence.
  - exact Hin.
Defined.

Section RequestOutcomes.
Context {browser : Browser}.

(** X6.  With storage available and a 2xx response, [makeRequest] resolves
    to the parsed body when the content-type header contains
    [application/json] (and rejects when the body does not parse), and to the
    response itself otherwise.  Local storage is untouched, the response is
    consumed, [isLoading] ends [false], and [error] is null when the call
    resolved. *)
Theorem makeRequest_success (url : string) (options : Options) (w : World)
    (r : Response) (n : list FetchOutcome) :
  available (localStorage w) = true ->
  network w = Responds r :: n ->
  ok r = true ->
  let res := makeRequest url options w in
  fst res = (if json_content r
             then match json r with Return v => Return (Json v) | Throw e => Throw e end
             else Return (Raw r))
  /\ localStorage (snd res) = localStorage w
  /\ network (snd res) = n
  /\ isLoading (snd res) = false
  /\ (forall x, fst res = Return x -> error (snd res) = VNull).
Proof.
  intros Ha Hn Hok res. subst res.
  unfold makeRequest, bind, finally, try_catch, modify, getAuthToken,
    localStorage_getItem, ls_getItem, fetch, throw. simpl. rewrite Ha Hn. simpl.
  rewrite Hok. simpl. unfold json_content.
  destruct (content_type r) as [ct|]; simpl; [|done].
  destruct (negb (ct =? "")%string && includes ct "application/json"); simpl; [|done].
  unfold lift. by destruct (json r).
Qed.

Lemma makeRequest_state url options w :
  let res := makeRequest url options w in
  isLoading (snd res) = false
  /\ error (snd res)
     = match fst res with
       | Return _ => VNull
       | Throw e => err_message_or e "An unexpected error occurred"
       end
  /\ (requests (snd res) = requests w
      \/ exists rq, requests (snd res) = requests w ++ [rq])
  /\ storage (snd res) = storage w.
Proof.
  cbn zeta. unfold makeRequest, bind, finally, try_catch, modify, getAuthToken,
    localStorage_getItem, ls_getItem, fetch, throw. simpl.
  destruct (available (localStorage w)) eqn:Ha; simpl.
  2: { repeat split; try done. by left. }
  destruct (network w) as [|[r|e] n]; simpl.
  1,3: repeat split; try done; right; by eexists.
  destruct (ok r); simpl.
  { destruct (content_type r) as [ct|]; simpl.
    2: repeat split; try done; right; by eexists.
    destruct (negb (ct =? "")%string && includes ct "application/json"); simpl.
    2: repeat split; try done; right; by eexists.
    unfold lift. destruct (json r); simpl; repeat split; try done; right; by eexists. }
  destruct (status r =? 401).
  { unfold localStorage_removeItem, ls_removeItem. simpl. rewrite Ha. simpl.
    repeat split; try done; right; by eexists. }
  destruct (status r =? 403); simpl.
  1: repeat split; try done; right; by eexists.
  destruct (500 <=? status r); simpl.
  1: repeat split; try done; right; by eexists.
  unfold lift, ret, member_of. destruct (json r) as [v|e]; simpl.
  2: repeat split; try done; right; by eexists.
  destruct v; simpl; repeat split; try done; right; by eexists.
Qed.

(** X7.  After any call of [makeRequest], [isLoading] is [false]; [error]
    is null when the call resolved and otherwise the message of the error it
    rejected with (the fallback text for an empty message); at most one
    request was sent; the state of the offline-storage hook is unchanged. *)
Theorem makeRequest_state_protocol (url : string) (options : Options) (w : World) :
  let res := makeRequest url options w in
  isLoading (snd res) = false
  /\ error (snd res)
     = match fst res with
       | Return _ => VNull
       | Throw e => err_message_or e "An unexpected error occurred"
       end
  /\ (requests (snd res) = requests w
      \/ exists rq, requests (snd res) = requests w ++ [rq])
  /\ storage (snd res) = storage w.
Proof. apply makeRequest_state. Qed.

Lemma alist_lookup_app_last h k (v : string) l :
  alist_lookup h (l ++ [(k, v)])
  = match alist_lookup h l with
    | Some x => Some x
    | None => if String.eqb h k then Some v else None
    end.
Proof.
  induction l as [|[k' v'] l IH]; simpl; [done|].
  by destruct (String.eqb h k').
Qed.

Lemma alist_lookup_set h k (v : string) l :
  alist_lookup h (alist_set k v l)
  = if String.eqb h k then Some v else alist_lookup h l.
Proof.
  destruct (String.eqb h k) eqn:E.
  - apply String.eqb_eq in E. subst. apply alist_lookup_set_eq.
  - apply String.eqb_neq in E. apply alist_lookup_set_ne. congruence.
Qed.

Lemma headers_spread_lookup h a b :
  alist_lookup h (headers_spread a b)
  = match last_entry h b with
    | Some v => Some v
    | None => alist_lookup h a
    end.
Proof.
  unfold headers_spread, last_entry. revert a.
  induction b as [|[k v] b IH]; intros a; simpl; [done|].
  rewrite IH alist_lookup_app_last alist_lookup_set.
  destruct (alist_lookup h (rev b)); [done|]. by destruct (String.eqb h k).
Qed.

(** X8.  With storage available [makeRequest] sends exactly one request:
    to [API_BASE_URL] followed by the path, with the method of the options
    ([GET] when none is given) and their body.  A header given in the options
    wins (its last entry); otherwise [Authorization] is [Bearer <token>] when
    a token that is not empty is stored, [Content-Type] is
    [application/json], and no other header is sent. *)
Theorem makeRequest_headers (url : string) (options : Options) (w : World) :
  available (localStorage w) = true ->
  exists rq,
    requests (snd (makeRequest url options w)) = requests w ++ [rq]
    /\ req_url rq = API_BASE_URL +:+ url
    /\ req_method rq = default "GET"%string (opt_method options)
    /\ req_body rq = opt_body options
    /\ forall h,
         alist_lookup h (req_headers rq)
         = match last_entry h (opt_headers options) with
           | Some v => Some v
           | None =>
               if String.eqb h "Authorization"
               then bearer (alist_lookup "auth_token" (items (localStorage w)))
               else if String.eqb h "Content-Type" then Some "application/json"%string
               else None
           end.
Proof.
  intros Ha. destruct (makeRequest_frame url options w) as (_ & _ & _ & _ & Hrq & _).
  rewrite Ha in Hrq. eexists. split; [exact Hrq|].
  unfold request_of. cbn [req_url req_method req_body req_headers].
  repeat split. intros h. rewrite !headers_spread_lookup.
  destruct (last_entry h (opt_headers options)); [done|].
  unfold authorization, bearer, last_entry.
  destruct (alist_lookup "auth_token" (items (localStorage w))) as [t|]; simpl.
  - destruct (String.eqb t ""); simpl.
    + destruct (String.eqb h "Authorization") eqn:E; [|done].
      apply String.eqb_eq in E. by subst.
    + destruct (String.eqb h "Authorization") eqn:E; [done|].
      by destruct (String.eqb h "Content-Type").
  - destruct (String.eqb h "Authorization") eqn:E; [|done].
    apply String.eqb_eq in E. by subst.
Qed.

(** X9.  A response that is not 2xx and not 401, with storage available:
    local storage is unchanged; a status of 500 or more rejects with the
    server-error message; a status below 500 other than 403 rejects with the
    [detail] of the JSON body, or with [Request failed with status <n>] when
    there is none (a body that is JSON [null] gives a TypeError instead); and
    [error] holds the message of the rejection. *)
Theorem makeRequest_failure_messages (url : string) (options : Options) (w : World)
    (r : Response) (n : list FetchOutcome) :
  available (localStorage w) = true ->
  network w = Responds r :: n ->
  ok r = false ->
  status r <> 401 ->
  let res := makeRequest url options w in
  localStorage (snd res) = localStorage w
  /\ (500 <= status r ->
        fst res = Throw (new_Error "Server error. Please try again later."))
  /\ (status r < 500 -> status r <> 403 ->
        fst res = Throw (failure_detail "Request" r))
  /\ (exists e, fst res = Throw e
                /\ error (snd res) = err_message_or e "An unexpected error occurred").
Proof.
  intros Ha Hn Hok H401 res. subst res.
  unfold makeRequest, bind, finally, try_catch, modify, getAuthToken,
    localStorage_getItem, ls_getItem, fetch, throw. simpl. rewrite Ha Hn. simpl.
  rewrite Hok. simpl.
  apply Z.eqb_neq in H401. rewrite H401.
  destruct (status r =? 403) eqn:H403; simpl.
  { apply Z.eqb_eq in H403. split; [done|]. split; [intros; lia|].
    split; [done|]. by eexists. }
  destruct (500 <=? status r) eqn:H500; simpl.
  { apply Z.leb_le in H500. split; [done|]. split; [done|].
    split; [intros; lia|]. by eexists. }
  apply Z.leb_gt in H500. unfold failure_detail.
  unfold lift, ret, member_of. destruct (json r) as [v|e]; simpl.
  2: { split; [done|]. split; [intros; lia|]. split; [done|]. by eexists. }
  destruct v; simpl; (split; [done|]); (split; [intros; lia|]);
    (split; [done|]); by eexists.
Qed.

End RequestOutcomes.

Section MoreRequests.
Context {browser : Browser} {body : ResponseBody}.

Lemma status_not_ok r : status r = 401 \/ status r = 403 \/ status r = 404 \/ 500 <= status r ->
  ok r = false.
Proof. unfold ok. intros H. apply andb_false_iff. rewrite Z.leb_gt. right. lia. Qed.

(** X10.  [uploadFile], with storage available and a response from the
    server: a 2xx response resolves to its JSON body (and rejects when the
    body does not parse); 401 removes the stored token, keeps every other
    entry and asks to log in again; 403 and 5xx reject with their fixed
    messages; any other status rejects with the [detail] of the body or
    [Upload failed with status <n>].  Unless the status is 401 local storage
    is unchanged.  [isLoading] ends [false] and [error] is null or the
    message of the rejection. *)
Theorem uploadFile_outcomes (file : File) (projectId description : value) (w : World)
    (r : Response) (n : list FetchOutcome) :
  available (localStorage w) = true ->
  network w = Responds r :: n ->
  let res := uploadFile file projectId description w in
  (ok r = true -> fst res = json r /\ localStorage (snd res) = localStorage w)
  /\ (status r = 401 ->
        fst res = Throw (new_Error "Authentication required. Please log in again.")
        /\ alist_lookup "auth_token" (items (localStorage (snd res))) = None
        /\ forall k, k <> "auth_token"%string ->
             alist_lookup k (items (localStorage (snd res)))
             = alist_lookup k (items (localStorage w)))
  /\ (status r = 403 ->
        fst res = Throw (new_Error
                    "Access denied. You do not have permission to upload files."))
  /\ (500 <= status r ->
        fst res = Throw (new_Error "Server error. Please try again later."))
  /\ (ok r = false -> status r < 500 -> status r <> 401 -> status r <> 403 ->
        fst res = Throw (failure_detail "Upload" r))
  /\ (status r <> 401 -> localStorage (snd res) = localStorage w)
  /\ isLoading (snd res) = false
  /\ error (snd res)
     = match fst res with
       | Return _ => VNull
       | Throw e => err_message_or e "An unexpected error occurred during upload"
       end.
Proof.
  intros Ha Hn res. subst res.
  unfold uploadFile, bind, finally, try_catch, modify, getAuthToken,
    localStorage_getItem, ls_getItem, fetch, throw. simpl. rewrite Ha Hn. simpl.
  destruct (ok r) eqn:Hok; simpl.
  { unfold lift.
    assert (status r <> 401 /\ status r <> 403 /\ ~ 500 <= status r) as (H1 & H2 & H3).
    { unfold ok in Hok. apply andb_true_iff in Hok as [_ Hok%Z.leb_le]. lia. }
    destruct (json r); simpl; repeat split; try done; intros; lia. }
  destruct (status r =? 401) eqn:H401.
  { apply Z.eqb_eq in H401.
    unfold localStorage_removeItem, ls_removeItem. simpl. rewrite Ha. simpl.
    split; [done|]. split.
    { intros _. split; [done|]. split; [apply alist_lookup_remove_eq|].
      intros k Hk. by apply alist_lookup_remove_ne. }
    repeat split; try done; intros; lia. }
  apply Z.eqb_neq in H401.
  destruct (status r =? 403) eqn:H403; simpl.
  { apply Z.eqb_eq in H403. repeat split; try done; intros; lia. }
  apply Z.eqb_neq in H403.
  destruct (500 <=? status r) eqn:H500; simpl.
  { apply Z.leb_le in H500. repeat split; try done; intros; lia. }
  apply Z.leb_gt in H500. unfold failure_detail.
  unfold lift, ret, member_of. destruct (json r) as [v|e]; simpl.
  2: repeat split; try done; intros; lia.
  destruct v; simpl; repeat split; try done; intros; lia.
Qed.

(** X11.  [downloadFile], with storage available and a response from the
    server, sends one [GET] to [/attachments/<id>/download/] with only the
    [Authorization] header.  A 2xx response resolves to the body's blob; 401
    removes the stored token; 403 and 404 reject with their fixed messages;
    every other status, 5xx included, rejects with
    [Download failed with status <n>].  Unless the status is 401 local
    storage is unchanged; [isLoading] ends [false] and [error] is null or the
    message of the rejection. *)
Theorem downloadFile_outcomes (attachmentId : value) (w : World)
    (r : Response) (n : list FetchOutcome) :
  available (localStorage w) = true ->
  network w = Responds r :: n ->
  let res := downloadFile attachmentId w in
  requests (snd res)
  = requests w ++
      [mkRequest (API_BASE_URL +:+ "/attachments/" +:+ to_String attachmentId +:+ "/download/")
         "GET" (authorization (alist_lookup "auth_token" (items (localStorage w)))) NoBody]
  /\ (ok r = true -> fst res = response_blob r)
  /\ (status r = 401 ->
        fst res = Throw (new_Error "Authentication required. Please log in again.")
        /\ alist_lookup "auth_token" (items (localStorage (snd res))) = None)
  /\ (status r = 403 ->
        fst res = Throw (new_Error
                    "Access denied. You do not have permission to download this file."))
  /\ (status r = 404 -> fst res = Throw (new_Error "File not found."))
  /\ (ok r = false -> status r <> 401 -> status r <> 403 -> status r <> 404 ->
        fst res = Throw (new_Error ("Download failed with status "
                                      +:+ Z_to_string (status r))))
  /\ (status r <> 401 -> localStorage (snd res) = localStorage w)
  /\ isLoading (snd res) = false
  /\ error (snd res)
     = match fst res with
       | Return _ => VNull
       | Throw e => err_message_or e "An unexpected error occurred during download"
       end.
Proof.
  intros Ha Hn res. subst res.
  unfold downloadFile, bind, finally, try_catch, modify, getAuthToken,
    localStorage_getItem, ls_getItem, fetch, throw. simpl. rewrite Ha Hn. simpl.
  destruct (ok r) eqn:Hok; simpl.
  { unfold lift.
    assert (status r <> 401 /\ status r <> 403 /\ status r <> 404) as (H1 & H2 & H3).
    { unfold ok in Hok. apply andb_true_iff in Hok as [_ Hok%Z.leb_le]. lia. }
    destruct (response_blob r); simpl; repeat split; try done; intros; lia. }
  destruct (status r =? 401) eqn:H401.
  { apply Z.eqb_eq in H401.
    unfold localStorage_removeItem, ls_removeItem. simpl. rewrite Ha. simpl.
    split; [done|]. split; [done|]. split.
    { intros _. split; [done|]. apply alist_lookup_remove_eq. }
    repeat split; try done; intros; lia. }
  apply Z.eqb_neq in H401.
  destruct (status r =? 403) eqn:H403; simpl.
  { apply Z.eqb_eq in H403. repeat split; try done; intros; lia. }
  apply Z.eqb_neq in H403.
  destruct (status r =? 404) eqn:H404; simpl.
  { apply Z.eqb_eq in H404. repeat split; try done; intros; lia. }
  apply Z.eqb_neq in H404.
  repeat split; try done; intros; lia.
Qed.

End MoreRequests.

Section Documents.
Context {browser : Browser}.

Lemma member_of_get {S} (o : value) k (w : S) :
  nullish o = false -> member_of o k w = (Return (get o k), w).
Proof. by destruct o. Qed.

Lemma member_of_world (o : value) k (w : World) : snd (member_of o k w) = w.
Proof. by destruct o. Qed.

Lemma reply_member_world (r : Reply) k (w : World) : snd (reply_member r k w) = w.
Proof. destruct r; [apply member_of_world|done]. Qed.

Lemma pdf_url_world (pdfResponse : Reply) (w : World) :
  snd ((document <- reply_member pdfResponse "document" ;; member_of document "pdf_url") w)
  = w.
Proof.
  unfold bind. pose proof (reply_member_world pdfResponse "document" w) as H.
  destruct (reply_member pdfResponse "document" w) as [[d|e] w']; cbn [snd] in *; subst w'.
  - apply member_of_world.
  - done.
Qed.

(** X12.  [generatePDF], given form data whose dates are dates or absent
    and with storage available, first posts the intake to [/clients/], with no
    check of the required fields.  When that request fails [generatePDF]
    rejects with the same error and nothing else is sent.  When it resolves
    to a JSON object a second [POST] goes to
    [/clients/<id>/generate-intake-pdf/], and when that resolves to JSON with
    a [document] the result is the document's [pdf_url]. *)
Theorem generatePDF_submits_the_form (formData : value) (w : World) :
  valid_date (get formData "pilot_start_date") = true ->
  valid_date (get formData "pilot_end_date") = true ->
  available (localStorage w) = true ->
  let token := alist_lookup "auth_token" (items (localStorage w)) in
  let submit := request_of "/clients/" (clients_post formData) token in
  (exists rest, requests (snd (generatePDF formData w)) = requests w ++ submit :: rest)
  /\ (forall e w1, submitClientIntake formData w = (Throw e, w1) ->
        generatePDF formData w = (Throw e, w1)
        /\ requests w1 = requests w ++ [submit])
  /\ (forall client w1,
        submitClientIntake formData w = (Return (Json client), w1) ->
        nullish client = false ->
        requests (snd (generatePDF formData w))
        = requests w ++
            [submit;
             request_of (intake_pdf_url client) POST
               (alist_lookup "auth_token" (items (localStorage w1)))]
        /\ forall pdf w2,
             makeRequest (intake_pdf_url client) POST w1 = (Return (Json pdf), w2) ->
             nullish pdf = false -> nullish (get pdf "document") = false ->
             generatePDF formData w
             = (Return (get (get pdf "document") "pdf_url"), w2)).
Proof.
  intros Hs He Ha token submit.
  assert (forall r w1, submitClientIntake formData w = (r, w1) ->
            requests w1 = requests w ++ [submit] /\ available (localStorage w1) = true)
    as Hfirst.
  { intros r w1. rewrite submitClientIntake_eq; [done..|]. intros E.
    destruct (makeRequest_frame "/clients/" (clients_post formData) w)
      as (_ & _ & _ & Hls & Hrq & _).
    rewrite E in Hls, Hrq. cbn [snd] in Hls, Hrq. rewrite Ha in Hrq.
    split; [done|]. by rewrite (token_dropped_available _ _ Hls). }
  assert (forall url w1, requests w1 = requests w ++ [submit] ->
            available (localStorage w1) = true ->
            requests (snd ((pdfResponse <- makeRequest url POST ;;
                            document <- reply_member pdfResponse "document" ;;
                            member_of document "pdf_url") w1))
            = requests w ++
                [submit;
                 request_of url POST (alist_lookup "auth_token" (items (localStorage w1)))])
    as Hsecond.
  { intros url w1 Hrq1 Ha1. unfold bind at 1.
    destruct (makeRequest_frame url POST w1) as (_ & _ & _ & _ & Hrq & _).
    rewrite Ha1 in Hrq.
    destruct (makeRequest url POST w1) as [[pdfResponse|e] w2]; cbn [snd] in Hrq.
    - rewrite pdf_url_world Hrq Hrq1 -app_assoc. done.
    - cbn. rewrite Hrq Hrq1 -app_assoc. done. }
  split; [|split].
  - unfold generatePDF. unfold bind at 1.
    destruct (submitClientIntake formData w) as [[reply|e] w1] eqn:E.
    2: { exists []. by destruct (Hfirst _ _ eq_refl). }
    destruct (Hfirst _ _ eq_refl) as [Hrq1 Ha1].
    unfold bind at 1. pose proof (reply_member_world reply "id" w1) as Hw.
    destruct (reply_member reply "id" w1) as [[clientId|e] w1']; cbn [snd] in Hw; subst w1'.
    2: by exists [].
    eexists. by apply Hsecond.
  - intros e w1 E. destruct (Hfirst _ _ E) as [Hrq1 _]. split; [|done].
    unfold generatePDF, bind. by rewrite E.
  - intros client w1 E Hnn. destruct (Hfirst _ _ E) as [Hrq1 Ha1].
    assert (generatePDF formData w
            = (pdfResponse <- makeRequest (intake_pdf_url client) POST ;;
               document <- reply_member pdfResponse "document" ;;
               member_of document "pdf_url") w1) as ->.
    { unfold generatePDF. unfold bind at 1. rewrite E. unfold bind at 1.
      cbn [reply_member]. by rewrite member_of_get. }
    split; [by apply Hsecond|].
    intros pdf w2 E2 Hpdf Hdoc.
    unfold bind at 1. rewrite E2.
    unfold bind. cbn [reply_member]. rewrite member_of_get; [done|].
    by rewrite member_of_get.
Qed.

(** X13.  [generateAcceptancePDF] never resolves.  What
    [makeRequest] resolves to is parsed JSON or the response, never a [Blob],
    so that after a successful request the function throws
    [Failed to generate PDF] while the hook's [error] stays null.  Whatever
    its argument, the request is a [POST] to
    [/pilot-acceptance/1/generate_certificate/], and the state is left as
    [makeRequest] left it. *)
Theorem generateAcceptancePDF_always_rejects (acceptanceData : value) (w : World) :
  let res := generateAcceptancePDF acceptanceData w in
  (exists e, fst res = Throw e)
  /\ (forall response, fst (makeRequest "/pilot-acceptance/1/generate_certificate/" POST w)
                       = Return response ->
        fst res = Throw (new_Error "Failed to generate PDF")
        /\ error (snd res) = VNull)
  /\ snd res = snd (makeRequest "/pilot-acceptance/1/generate_certificate/" POST w)
  /\ (available (localStorage w) = true ->
        requests (snd res)
        = requests w ++
            [request_of "/pilot-acceptance/1/generate_certificate/" POST
               (alist_lookup "auth_token" (items (localStorage w)))]).
Proof.
  cbn zeta. unfold generateAcceptancePDF, bind.
  destruct (makeRequest_frame "/pilot-acceptance/1/generate_certificate/" POST w)
    as (_ & _ & _ & _ & Hrq & _).
  destruct (makeRequest_state "/pilot-acceptance/1/generate_certificate/" POST w)
    as (_ & Herr & _).
  destruct (makeRequest "/pilot-acceptance/1/generate_certificate/" POST w)
    as [[response|e] w1]; cbn [fst snd] in *.
  - assert (instanceof_Blob response = false) as -> by by destruct response.
    cbn. split; [by eexists|]. split; [done|]. split; [done|].
    intros Ha. by rewrite Ha in Hrq.
  - split; [by eexists|]. split; [done|]. split; [done|].
    intros Ha. by rewrite Ha in Hrq.
Qed.

End Documents.


(** A created client comes back as parsed JSON. *)
Lemma makeRequest_success_witness :
  fst (makeRequest (browser := Chrome.chrome) "/clients/" no_options
         (Demo.world Sample.signed_in [Responds Demo.created]))
  = Return (Json (VObj [("id", VNum 9)])).
Proof.
  destruct (makeRequest_success (browser := Chrome.chrome) "/clients/" no_options
              (Demo.world Sample.signed_in [Responds Demo.created])
              Demo.created [] eq_refl eq_refl eq_refl) as [H _].
  rewrite H. reflexivity.
Defined.

(** The caller's Content-Type replaces the default; the token is sent. *)
Lemma makeRequest_headers_witness :
  exists rq,
    requests (snd (makeRequest (browser := Chrome.chrome) "/export/" Sample.csv_headers
                     (Demo.world Sample.signed_in [])))
    = [rq]
    /\ alist_lookup "Content-Type" (req_headers rq) = Some "text/csv"%string
    /\ alist_lookup "Authorization" (req_headers rq) = Some "Bearer s3cr3t"%string.
Proof.
  destruct (makeRequest_headers (browser := Chrome.chrome) "/export/" Sample.csv_headers
              (Demo.world Sample.signed_in []) eq_refl) as (rq & Hrq & _ & _ & _ & Hh).
  exists rq. split; [exact Hrq|]. split.
  - rewrite (Hh "Content-Type"%string). reflexivity.
  - rewrite (Hh "Authorization"%string). reflexivity.
Defined.

(** A 404 with a JSON body shows the server's [detail]. *)
Lemma makeRequest_failure_messages_witness :
  fst (makeRequest (browser := Chrome.chrome) "/clients/77/" no_options
         (Demo.world Sample.signed_in [Responds Sample.not_found]))
  = Throw (new_Error "No client matches the given query.").
Proof.
  destruct (makeRequest_failure_messages (browser := Chrome.chrome) "/clients/77/" no_options
              (Demo.world Sample.signed_in [Responds Sample.not_found])
              Sample.not_found [] eq_refl eq_refl eq_refl) as (_ & _ & H & _).
  - discriminate.
  - rewrite H; [reflexivity | discriminate | reflexivity].
Defined.

(** An expired session during an upload: the token goes, the draft stays. *)
Lemma uploadFile_outcomes_witness :
  let res := uploadFile (browser := Chrome.chrome) Sample.minutes (VStr "p-7") VUndefined
               (Demo.world Sample.signed_in [Responds Sample.expired]) in
  fst res = Throw (new_Error "Authentication required. Please log in again.")
  /\ alist_lookup "auth_token" (items (localStorage (snd res))) = None
  /\ alist_lookup "client_intake_form" (items (localStorage (snd res))) = Some "{}"%string.
Proof.
  intros res.
  destruct (uploadFile_outcomes (browser := Chrome.chrome) Sample.minutes (VStr "p-7")
              VUndefined (Demo.world Sample.signed_in [Responds Sample.expired])
              Sample.expired [] eq_refl eq_refl) as (_ & H & _).
  destruct (H eq_refl) as (Hr & Ht & Hk).
  split; [exact Hr|]. split; [exact Ht|].
  subst res. rewrite Hk; [discriminate | reflexivity].
Defined.

(** A missing attachment. *)
Lemma downloadFile_outcomes_witness :
  fst (downloadFile (browser := Chrome.chrome) (body := Sample.pdf_body) (VNum 12)
         (Demo.world Sample.signed_in [Responds Sample.not_found]))
  = Throw (new_Error "File not found.").
Proof.
  destruct (downloadFile_outcomes (browser := Chrome.chrome) (body := Sample.pdf_body) (VNum 12)
              (Demo.world Sample.signed_in [Responds Sample.not_found])
              Sample.not_found [] eq_refl eq_refl) as (_ & _ & _ & _ & H & _).
  exact (H eq_refl).
Defined.

(** The draft lacks six required fields; generating its PDF nevertheless
    creates the client and then asks for the document. *)
Lemma generatePDF_submits_the_form_witness :
  let w := Demo.world Sample.signed_in [Responds Demo.created; Responds Sample.pdf_ready] in
  length (missingFields Demo.draft) = 6%nat
  /\ map req_url (requests (snd (generatePDF (browser := Chrome.chrome) Demo.draft w)))
     = ["http://localhost:4002/api/clients/";
        "http://localhost:4002/api/clients/9/generate-intake-pdf/"]%string
  /\ fst (generatePDF (browser := Chrome.chrome) Demo.draft w)
     = Return (VStr "/media/intake/9.pdf").
Proof.
  intros w.
  destruct (generatePDF_submits_the_form (browser := Chrome.chrome) Demo.draft w
              eq_refl eq_refl eq_refl) as (_ & _ & H).
  destruct (submitClientIntake (browser := Chrome.chrome) Demo.draft w) as [r1 w1] eqn:E1.
  assert (r1 = Return (Json (VObj [("id", VNum 9)]))) as ->
    by (apply (f_equal fst) in E1; vm_compute in E1; congruence).
  destruct (H _ _ eq_refl eq_refl) as [Hrq Hres].
  split; [reflexivity|]. split.
  - rewrite Hrq. apply (f_equal snd) in E1. cbn [snd] in E1. subst w1.
    vm_compute. reflexivity.
  - destruct (makeRequest (browser := Chrome.chrome)
                (intake_pdf_url (browser := Chrome.chrome) (VObj [("id", VNum 9)])) POST w1)
      as [r2 w2] eqn:E2.
    assert (r2 = Return (Json (VObj [("document",
                                      VObj [("pdf_url", VStr "/media/intake/9.pdf")])]))) as ->.
    { apply (f_equal snd) in E1. cbn [snd] in E1. subst w1.
      apply (f_equal fst) in E2. vm_compute in E2. congruence. }
    rewrite (Hres _ _ eq_refl eq_refl eq_refl). reflexivity.
Defined.

Section IntakeSubmit.
Context {browser : Browser}.

Lemma spread_one a k v : spread a [(k, v)] = alist_set k v a.
Proof. done. Qed.

Lemma dispatch_isSubmitting b w :
  get (formState (dispatch (SET_FIELD "isSubmitting" (VBool b)) w)) "isSubmitting" = VBool b.
Proof.
  unfold dispatch, formReducer. cbn [formState set_formState].
  rewrite spread_one. unfold get. by rewrite alist_lookup_set_eq.
Qed.

(** X14.  [onSubmit] of the intake form never rejects.  It ends with
    [isSubmitting] false and shows exactly one alert.  After a successful
    submission the form state is reset to [isSubmitting: false] alone and the
    form values to the defaults; after a failure the form values are kept and
    the form state is the one at the start of the submission with
    [isSubmitting] false. *)
Theorem onSubmit_always_settles (data : value) (w : World) :
  let w' := snd (onSubmit data w) in
  fst (onSubmit data w) = Return tt
  /\ get (formState w') "isSubmitting" = VBool false
  /\ (exists msg, alerts w' = alerts w ++ [msg])
  /\ (forall response, fst (submit_attempt data w) = Return response ->
        formState w' = VObj [("isSubmitting", VBool false)]
        /\ formValues w' = defaultValues)
  /\ (forall e, fst (submit_attempt data w) = Throw e ->
        formValues w' = formValues w
        /\ formState w' = formState (dispatch (SET_FIELD "isSubmitting" (VBool false))
                                        (submitting w))).
Proof.
  cbn zeta.
  assert (exists w1, snd (onSubmit data w)
                     = dispatch (SET_FIELD "isSubmitting" (VBool false)) w1
            /\ match fst (submit_attempt data w) with
               | Return _ => formState w1 = VObj [] /\ formValues w1 = defaultValues
               | Throw _ => formState w1 = formState (submitting w)
                            /\ formValues w1 = formValues w
               end) as (w1 & Hw1 & Hst).
  { unfold onSubmit, submit_attempt, submitting.
    unfold finally, try_catch, bind, modify, throw, ret, alert, reset.
    destruct (0 <? length (missingFields data))%nat eqn:Hm; cbn beta iota zeta.
    - rewrite saveOffline_eq. cbn [fst snd].
      destruct (storage_write "client_intake_form" data _);
        cbn beta iota zeta delta [fst snd]; eexists; (split; [reflexivity|done]).
    - assert (forall r w2, submitClientIntake data
                 (dispatch (SET_FIELD "isSubmitting" (VBool true)) w) = (r, w2) ->
               formState w2 = formState (dispatch (SET_FIELD "isSubmitting" (VBool true)) w)
               /\ formValues w2 = formValues w) as Hfr.
      { intros r w2 E.
        destruct (valid_date (get data "pilot_start_date")) eqn:Hs;
          [destruct (valid_date (get data "pilot_end_date")) eqn:He|].
        - rewrite submitClientIntake_eq in E; [done..|].
          destruct (makeRequest_frame "/clients/" (clients_post data)
                      (dispatch (SET_FIELD "isSubmitting" (VBool true)) w))
            as (_ & H1 & H2 & _).
          rewrite E in H1, H2. done.
        - revert E. unfold submitClientIntake, bind.
          destruct (get data "pilot_start_date"); try done;
            destruct (get data "pilot_end_date"); try done; cbn; by intros [= <- <-].
        - revert E. unfold submitClientIntake, bind.
          destruct (get data "pilot_start_date"); try done; cbn; by intros [= <- <-]. }
      destruct (submitClientIntake data _) as [[resp|e] w2] eqn:E; cbn beta iota zeta;
        destruct (Hfr _ _ eq_refl) as [Hf1 Hf2].
      + rewrite saveOffline_eq. cbn [fst snd].
        destruct (storage_write "client_intake_form" VNull _);
          cbn beta iota zeta delta [fst snd]; eexists; (split; [reflexivity|done]).
      + rewrite saveOffline_eq. cbn [fst snd].
        destruct (storage_write "client_intake_form" data _);
          cbn beta iota zeta delta [fst snd]; eexists; (split; [reflexivity|done]). }
  destruct (onSubmit_eq data w) as (Hret & _ & Hal).
  destruct (submit_attempt_frame data w) as (Hal2 & _ & _).
  split; [done|].
  rewrite Hw1. split; [apply dispatch_isSubmitting|].
  split.
  { rewrite -Hw1. destruct (fst (submit_attempt data w)); destruct Hal as [-> _];
      rewrite Hal2; by eexists. }
  split.
  - intros response Hr. rewrite Hr in Hst. destruct Hst as [Hs Hv].
    unfold dispatch, formReducer. cbn [formState formValues set_formState].
    by rewrite Hs Hv.
  - intros e He. rewrite He in Hst. destruct Hst as [Hs Hv].
    unfold dispatch at 1 2, formReducer. cbn [formState formValues set_formState].
    by rewrite Hs Hv.
Qed.

(** X15.  When no required field is missing but [pilot_start_date] or
    [pilot_end_date] holds a value that is neither absent nor a Date (the
    text a restored draft carries), [onSubmit] sends no request:
    [submitClientIntake] throws a TypeError before it reaches the network,
    and the alert reports that error as a failed submission. *)
Theorem text_date_blocks_submit (data : value) (w : World) :
  missingFields data = [] ->
  valid_date (get data "pilot_start_date") = false
  \/ valid_date (get data "pilot_end_date") = false ->
  let w' := snd (onSubmit data w) in
  requests w' = requests w
  /\ exists e, fst (submit_attempt data w) = Throw e
               /\ err_name e = "TypeError"%string
               /\ alerts w' = alerts w ++ [failure_alert e].
Proof.
  intros Hm Hdate. cbn zeta.
  destruct (onSubmit_eq data w) as (_ & Hrq & Hal).
  destruct (submit_attempt_frame data w) as (Hal2 & _ & _).
  assert (exists e, submit_attempt data w = (Throw e, submitting w)
                    /\ err_name e = "TypeError"%string) as (e & He & Hname).
  { unfold submit_attempt. rewrite Hm. cbn [length Nat.ltb Nat.leb].
    unfold submitClientIntake, bind.
    destruct (get data "pilot_start_date"); cbn [iso_date_of throw ret] in *;
      try (by eexists);
      destruct (get data "pilot_end_date"); cbn [iso_date_of throw ret] in *;
      try (by eexists); by destruct Hdate. }
  rewrite He in Hrq, Hal, Hal2. cbn [fst snd] in *. destruct Hal as [Hal _].
  split; [by rewrite Hrq|]. exists e. split; [by rewrite He|]. split; [done|].
  by rewrite Hal Hal2.
Qed.

End IntakeSubmit.

Section FileSelection.
Context {browser : Browser}.

Lemma accepted_validateFile file :
  validateFile file = (if accepted file then Return true
                       else match validateFile file with
                            | Throw e => Throw e
                            | Return _ => Return true
                            end)
  /\ (accepted file = false -> exists e, validateFile file = Throw e).
Proof.
  unfold accepted.
  destruct (validateFile_cases file) as [(_ & _ & Hv & Hb)|(_ & [e He] & Hb)];
    rewrite Hb.
  - by rewrite Hv.
  - rewrite He. split; [done|]. by exists e.
Qed.

Lemma handleFileSelect_fold files valid errors :
  fold_left
    (fun '(validFiles, errors) file =>
       match validateFile file with
       | Return _ => (validFiles ++ [file], errors)
       | Throw error => (validFiles, errors ++ [message error])
       end)
    files (valid, errors)
  = (valid ++ List.filter accepted files, errors ++ flat_map rejection files).
Proof.
  revert valid errors. induction files as [|file files IH]; intros valid errors; simpl.
  - by rewrite !app_nil_r.
  - unfold rejection at 1.
    destruct (accepted_validateFile file) as [_ Hrej].
    destruct (accepted file) eqn:Hacc.
    + assert (validateFile file = Return true) as ->.
      { destruct (validateFile_cases file) as [(_ & _ & Hv & _)|(_ & _ & Hb)]; [done|].
        unfold accepted in Hacc. congruence. }
      rewrite IH. by rewrite -app_assoc.
    + destruct (Hrej eq_refl) as [e ->]. rewrite IH. by rewrite -app_assoc.
Qed.

(** X16.  [handleFileSelect] appends to the selection exactly the
    files that pass [validateFile], in their order, and logs one message for
    each of the others, in their order: every file is kept or reported.
    A file passes when its size is at most 10 MB and its type is one of the
    allowed types. *)
Theorem handleFileSelect_keeps_accepted_files (files selected : list File) :
  fst (handleFileSelect files selected) = selected ++ List.filter accepted files
  /\ snd (handleFileSelect files selected) = flat_map rejection files
  /\ (length (fst (handleFileSelect files selected))
      + length (snd (handleFileSelect files selected))
      = length selected + length files)%nat
  /\ (forall file, accepted file = true <->
        file_size file <= maxSize /\ In (file_type file) allowedTypes).
Proof.
  unfold handleFileSelect.
  rewrite (handleFileSelect_fold files [] []). cbn [fst snd app].
  split; [done|]. split; [done|]. split.
  - rewrite length_app. induction files as [|file files IH]; simpl; [lia|].
    unfold rejection at 1. destruct (accepted_validateFile file) as [_ Hrej].
    destruct (accepted file) eqn:Hacc.
    + assert (validateFile file = Return true) as ->.
      { destruct (validateFile_cases file) as [(_ & _ & Hv & _)|(_ & _ & Hb)]; [done|].
        unfold accepted in Hacc. congruence. }
      simpl. lia.
    + destruct (Hrej eq_refl) as [e ->]. simpl. lia.
  - intros file. unfold accepted. rewrite andb_true_iff Z.leb_le.
    by rewrite array_includes_In.
Qed.

End FileSelection.

(** A draft with a start date, saved and read back: the date comes back as
    text, and submitting the restored form sends nothing. *)
Lemma text_date_blocks_submit_witness :
  let saved := snd (saveOffline (browser := Chrome.chrome) "client_intake_form"
                      Demo.complete_form (Demo.world Demo.empty_storage [])) in
  exists restored,
    fst (syncOffline (browser := Chrome.chrome) "client_intake_form" saved) = Return restored
    /\ get restored "pilot_start_date" = VStr "2024-01-01T00:00:00.000Z"
    /\ requests (snd (onSubmit (browser := Chrome.chrome) restored
                        (Demo.world Demo.empty_storage [Responds Demo.created])))
       = [].
Proof.
  intros saved. eexists. split; [vm_compute; reflexivity|]. split; [reflexivity|].
  match goal with
  | |- requests (snd (onSubmit ?d ?w)) = _ =>
      destruct (text_date_blocks_submit (browser := Chrome.chrome) d w) as [H _]
  end.
  - vm_compute. reflexivity.
  - left. reflexivity.
  - exact H.
Defined.

Section Pagination.
Import FileList.

Lemma paginatedFiles_take_drop {A} (l : list A) (page : Z) :
  1 <= page ->
  paginatedFiles l page = take 12 (drop (12 * Z.to_nat (page - 1)) l).
Proof.
  intros Hp. unfold paginatedFiles, array_slice, startIndex, itemsPerPage.
  set (len := Z.of_nat (length l)).
  assert (0 <= len) by lia.
  destruct ((page - 1) * 12 <? 0) eqn:E1; [apply Z.ltb_lt in E1; lia|].
  destruct ((page - 1) * 12 + 12 <? 0) eqn:E2; [apply Z.ltb_lt in E2; lia|].
  assert (Z.to_nat (Z.min ((page - 1) * 12) len)
          = Nat.min (12 * Z.to_nat (page - 1)) (length l)) as Hk by lia.
  rewrite Hk.
  destruct (Nat.le_gt_cases (12 * Z.to_nat (page - 1)) (length l)) as [Hle|Hgt].
  - rewrite Nat.min_l; [done|].
    assert (Z.to_nat (Z.min ((page - 1) * 12 + 12) len - Z.min ((page - 1) * 12) len)
            = Nat.min 12 (length l - 12 * Z.to_nat (page - 1))) as -> by lia.
    rewrite -(length_drop l (12 * Z.to_nat (page - 1))).
    set (rest := drop (12 * Z.to_nat (page - 1)) l).
    destruct (Nat.le_gt_cases 12 (length rest)).
    + by rewrite Nat.min_l.
    + rewrite Nat.min_r; [lia|]. rewrite !take_ge; [lia..|]. done.
  - rewrite Nat.min_r; [lia|]. rewrite !drop_ge; [lia..|]. by rewrite !take_nil.
Qed.

Lemma paginatedTotalPages_bounds {A} (l : list A) :
  let n := paginatedTotalPages l in
  0 <= n /\ 12 * (n - 1) < Z.of_nat (length l) <= 12 * n.
Proof.
  unfold paginatedTotalPages, itemsPerPage. cbn zeta.
  set (len := Z.of_nat (length l)). assert (0 <= len) by lia.
  pose proof (Z.div_mod (len + 12 - 1) 12 ltac:(lia)).
  pose proof (Z.mod_pos_bound (len + 12 - 1) 12 ltac:(lia)). lia.
Qed.

Lemma concat_pages {A} (l : list A) (n : nat) :
  (length l <= 12 * n)%nat ->
  concat (map (fun i => take 12 (drop (12 * i) l)) (seq 0 n)) = l.
Proof.
  revert l. induction n as [|n IH]; intros l Hl.
  - simpl. destruct l; [done|simpl in Hl; lia].
  - rewrite -cons_seq. cbn [map concat]. rewrite -seq_shift map_map.
    change (12 * 0)%nat with 0%nat. rewrite drop_0.
    rewrite -{3}(take_drop 12 l). f_equal.
    etrans; [|apply (IH (drop 12 l)); rewrite length_drop; lia].
    f_equal. apply map_ext. intros i. rewrite drop_drop. f_equal. f_equal. lia.
Qed.

(** X17.  The pages 1 to [paginatedTotalPages] of the file list, one
    after the other, are the filtered files: no file is lost or shown twice.
    A page has at most 12 files, every page up to the last has at least one,
    every page before the last has 12, a page past the last is empty, and
    there are no pages exactly when no file passes the filter. *)
Theorem pages_partition_the_files (filtered : list value) :
  let total := paginatedTotalPages filtered in
  concat (map (paginatedFiles filtered) (pages total)) = filtered
  /\ (forall page, (length (paginatedFiles filtered page) <= 12)%nat)
  /\ (forall page, 1 <= page <= total -> paginatedFiles filtered page <> [])
  /\ (forall page, 1 <= page < total -> length (paginatedFiles filtered page) = 12%nat)
  /\ (forall page, total < page -> paginatedFiles filtered page = [])
  /\ (total = 0 <-> filtered = []).
Proof.
  cbn zeta. destruct (paginatedTotalPages_bounds filtered) as [Hn Hb]. cbn zeta in Hb.
  set (total := paginatedTotalPages filtered) in *. clearbody total.
  split; [|split; [|split; [|split; [|split]]]].
  - unfold pages. rewrite map_map.
    rewrite (map_ext _ (fun i => take 12 (drop (12 * i) filtered))).
    { intros i. rewrite paginatedFiles_take_drop; [lia|]. do 3 f_equal. lia. }
    apply concat_pages. lia.
  - intros page. unfold paginatedFiles, array_slice. rewrite length_take.
    unfold startIndex, itemsPerPage.
    set (len := Z.of_nat (length filtered)). assert (0 <= len) by lia.
    destruct ((page - 1) * 12 <? 0) eqn:E1;
      destruct ((page - 1) * 12 + 12 <? 0) eqn:E2;
      try apply Z.ltb_lt in E1; try apply Z.ltb_ge in E1;
      try apply Z.ltb_lt in E2; try apply Z.ltb_ge in E2; lia.
  - intros page Hp. rewrite paginatedFiles_take_drop; [lia|].
    intros Hnil. apply (f_equal length) in Hnil. rewrite length_take length_drop in Hnil.
    cbn [length] in Hnil. lia.
  - intros page Hp. rewrite paginatedFiles_take_drop; [lia|].
    rewrite length_take length_drop. lia.
  - intros page Hp. rewrite paginatedFiles_take_drop; [lia|].
    rewrite drop_ge; [lia|]. done.
  - split.
    + intros H0. destruct filtered; [done|]. simpl in Hb. lia.
    + intros ->. simpl in Hb. lia.
Qed.

(** X18.  Typing a search term does not change the page.  When,
    with the files loaded, the files that pass the new filter fill fewer
    pages than the current page number, the list shows no file although some
    match, and not the [No files found] text; the page selector is shown
    only when there is more than one page, so that with at most 12 matches
    there is none. *)
Theorem narrowed_search_keeps_the_page `{text : Text} (st : State) (term : string)
    (filtered : list value) :
  filteredFiles (files st) term (fileTypeFilter st) = Return filtered ->
  filtered <> [] ->
  paginatedTotalPages filtered < page st ->
  page (setSearchTerm term st) = page st
  /\ render (setSearchTerm term st)
     = Return (Shown [] (if 1 <? paginatedTotalPages filtered
                         then Some (paginatedTotalPages filtered, page st) else None))
  /\ ((length filtered <= 12)%nat ->
        render (setSearchTerm term st) = Return (Shown [] None)).
Proof.
  intros Hf Hne Hp. split; [done|].
  assert (render (setSearchTerm term st)
          = Return (Shown [] (if 1 <? paginatedTotalPages filtered
                              then Some (paginatedTotalPages filtered, page st) else None)))
    as Hr.
  { unfold render. cbn [files searchTerm fileTypeFilter page setSearchTerm]. rewrite Hf.
    unfold listing. destruct filtered as [|f filtered]; [done|]. cbn [length Nat.eqb].
    destruct (paginatedTotalPages_bounds (f :: filtered)) as [Hn Hb].
    rewrite paginatedFiles_take_drop; [lia|]. rewrite drop_ge; [lia|]. done. }
  split; [done|]. intros Hlen. rewrite Hr.
  destruct (paginatedTotalPages_bounds filtered) as [Hn Hb]. cbn zeta in Hb.
  assert ((1 <? paginatedTotalPages filtered) = false) as -> by (apply Z.ltb_ge; lia).
  done.
Qed.

End Pagination.

Section DeletingAFile.
Import FileList.
Context {browser : Browser}.

(** X19.  [handleDeleteConfirm] does nothing without a file to
    delete; otherwise it never rejects and keeps the page.  When the [DELETE]
    request succeeds, the files whose id equals (strictly) that of the file,
    a primitive, leave the list, the dialog closes and the file to delete is
    cleared; when it fails the list, the dialog and the file to delete stay
    and [error] holds the message.  With storage available the request goes
    to [/attachments/<id>/]. *)
Theorem handleDeleteConfirm_removes_the_file (st : State) :
  (truthy (fileToDelete st) = false -> handleDeleteConfirm st = (Return tt, st))
  /\ (truthy (fileToDelete st) = true ->
        let id := get (fileToDelete st) "id" in
        let request := deleteFile id (hooks st) in
        let st' := snd (handleDeleteConfirm st) in
        fst (handleDeleteConfirm st) = Return tt
        /\ hooks st' = snd request
        /\ page st' = page st
        /\ (forall response, fst request = Return response -> primitive id = true ->
              files st' = List.filter (fun f => negb (strict_equal (get f "id") id)) (files st)
              /\ showDeleteDialog st' = false
              /\ fileToDelete st' = VNull
              /\ error st' = error st)
        /\ (forall e, fst request = Throw e ->
              files st' = files st
              /\ showDeleteDialog st' = showDeleteDialog st
              /\ fileToDelete st' = fileToDelete st
              /\ error st' = err_message_or e "Delete failed")
        /\ (available (localStorage (hooks st)) = true ->
              requests (snd request)
              = requests (hooks st) ++
                  [mkRequest (API_BASE_URL +:+ "/attachments/" +:+ to_String id +:+ "/")
                     "DELETE"
                     (headers_spread [("Content-Type", "application/json")]%string
                        (authorization (alist_lookup "auth_token"
                                          (items (localStorage (hooks st))))))
                     NoBody])).
Proof.
  unfold handleDeleteConfirm. split.
  - by intros ->.
  - intros Ht. rewrite Ht. cbn [negb]. cbn zeta.
    unfold try_catch, bind, modify, call.
    split; [|split; [|split; [|split; [|split]]]].
    1-5: destruct (deleteFile (get (fileToDelete st) "id") (hooks st)) as [[resp|e] w1];
      cbn; try done; try (by intros ? [= <-]); by intros ? [= <-] _.
    intros Ha. unfold deleteFile.
    destruct (makeRequest_frame ("/attachments/" +:+ to_String (get (fileToDelete st) "id")
                                   +:+ "/")
                (mkOptions (Some "DELETE"%string) [] NoBody) (hooks st))
      as (_ & _ & _ & _ & Hrq & _).
    by rewrite Ha in Hrq.
Qed.

End DeletingAFile.

(** On page 3 of thirty files, searching for the budget sheet finds it —
    and shows an empty page without a page selector. *)
Lemma narrowed_search_keeps_the_page_witness :
  FileList.filteredFiles (text := SampleFiles.ascii_text)
    SampleFiles.thirty "budget" "all"
  = Return [SampleFiles.attachment 30 "Budget.xlsx" "spreadsheet"]
  /\ FileList.render (text := SampleFiles.ascii_text)
       (FileList.setSearchTerm "budget" SampleFiles.on_page_3)
     = Return (FileList.Shown [] None).
Proof.
  assert (FileList.filteredFiles (text := SampleFiles.ascii_text)
            SampleFiles.thirty "budget" "all"
          = Return [SampleFiles.attachment 30 "Budget.xlsx" "spreadsheet"]) as Hf
    by (vm_compute; reflexivity).
  split; [exact Hf|].
  destruct (narrowed_search_keeps_the_page (text := SampleFiles.ascii_text)
              SampleFiles.on_page_3 "budget" _ Hf) as (_ & _ & H).
  - discriminate.
  - vm_compute. reflexivity.
  - apply H. cbn. lia.
Defined.

Section Progress.
Import PilotAcceptanceForm.

Lemma item_checked_change st key b k :
  item_checked (handleChecklistChange key b st) k
  = if String.eqb k key then b else item_checked st k.
Proof.
  unfold item_checked, handleChecklistChange. cbn [formReducer checklist].
  rewrite lookup_union. destruct (String.eqb k key) eqn:E.
  - apply String.eqb_eq in E. subst k.
    rewrite lookup_singleton_eq. by destruct (checklist st !! key).
  - apply String.eqb_neq in E.
    rewrite lookup_singleton_ne; [done|]. by destruct (checklist st !! k).
Qed.

Lemma filter_change_absent (p : string -> bool) key b (l : list string) :
  ~ In key l ->
  List.filter (fun k => if String.eqb k key then b else p k) l = List.filter p l.
Proof.
  intros Hnot. apply filter_ext_in_keys. intros k Hk.
  destruct (String.eqb k key) eqn:E; [|done]. apply String.eqb_eq in E. by subst.
Qed.

Lemma count_change (p : string -> bool) key b (l : list string) :
  List.NoDup l -> In key l ->
  Z.of_nat (length (List.filter (fun k => if String.eqb k key then b else p k) l))
  = Z.of_nat (length (List.filter p l)) + Z.b2z b - Z.b2z (p key).
Proof.
  induction 1 as [|x l Hx Hl IH]; [done|]. intros [->|Hin].
  - cbn [List.filter]. rewrite String.eqb_refl.
    rewrite filter_change_absent; [done|].
    destruct b, (p key); cbn [length Z.b2z]; lia.
  - cbn [List.filter].
    assert (String.eqb x key = false) as -> by (apply String.eqb_neq; by intros ->).
    specialize (IH Hin). destruct (p x); cbn [length]; lia.
Qed.

Lemma completion_of_count st :
  reachable st ->
  calculateCompletion st = (200 * Z.of_nat (length (checked_items st)) + 12) / 24.
Proof.
  intros Hst. unfold calculateCompletion, Math_round_percent.
  by rewrite completedItems_checked.
Qed.

Lemma checked_items_change st key b :
  reachable st -> key ∈ CHECKLIST_ITEMS ->
  Z.of_nat (length (checked_items (handleChecklistChange key b st)))
  = Z.of_nat (length (checked_items st)) + Z.b2z b - Z.b2z (item_checked st key).
Proof.
  intros Hst Hkey. unfold checked_items.
  rewrite (filter_ext_in_keys _ (fun k => if String.eqb k key then b
                                         else item_checked st k)).
  { intros k _. apply item_checked_change. }
  apply count_change; [|by apply list_elem_of_In].
  apply NoDup_ListNoDup, CHECKLIST_ITEMS_NoDup.
Qed.

(** X20.  On the acceptance form, for an item of the checklist:
    ticking a box that was not ticked raises the completion percentage,
    unticking a ticked box lowers it, repeating the current value leaves it,
    and ticking then restoring the box brings the percentage back.  The
    percentage is 0 exactly when no item is ticked, and a change of one box
    leaves the other boxes as they were. *)
Theorem completion_follows_the_checkboxes (st : FormState) (key : string) :
  reachable st -> key ∈ CHECKLIST_ITEMS ->
  let checked := handleChecklistChange key true st in
  let unchecked := handleChecklistChange key false st in
  (item_checked st key = false -> calculateCompletion st < calculateCompletion checked)
  /\ (item_checked st key = true -> calculateCompletion checked = calculateCompletion st)
  /\ (item_checked st key = true -> calculateCompletion unchecked < calculateCompletion st)
  /\ (item_checked st key = false -> calculateCompletion unchecked = calculateCompletion st)
  /\ calculateCompletion (handleChecklistChange key (item_checked st key) checked)
     = calculateCompletion st
  /\ (calculateCompletion st = 0 <-> checked_items st = [])
  /\ (forall k, k <> key -> item_checked checked k = item_checked st k
                            /\ item_checked unchecked k = item_checked st k).
Proof.
  intros Hst Hkey checked unchecked.
  assert (reachable checked) as Hc by by apply reach_check.
  assert (reachable unchecked) as Hu by by apply reach_check.
  rewrite !completion_of_count; [done..| by apply reach_check|].
  pose proof (checked_items_change st key true Hst Hkey) as H1. fold checked in H1.
  pose proof (checked_items_change st key false Hst Hkey) as H2. fold unchecked in H2.
  pose proof (checked_items_change checked key (item_checked st key) Hc Hkey) as H3.
  assert (item_checked checked key = true) as H4.
  { unfold checked. rewrite item_checked_change. by rewrite String.eqb_refl. }
  rewrite H4 in H3.
  set (c := Z.of_nat (length (checked_items st))) in *.
  set (c1 := Z.of_nat (length (checked_items checked))) in *.
  set (c2 := Z.of_nat (length (checked_items unchecked))) in *.
  set (c3 := Z.of_nat (length (checked_items
                 (handleChecklistChange key (item_checked st key) checked)))) in *.
  assert (0 <= c) by lia. assert (0 <= c2) by lia.
  repeat split.
  - intros E. rewrite E in H1. cbn in H1. rewrite H1.
    Z.to_euclidean_division_equations. lia.
  - intros E. rewrite E in H1. cbn in H1. rewrite H1. f_equal. lia.
  - intros E. rewrite E in H2. cbn in H2. rewrite H2.
    Z.to_euclidean_division_equations. lia.
  - intros E. rewrite E in H2. cbn in H2. rewrite H2. f_equal. lia.
  - destruct (item_checked st key); cbn in H1, H3; rewrite H3 H1; f_equal; lia.
  - intros E. destruct (checked_items st); [done|]. subst c. cbn [length] in E.
    revert E. Z.to_euclidean_division_equations. lia.
  - intros E. subst c. by rewrite E.
  - unfold checked. rewrite item_checked_change.
    by assert (String.eqb k key = false) as -> by by apply String.eqb_neq.
  - unfold unchecked. rewrite item_checked_change.
    by assert (String.eqb k key = false) as -> by by apply String.eqb_neq.
Qed.

End Progress.

(** From the empty form, ticking one box shows 8 percent. *)
Lemma completion_follows_the_checkboxes_witness :
  PilotAcceptanceForm.calculateCompletion PilotAcceptanceForm.initialState
  < PilotAcceptanceForm.calculateCompletion
      (PilotAcceptanceForm.handleChecklistChange "mobile_friendly" true
         PilotAcceptanceForm.initialState).
Proof.
  destruct (completion_follows_the_checkboxes PilotAcceptanceForm.initialState
              "mobile_friendly" PilotAcceptanceForm.reach_init) as [H _].
  - apply (bool_decide_unpack _). by vm_compute.
  - apply H. reflexivity.
Defined.

Section HandoverProgress.
Import PilotHandoverForm.

(** The arithmetic of the percentage is that of IEEE doubles: for a
    checklist of 25 boxes it comes out as four times the count. *)
Lemma percentage_of_25 c : (c <= 25)%nat -> percentage c 25 = 4 * Z.of_nat c.
Proof.
  intros Hc.
  assert (forallb (fun c => percentage c 25 =? 4 * Z.of_nat c) (seq 0 26) = true) as H
    by (vm_compute; reflexivity).
  rewrite forallb_forall in H. apply Z.eqb_eq, H, in_seq. lia.
Qed.

Example percentage_of_12 :
  map (fun c => percentage c 12) (seq 0 13)
  = map (fun c => PilotAcceptanceForm.Math_round_percent c 12) (seq 0 13).
Proof. vm_compute. reflexivity. Qed.

Ltac twenty_five b :=
  do 25 (destruct b as [|? b]; [discriminate|]); destruct b; [|discriminate].

Lemma get_with_prop_eq st k v : get (with_prop st k v) k = v.
Proof. unfold get, with_prop. by rewrite alist_lookup_set_eq. Qed.

Lemma get_with_prop_ne st k k' v :
  k <> k' -> is_object st -> get (with_prop st k v) k' = get st k'.
Proof.
  intros Hne [props ->]. unfold get, with_prop. cbn [own_props].
  by rewrite alist_lookup_set_ne.
Qed.

Ltac this_box j := exists j; (split; [lia|]); cbn; done.

(** Ticking the box of an entry rewrites that entry and nothing else. *)
Lemma tick_bits st bits section field v (b : bool) st' :
  is_object st -> length bits = 25%nat -> get st "checklist" = checklist_of bits ->
  In (section, field, v) (checkboxes st) ->
  updateChecklistSection section field (VBool b) st = Return st' ->
  is_object st'
  /\ exists j, (j < 25)%nat /\ bits !! j = Some (truthy v)
               /\ v = VBool (truthy v)
               /\ get st' "checklist" = checklist_of (<[j := b]> bits).
Proof.
  intros Hobj Hlen Hc Hbox Hupd.
  revert Hupd. unfold updateChecklistSection, formReducer.
  unfold checkboxes in Hbox. rewrite Hc in Hbox |- *.
  twenty_five bits. cbn [checklist_of].
  intros [= <-]. split; [by eexists|].
  rewrite get_with_prop_eq.
  cbn in Hbox.
  destruct Hbox as [[= <- <- <-]|Hbox]; [this_box 0%nat|].
  destruct Hbox as [[= <- <- <-]|Hbox]; [this_box 1%nat|].
  destruct Hbox as [[= <- <- <-]|Hbox]; [this_box 2%nat|].
  destruct Hbox as [[= <- <- <-]|Hbox]; [this_box 3%nat|].
  destruct Hbox as [[= <- <- <-]|Hbox]; [this_box 4%nat|].
  destruct Hbox as [[= <- <- <-]|Hbox]; [this_box 5%nat|].
  destruct Hbox as [[= <- <- <-]|Hbox]; [this_box 6%nat|].
  destruct Hbox as [[= <- <- <-]|Hbox]; [this_box 7%nat|].
  destruct Hbox as [[= <- <- <-]|Hbox]; [this_box 8%nat|].
  destruct Hbox as [[= <- <- <-]|Hbox]; [this_box 9%nat|].
  destruct Hbox as [[= <- <- <-]|Hbox]; [this_box 10%nat|].
  destruct Hbox as [[= <- <- <-]|Hbox]; [this_box 11%nat|].
  destruct Hbox as [[= <- <- <-]|Hbox]; [this_box 12%nat|].
  destruct Hbox as [[= <- <- <-]|Hbox]; [this_box 13%nat|].
  destruct Hbox as [[= <- <- <-]|Hbox]; [this_box 14%nat|].
  destruct Hbox as [[= <- <- <-]|Hbox]; [this_box 15%nat|].
  destruct Hbox as [[= <- <- <-]|Hbox]; [this_box 16%nat|].
  destruct Hbox as [[= <- <- <-]|Hbox]; [this_box 17%nat|].
  destruct Hbox as [[= <- <- <-]|Hbox]; [this_box 18%nat|].
  destruct Hbox as [[= <- <- <-]|Hbox]; [this_box 19%nat|].
  destruct Hbox as [[= <- <- <-]|Hbox]; [this_box 20%nat|].
  destruct Hbox as [[= <- <- <-]|Hbox]; [this_box 21%nat|].
  destruct Hbox as [[= <- <- <-]|Hbox]; [this_box 22%nat|].
  destruct Hbox as [[= <- <- <-]|Hbox]; [this_box 23%nat|].
  destruct Hbox as [[= <- <- <-]|Hbox]; [this_box 24%nat|].
  done.
Qed.

(** The shape of the checklist is kept. *)
Lemma reachable_shape st :
  reachable st ->
  is_object st /\ exists b, length b = 25%nat /\ get st "checklist" = checklist_of b.
Proof.
  induction 1 as [|st section field v b st' Hst [Hobj (bits & Hlen & Hc)] Hbox Hupd
                  |st a st' Hst [Hobj (bits & Hlen & Hc)] Hnc Hnl Ha].
  - split; [by eexists|]. exists (repeat false 25). by split.
  - destruct (tick_bits st bits section field v b st' Hobj Hlen Hc Hbox Hupd)
      as (Hobj' & j & _ & _ & _ & Hc').
    split; [done|]. exists (<[j := b]> bits). split; [by rewrite length_insert|done].
  - destruct Hobj as [props ->].
    destruct a; cbn in Ha; try (by specialize (Hnc section payload));
      try (by specialize (Hnl payload)); injection Ha as <-.
    1-5: split; [by eexists|]; exists bits; split; [done|];
      rewrite get_with_prop_ne; [done|by eexists|done].
    + split; [by eexists|]. exists (repeat false 25). by split.
    + split; [by eexists|]. by exists bits.
Qed.

Lemma count_true_insert bits j (b : bool) x :
  bits !! j = Some x ->
  Z.of_nat (count_true (<[j := b]> bits))
  = Z.of_nat (count_true bits) + Z.b2z b - Z.b2z x.
Proof.
  unfold count_true. revert j. induction bits as [|y bits IH]; intros [|j]; try done.
  - intros [= ->]. destruct b, x; simpl; lia.
  - intros Hj. specialize (IH j Hj). destruct y; simpl in *; lia.
Qed.

Lemma filter_truthy_bools bs :
  length (List.filter truthy (map VBool bs)) = count_true bs.
Proof.
  unfold count_true. induction bs as [|[] bs IH]; cbn [map List.filter truthy id length];
    by rewrite ?IH.
Qed.

Lemma count_true_app a b : count_true (a ++ b) = (count_true a + count_true b)%nat.
Proof. unfold count_true. by rewrite List.filter_app length_app. Qed.

Lemma count_in_keys sections total :
  count_in Object_keys (map VObj sections) total
  = Return (total + length (concat sections))%nat.
Proof.
  revert total. induction sections as [|fields sections IH]; intros total.
  - cbn. by rewrite Nat.add_0_r.
  - cbn [map count_in Object_keys own_props concat]. rewrite IH.
    rewrite length_app length_map. f_equal. lia.
Qed.

Lemma count_in_truthy sections total :
  count_in truthy_values (map VObj sections) total
  = Return (total + length (List.filter truthy (map snd (concat sections))))%nat.
Proof.
  revert total. induction sections as [|fields sections IH]; intros total.
  - cbn. by rewrite Nat.add_0_r.
  - cbn [map count_in truthy_values Object_values own_props concat]. rewrite IH.
    rewrite map_app List.filter_app length_app. f_equal. lia.
Qed.

Lemma ticked_in_section section (fields : list (string * value)) :
  length (List.filter (fun box : string * string * value => truthy (snd box))
            (map (fun '(field, v) => (section, field, v)) fields))
  = length (List.filter truthy (map snd fields)).
Proof.
  induction fields as [|[field v] fields IH]; [done|].
  cbn [map List.filter snd]. destruct (truthy v); cbn [length]; by rewrite IH.
Qed.

Lemma completion_of_bits b :
  length b = 25%nat ->
  forall st, get st "checklist" = checklist_of b ->
  calculateCompletionPercentage st = Return (4 * Z.of_nat (count_true b))
  /\ length (checkboxes st) = 25%nat
  /\ length (ticked st) = count_true b.
Proof.
  intros Hlen st Hc. unfold calculateCompletionPercentage, ticked, checkboxes. rewrite Hc.
  twenty_five b. cbn [checklist_of].
  pose proof (filter_truthy_bools
                [b0; b1; b2; b3; b4; b5; b6; b7; b8; b9; b10; b11; b12; b13; b14;
                 b15; b16; b17; b18; b19; b20; b21; b22; b23; b24]) as Hbits.
  cbn [map] in Hbits.
  cbn [Object_values own_props map snd].
  match goal with
  | |- context [count_in Object_keys ?l] =>
      let secs := eval cbn [map] in
        [[("domainConfigured", VBool b0); ("sslActive", VBool b1);
          ("siteLoadOk", VBool b2); ("responsiveDesign", VBool b3);
          ("noBrokenLinks", VBool b4)];
         [("homeCompleted", VBool b5); ("aboutNewsAdded", VBool b6);
          ("contactCorrect", VBool b7); ("portalLinksOk", VBool b8);
          ("socialMediaTested", VBool b9)];
         [("logoCorrect", VBool b10); ("photosOptimized", VBool b11);
          ("textProofread", VBool b12); ("infoMatchesOfficial", VBool b13)];
         [("adminCreated", VBool b14); ("restrictedAccess", VBool b15);
          ("privacyStatementIncluded", VBool b16)];
         [("trainingScheduled", VBool b17); ("trainingMaterialsReady", VBool b18);
          ("howtoInstructions", VBool b19); ("supportContactAdded", VBool b20)];
         [("browsersTested", VBool b21); ("formsTested", VBool b22);
          ("backupTaken", VBool b23); ("screenshotsCaptured", VBool b24)]] in
      change l with (map VObj secs)
  end.
  rewrite count_in_keys count_in_truthy.
  cbn [concat app map snd length Nat.add]. rewrite Hbits.
  split; [|split].
  - f_equal. change (0 <? 25)%nat with true. cbn iota. apply percentage_of_25.
    unfold count_true. etrans; [apply filter_length_le|]. done.
  - cbn [get alist_lookup String.eqb Ascii.eqb Bool.eqb default from_option id
         flat_map SECTIONS own_props].
    by rewrite !length_app !length_map.
  - cbn [get alist_lookup String.eqb Ascii.eqb Bool.eqb default from_option id
         flat_map SECTIONS own_props].
    rewrite !List.filter_app !length_app !ticked_in_section.
    cbn [map snd].
    rewrite (filter_truthy_bools [b0; b1; b2; b3; b4])
            (filter_truthy_bools [b5; b6; b7; b8; b9])
            (filter_truthy_bools [b10; b11; b12; b13])
            (filter_truthy_bools [b14; b15; b16])
            (filter_truthy_bools [b17; b18; b19; b20])
            (filter_truthy_bools [b21; b22; b23; b24]).
    cbn [List.filter length]. rewrite Nat.add_0_r. by rewrite -!count_true_app.
Qed.

(** X21.  On the handover form, as long as the state comes from
    the initial state by ticking boxes and editing the other fields, the
    checklist has 25 boxes and [calculateCompletionPercentage], computed in
    double precision as the code does, is 4 times the number of ticked boxes:
    100 exactly when every box is ticked, 0 exactly when none is, and a
    change of one box moves it by 4, up or down, or not at all. *)
Theorem handover_completion_counts_the_ticks (st : value) :
  reachable st ->
  calculateCompletionPercentage st = Return (4 * Z.of_nat (length (ticked st)))
  /\ length (checkboxes st) = 25%nat
  /\ (calculateCompletionPercentage st = Return 100 <->
        forall box, In box (checkboxes st) -> truthy (snd box) = true)
  /\ (calculateCompletionPercentage st = Return 0 <-> ticked st = [])
  /\ (forall section field v (b : bool) st',
        In (section, field, v) (checkboxes st) ->
        updateChecklistSection section field (VBool b) st = Return st' ->
        calculateCompletionPercentage st'
        = Return (4 * Z.of_nat (length (ticked st))
                  + 4 * (Z.b2z b - Z.b2z (truthy v)))).
Proof.
  intros Hst. destruct (reachable_shape st Hst) as (Hobj & bits & Hlen & Hc).
  destruct (completion_of_bits bits Hlen st Hc) as (Hcalc & Hboxes & Hticked).
  rewrite Hcalc Hticked. split; [done|]. split; [done|].
  split; [|split].
  - rewrite -Hticked. unfold ticked.
    rewrite -(filter_length_all (fun box : string * string * value => truthy (snd box))).
    rewrite Hboxes. split; [intros [= H]; lia | by intros ->].
  - rewrite -Hticked. split.
    + intros [= H]. destruct (ticked st); [done|]. cbn [length] in H. lia.
    + by intros ->.
  - intros section field v b st' Hbox Hupd.
    destruct (tick_bits st bits section field v b st' Hobj Hlen Hc Hbox Hupd)
      as (Hobj' & j & Hj & Hbit & Hv & Hc').
    assert (length (<[j := b]> bits) = 25%nat) as Hlen' by by rewrite length_insert.
    destruct (completion_of_bits (<[j := b]> bits) Hlen' st' Hc') as (-> & _ & _).
    f_equal. rewrite (count_true_insert bits j b _ Hbit). lia.
Qed.

End HandoverProgress.

(** Two boxes ticked out of twenty-five: 8 percent. *)
Lemma handover_completion_counts_the_ticks_witness :
  PilotHandoverForm.calculateCompletionPercentage Handover.two_ticked = Return 8.
Proof.
  destruct (handover_completion_counts_the_ticks Handover.two_ticked) as [H _].
  - apply (PilotHandoverForm.reach_tick Handover.one_ticked
             "finalTestRun" "backupTaken" (VBool false) true).
    + apply (PilotHandoverForm.reach_tick PilotHandoverForm.initialFormState
               "corePages" "contactCorrect" (VBool false) true).
      * apply PilotHandoverForm.reach_initial.
      * vm_compute. do 7 right. left. reflexivity.
      * reflexivity.
    + vm_compute. do 23 right. left. reflexivity.
    + reflexivity.
  - rewrite H. reflexivity.
Defined.

Section UploadFacts.
Context {browser : Browser}.
Import FileUploader.

Lemma array_filter_from_above {A} (l : list A) (j k : nat) :
  (k < j)%nat -> array_filter_from (fun _ index => negb (index =? k)%nat) j l = l.
Proof.
  revert j. induction l as [|y l IH]; intros j Hjk; [done|].
  cbn [array_filter_from].
  destruct (Nat.eqb_spec j k) as [->|_]; [lia|]. cbn [negb].
  f_equal. apply IH. lia.
Qed.

Lemma array_filter_from_delete {A} (l : list A) (j i : nat) :
  array_filter_from (fun _ index => negb (index =? j + i)%nat) j l = delete i l.
Proof.
  revert j i. induction l as [|x l IH]; intros j i; [done|].
  cbn [array_filter_from]. destruct i as [|i].
  - rewrite Nat.add_0_r Nat.eqb_refl. cbn [negb].
    apply array_filter_from_above. lia.
  - destruct (Nat.eqb_spec j (j + S i)) as [?|_]; [lia|]. cbn [negb].
    replace (j + S i)%nat with (S j + i)%nat by lia.
    by rewrite IH.
Qed.

Lemma array_filter_index_delete {A} (l : list A) (i : nat) :
  array_filter_index (fun _ index => negb (index =? i)%nat) l = delete i l.
Proof. apply (array_filter_from_delete l 0 i). Qed.

Lemma delete_beyond {A} (l : list A) (i : nat) : (length l <= i)%nat -> delete i l = l.
Proof.
  revert i. induction l as [|x l IH]; intros i Hi; [done|].
  cbn [length] in Hi. destruct i as [|i]; [lia|].
  cbn [delete list_delete]. f_equal. apply IH. lia.
Qed.

Lemma midway_start (original : list File) : midway original 0 original original.
Proof. exists [], original. repeat split; try done. lia. Qed.

Lemma midway_step original i f remaining current :
  midway original i (f :: remaining) current ->
  midway original (S i) remaining (delete i current).
Proof.
  intros (pre & rest & -> & Hle & Hi & Hlen & Hodd). cbn [length] in Hlen.
  destruct rest as [|x [|y rest]].
  - exists pre, []. rewrite delete_beyond; [rewrite length_app; cbn [length]; lia|].
    split; [done|]. split; [lia|]. split; [done|]. split; [cbn [length]; lia|]. exact Hodd.
  - rewrite -(Hi ltac:(done)) delete_middle.
    exists pre, []. split; [by rewrite app_nil_r|]. split; [lia|]. split; [done|].
    split; [cbn [length]; lia|]. exact Hodd.
  - rewrite -(Hi ltac:(done)) delete_middle.
    exists (pre ++ [y]), rest. split; [by rewrite -app_assoc|].
    rewrite length_app. cbn [length] in *.
    split; [lia|]. split; [lia|]. split; [lia|].
    rewrite -app_assoc. exact Hodd.
Qed.

Lemma midway_end original i current :
  midway original i [] current -> current = odd_indexed original.
Proof.
  intros (pre & rest & -> & _ & _ & Hlen & Hodd). cbn [length] in Hlen.
  destruct rest; [done | cbn [length] in Hlen; lia].
Qed.

Lemma all_done_step original i f progress :
  original !! i = Some f ->
  all_done original i progress ->
  all_done original (S i) (alist_set (fileId f i) 100 (alist_set (fileId f i) 0 progress)).
Proof.
  intros Hf Hdone j file Hj Hfile.
  destruct (String.eqb (fileId file j) (fileId f i)) eqn:E.
  - apply String.eqb_eq in E. rewrite E. apply alist_lookup_set_eq.
  - apply String.eqb_neq in E. rewrite !alist_lookup_set_ne; try done.
    apply Hdone; [|done].
    destruct (Nat.eq_dec j i) as [->|]; [|lia]. congruence.
Qed.

(** A loop whose turns all complete keeps an invariant [P] of the index, the
    files still to come and the state. *)
Lemma for_of_indexed (P : nat -> list File -> State -> Prop)
    (body : nat * File -> JS State unit) (files : list File) (k : nat) (u : State) :
  (forall i f rest u, P i (f :: rest) u ->
     exists u', body (i, f) u = (Return tt, u') /\ P (S i) rest u') ->
  P k files u ->
  exists u', for_of (imap (fun j f => ((k + j)%nat, f)) files) body u = (Return tt, u')
             /\ P (k + length files)%nat [] u'.
Proof.
  intros Hstep. revert k u. induction files as [|f files IH]; intros k u HP.
  - exists u. cbn [length]. by rewrite Nat.add_0_r.
  - rewrite imap_cons. cbn [for_of]. unfold bind at 1. rewrite Nat.add_0_r.
    destruct (Hstep k f files u HP) as (u1 & -> & HP1).
    destruct (IH (S k) u1 HP1) as (u' & Hloop & HP').
    exists u'. split.
    + rewrite -Hloop. f_equal. apply imap_ext. intros j x _. cbn. f_equal. lia.
    + cbn [length]. by replace (k + S (length files))%nat with (S k + length files)%nat by lia.
Qed.

Lemma addFileToQueue_returns file projectId description w :
  exists b w',
    addFileToQueue file projectId description w = (Return b, w')
    /\ requests w' = requests w
    /\ (available (localStorage w) = false ->
          localStorage w' = localStorage w /\ storage w' = storage w).
Proof.
  unfold addFileToQueue, bind, Date_now, random_suffix.
  destruct (clock w) as [|now [|t c]] eqn:Hc;
    destruct (entropy w) as [|suffix en] eqn:He;
    cbn [hd tl set_clock set_entropy clock entropy].
  all: rewrite ?Hc ?He; cbn [hd tl set_clock set_entropy clock entropy].
  all: rewrite saveToStorage_eq; unfold storage_write, stringify_for_storage, ls_setItem;
    cbn [localStorage set_clock set_entropy];
    destruct (available (localStorage w)) eqn:Ha;
    [ match goal with
      | |- context [within_quota ?ls ?l] => destruct (within_quota ls l)
      end | ];
    eexists _, _; (split; [reflexivity|]); by cbn.
Qed.

Lemma lookup_drop_head {A} (l : list A) (i : nat) (x : A) (rest : list A) :
  drop i l = x :: rest -> l !! i = Some x /\ drop (S i) l = rest.
Proof.
  intros H. split.
  - rewrite -(Nat.add_0_r i) -lookup_drop H. done.
  - replace (S i) with (i + 1)%nat by lia. rewrite -(drop_drop l 1 i) H. done.
Qed.

Lemma not_failed_step (progress0 progress : list (string * Z)) (id k : string) :
  (forall k, alist_lookup k progress = Some (-1) -> alist_lookup k progress0 = Some (-1)) ->
  alist_lookup k (alist_set id 100 (alist_set id 0 progress)) = Some (-1) ->
  alist_lookup k progress0 = Some (-1).
Proof.
  intros H. destruct (String.eqb k id) eqn:E.
  - apply String.eqb_eq in E as ->. by rewrite alist_lookup_set_eq.
  - apply String.eqb_neq in E. rewrite !alist_lookup_set_ne; try done. apply H.
Qed.

Lemma imap_pair_from_0 (files : list File) :
  imap pair files = imap (fun j f => ((0 + j)%nat, f)) files.
Proof. by apply imap_ext. Qed.

(** X22.  Offline, [handleUpload] never marks a file as failed (in a run
    where the reads of the files by [addFileToQueue] complete):
    the result of [addFileToQueue] is not looked at.  Every selected file
    ends with progress 100, no progress entry becomes -1, and no request is
    sent.  The files at the indices 0, 2, 4, ... leave the selection and
    those at the indices 1, 3, 5, ... stay, since each removal uses the
    file's index in the original selection.  All this also holds while local storage is
    unavailable, when nothing was stored. *)
Theorem handleUpload_offline_never_fails (projectId : value)
    (onFileUploaded : option (value -> JS World unit)) (u : State) :
  let res := handleUpload projectId false onFileUploaded u in
  fst res = Return tt
  /\ selectedFiles (snd res) = odd_indexed (selectedFiles u)
  /\ (forall i file, selectedFiles u !! i = Some file ->
        alist_lookup (fileId file i) (uploadProgress (snd res)) = Some 100)
  /\ (forall k, alist_lookup k (uploadProgress (snd res)) = Some (-1) ->
        alist_lookup k (uploadProgress u) = Some (-1))
  /\ requests (world (snd res)) = requests (world u)
  /\ (available (localStorage (world u)) = false ->
        localStorage (world (snd res)) = localStorage (world u)
        /\ storage (world (snd res)) = storage (world u)).
Proof.
  intros res. subst res. unfold handleUpload.
  destruct (selectedFiles u) as [|f0 files0] eqn:Hsel.
  { cbn [length Nat.eqb fst snd odd_indexed]. rewrite Hsel.
    repeat split; try done. }
  cbn [length Nat.eqb]. rewrite -Hsel.
  set (P := fun (i : nat) (remaining : list File) (v : State) =>
    drop i (selectedFiles u) = remaining
    /\ midway (selectedFiles u) i remaining (selectedFiles v)
    /\ all_done (selectedFiles u) i (uploadProgress v)
    /\ (forall k, alist_lookup k (uploadProgress v) = Some (-1) ->
          alist_lookup k (uploadProgress u) = Some (-1))
    /\ requests (world v) = requests (world u)
    /\ (available (localStorage (world u)) = false ->
          localStorage (world v) = localStorage (world u)
          /\ storage (world v) = storage (world u))).
  destruct (for_of_indexed P
              (fun '(i, file) => handleUpload_file projectId false onFileUploaded
                                   (description u) i file)
              (selectedFiles u) 0 u) as (u' & Hloop & HP).
  { intros i f rest v (Hdrop & Hmid & Hdone & Hfail & Hreq & Hoff).
    destruct (lookup_drop_head _ _ _ _ Hdrop) as [Hf Hdrop'].
    destruct (addFileToQueue_returns f projectId (description u) (world v))
      as (b & w' & Hadd & Hreq' & Hoff').
    unfold handleUpload_file, try_catch, bind, modify, in_world.
    cbn [world set_world setUploadProgress setSelectedFiles selectedFiles
         description uploadProgress].
    rewrite Hadd.
    cbn [world set_world setUploadProgress setSelectedFiles selectedFiles
         description uploadProgress].
    eexists. split; [reflexivity|]. unfold P.
    cbn [world set_world setUploadProgress setSelectedFiles selectedFiles
         description uploadProgress].
    rewrite array_filter_index_delete.
    split; [done|]. split; [by eapply midway_step|].
    split; [by apply all_done_step|].
    split; [intros k; by apply not_failed_step|].
    split; [congruence|].
    intros Ha. destruct (Hoff Ha) as [Hls Hst].
    destruct Hoff' as [Hls' Hst']; [by rewrite Hls|]. split; congruence. }
  { subst P. cbn beta. split; [done|]. split; [apply midway_start|].
    split; [intros j file Hj; lia|]. done. }
  unfold bind. rewrite imap_pair_from_0 Hloop. unfold modify.
  cbn [fst snd world set_world setDescription selectedFiles description uploadProgress].
  destruct HP as (_ & Hmid & Hdone & Hfail & Hreq & Hoff).
  split; [done|]. split; [by eapply midway_end|].
  split; [|done].
  intros i file Hi. apply Hdone; [|done].
  apply lookup_lt_Some in Hi. lia.
Qed.

(** X23.  Online, when every upload of [handleUpload] succeeds
    and the parent's callback returns each time, every file ends with
    progress 100 and the description is cleared, yet the files at the
    indices 1, 3, 5, ... of the selection stay selected: each removal uses
    the file's index in the original selection, while the selection has
    shrunk. *)
Theorem handleUpload_keeps_every_second_file (projectId : value)
    (onFileUploaded : option (value -> JS World unit)) (u : State) :
  all_uploaded projectId (description u) onFileUploaded (selectedFiles u) (world u) ->
  let res := handleUpload projectId true onFileUploaded u in
  fst res = Return tt
  /\ selectedFiles (snd res) = odd_indexed (selectedFiles u)
  /\ (forall i file, selectedFiles u !! i = Some file ->
        alist_lookup (fileId file i) (uploadProgress (snd res)) = Some 100)
  /\ (selectedFiles u <> [] -> description (snd res) = VStr "").
Proof.
  intros Hall res. subst res. unfold handleUpload.
  destruct (selectedFiles u) as [|f0 files0] eqn:Hsel.
  { cbn [length Nat.eqb fst snd odd_indexed]. rewrite Hsel.
    repeat split; try done. }
  cbn [length Nat.eqb]. rewrite -Hsel. rewrite -Hsel in Hall.
  set (P := fun (i : nat) (remaining : list File) (v : State) =>
    drop i (selectedFiles u) = remaining
    /\ midway (selectedFiles u) i remaining (selectedFiles v)
    /\ all_done (selectedFiles u) i (uploadProgress v)
    /\ all_uploaded projectId (description u) onFileUploaded remaining (world v)).
  destruct (for_of_indexed P
              (fun '(i, file) => handleUpload_file projectId true onFileUploaded
                                   (description u) i file)
              (selectedFiles u) 0 u) as (u' & Hloop & HP).
  { intros i f rest v (Hdrop & Hmid & Hdone & Hup).
    destruct (lookup_drop_head _ _ _ _ Hdrop) as [Hf Hdrop'].
    cbn [all_uploaded] in Hup. destruct Hup as (result & w1 & w2 & Hupload & Hcb & Hrest).
    unfold handleUpload_file, try_catch, bind, modify, in_world.
    cbn [world set_world setUploadProgress setSelectedFiles selectedFiles
         description uploadProgress].
    rewrite Hupload.
    cbn [world set_world setUploadProgress setSelectedFiles selectedFiles
         description uploadProgress].
    destruct onFileUploaded as [callback|].
    - cbn [world set_world setUploadProgress setSelectedFiles selectedFiles
           description uploadProgress].
      rewrite Hcb.
      eexists. split; [reflexivity|]. unfold P.
      cbn [world set_world setUploadProgress setSelectedFiles selectedFiles
           description uploadProgress].
      rewrite array_filter_index_delete.
      split; [done|]. split; [by eapply midway_step|].
      split; [by apply all_done_step|]. done.
    - injection Hcb as <-. unfold ret.
      eexists. split; [reflexivity|]. unfold P.
      cbn [world set_world setUploadProgress setSelectedFiles selectedFiles
           description uploadProgress].
      rewrite array_filter_index_delete.
      split; [done|]. split; [by eapply midway_step|].
      split; [by apply all_done_step|]. done. }
  { subst P. cbn beta. split; [done|]. split; [apply midway_start|].
    split; [intros j file Hj; lia|]. done. }
  unfold bind. rewrite imap_pair_from_0 Hloop. unfold modify.
  cbn [fst snd world set_world setDescription selectedFiles description uploadProgress].
  destruct HP as (_ & Hmid & Hdone & _).
  split; [done|]. split; [by eapply midway_end|].
  split; [|done].
  intros i file Hi. apply Hdone; [|done].
  apply lookup_lt_Some in Hi. lia.
Qed.

End UploadFacts.

(** Three files go up; the second one stays selected. *)
Lemma handleUpload_keeps_every_second_file_witness :
  let w := Demo.world Sample.signed_in
             [Responds (SampleUpload.stored 1); Responds (SampleUpload.stored 2);
              Responds (SampleUpload.stored 3)] in
  let res := FileUploader.handleUpload (browser := Chrome.chrome) (VStr "p-7") true None
               (SampleUpload.selection w) in
  FileUploader.selectedFiles (snd res) = [SampleUpload.notes]
  /\ length (requests (FileUploader.world (snd res))) = 3%nat.
Proof.
  intros w res.
  destruct (handleUpload_keeps_every_second_file (browser := Chrome.chrome) (VStr "p-7") None
              (SampleUpload.selection w)) as (_ & H & _).
  - cbn [all_uploaded SampleUpload.selection FileUploader.selectedFiles
         FileUploader.description FileUploader.world].
    do 3 eexists. split; [vm_compute; reflexivity|]. split; [reflexivity|].
    do 3 eexists. split; [vm_compute; reflexivity|]. split; [reflexivity|].
    do 3 eexists. split; [vm_compute; reflexivity|]. split; [reflexivity|].
    exact I.
  - split; [exact H|]. vm_compute. reflexivity.
Defined.

Section HandoverSaveFacts.
Context {browser : Browser}.
Import NamedActions HandoverSave.

Ltac handover_leaf :=
  (split; [done|]);
  (split; [first [by left | by right]|]);
  (split; [first [done
                 | match goal with |- context [is_edit ?m] => by destruct (is_edit m) end]|]);
  (split; [done|]); (split; [done|]);
  try (by intros ? ? ? [=]); try (by intros ? ? ? _ [=]).

(** X24.  Offline, [onSubmit] of the handover form never stores the
    handover for a later sync.  Its [catch] block names [payload], which the
    [try] block declares, so that every failure ends in a ReferenceError
    before [syncFromServer] is called: the outcome does not depend on that
    function, the text [Handover saved offline and will sync when online] is
    never shown, no error message is set, and [isSubmitting] ends false.
    When the request itself is rejected, one request was made and no message
    is shown at all. *)
Theorem handover_offline_save_is_lost (trim : string -> string) (response_of : JsError -> value)
    (mode : string) (handoverId : value) (onSave : option (value -> outcome unit))
    (syncToServer : outcome unit) (syncFromServer : value -> outcome unit)
    (formState : value) (p : Page) :
  let run := onSubmit trim response_of mode handoverId onSave false syncToServer in
  let res := run syncFromServer formState p in
  (forall other, run other formState p = res)
  /\ (fst res = Return tt \/ fst res = Throw (ReferenceError "payload"))
  /\ ui_success (snd res) <> VStr "Handover saved offline and will sync when online"
  /\ ui_loading (snd res) = false
  /\ ui_error (snd res) = VNull
  /\ (forall members e rest,
        named_members trim (get formState "assignedTeamMembers") = Return members ->
        api_replies p = Throw e :: rest ->
        fst res = Throw (ReferenceError "payload")
        /\ ui_success (snd res) = VNull
        /\ length (api_calls (snd res)) = S (length (api_calls p))).
Proof.
  intros run res. subst res run.
  unfold onSubmit, finally, try_catch, bind, modify, unbound, throw, lift, ret.
  cbn [negb].
  destruct (named_members trim (get formState "assignedTeamMembers")) as [members|e0] eqn:Hm.
  2: { cbn. handover_leaf. }
  destruct (is_edit mode && truthy handoverId).
  all: unfold apiCall;
    cbn [api_replies api_calls set_calls set_loading set_error set_success set_replies
         ui_loading ui_error ui_success];
    destruct (api_replies p) as [|[v|e] rest] eqn:Hr;
    [ cbn; handover_leaf
    | cbn [api_replies api_calls set_calls set_loading set_error set_success set_replies
           ui_loading ui_error ui_success];
      destruct onSave as [callback|];
      [ unfold member_of;
        destruct v; cbn [throw ret]; try (cbn; handover_leaf);
        match goal with
        | |- context [callback ?d] => destruct (callback d) as [[]|ec]
        end; cbn; handover_leaf
      | cbn; handover_leaf ]
    | cbn; handover_leaf;
      intros _ _ _ _ _; (split; [done|]); (split; [done|]);
      rewrite length_app; cbn [length]; lia ].
Qed.

End HandoverSaveFacts.
